(** * Wetterdaten Analyse: temperature exceedance pivots and the Excel report

    A shallow embedding of [streamlit_app.py].  The pandas data frame is a
    list of row records, in row order; a column is the list of one field.
    The openpyxl workbook is a list of worksheets in creation order, a
    worksheet a grid of cells with an optional fill, the column widths that
    were set and the images that were anchored.  The statements that can
    raise are written in an exception monad over a small world state: the
    file stored under the report's name and the widgets shown to the
    operator.  What reaches out of the program, the request and the
    archive of [download_and_extract], the plotting and the saving of the
    workbook, is a parameter of the definitions that call it. *)

From Stdlib Require Import Ascii String QArith.
From stdpp Require Import base list sorting strings pretty numbers gmap.

Local Open Scope string_scope.
Local Open Scope list_scope.
Local Open Scope Z_scope.

(** ** Exceptions *)

(** Why a text does not parse with the format: it does not match, it
    matches with text left over, or the numbers it gives are no day of
    the calendar.  Of the message of the error only the text left over is
    kept; the message does not say which row of the column the text is
    from. *)
Inductive ParseError : Type :=
  | DoesNotMatch
  | UnconvertedData (leftover : string)
  | OutOfRange.

(** What [main] can raise.  [ValueError] is the error of [pd.to_datetime];
    [TypeError] is raised by [len] of a missing value and by the
    comparison of a text with a number, [KeyError] by [workbook[name]]
    when there is no sheet of that name; [PlotError] is whatever the
    plotting calls raise, [SaveError] what saving the workbook raises,
    [FileNotFoundError] what [open] raises when there is no file. *)
Inductive Exception : Type :=
  | ValueError (reason : ParseError)
  | TypeError
  | KeyError
  | PlotError
  | SaveError
  | FileNotFoundError.

Definition Exc (A : Type) : Type := Exception + A.

Definition raise {A} (e : Exception) : Exc A := inl e.

Global Instance Exc_ret : MRet Exc := λ A a, inr a.
Global Instance Exc_bind : MBind Exc := λ A B k m,
  match m with
  | inl e => inl e
  | inr a => k a
  end.

(** ** Calendar values *)

Module Datetime.

Record date : Type := Date { year : Z; month : Z; day : Z }.
Record time : Type := Time { hour : Z }.
Record datetime : Type := Timestamp { dt_date : date; dt_time : time }.

Global Instance date_eq_dec : EqDecision date.
Proof. solve_decision. Defined.

Definition is_leap (y : Z) : bool :=
  (y mod 4 =? 0) && (negb (y mod 100 =? 0) || (y mod 400 =? 0)).

Definition days_in_month (y m : Z) : Z :=
  if m =? 2 then (if is_leap y then 29 else 28)
  else if (m =? 4) || (m =? 6) || (m =? 9) || (m =? 11) then 30
  else 31.

(** The constructor [datetime.date(year, month, day)], which the format
    parser calls on the three numbers it read; it raises on a year
    outside 1..9999, a month outside 1..12 and a day the month lacks.
    (The narrower range of years a pandas timestamp of nanosecond
    resolution can hold is not modelled.) *)
Definition make_date (y m d : Z) : option date :=
  if (1 <=? y) && (y <=? 9999) && (1 <=? m) && (m <=? 12)
     && (1 <=? d) && (d <=? days_in_month y m)
  then Some (Date y m d) else None.

(** *** The format ['%Y%m%d%H']

    The format is compiled to one regular expression, a sequence of
    groups, each an ordered choice of alternatives:
      %Y  \d\d\d\d
      %m  1[0-2] | 0[1-9] | [1-9]
      %d  3[01] | [12]\d | 0[1-9] | [1-9] | ' '[1-9]
      %H  2[0-3] | [01]\d | \d
    The text is matched from its start, alternatives are tried in order
    with backtracking, and the first match is taken; text left over after
    it is an error (the match is exact). *)

Definition char_class : Type := ascii → bool.
Definition alternative : Type := list char_class.
Definition directive : Type := list alternative.

Definition code (c : ascii) : Z := Z.of_N (N_of_ascii c).
Definition between (lo hi : ascii) : char_class :=
  λ c, (code lo <=? code c) && (code c <=? code hi).
Definition digit : char_class := between "0" "9".
Definition lit (a : ascii) : char_class := between a a.

Definition re_Y : directive := [[digit; digit; digit; digit]].
Definition re_m : directive :=
  [[lit "1"; between "0" "2"]; [lit "0"; between "1" "9"]; [between "1" "9"]].
Definition re_d : directive :=
  [[lit "3"; between "0" "1"]; [between "1" "2"; digit];
   [lit "0"; between "1" "9"]; [between "1" "9"]; [lit " "; between "1" "9"]].
Definition re_H : directive :=
  [[lit "2"; between "0" "3"]; [between "0" "1"; digit]; [digit]].

Definition format_regex : list directive := [re_Y; re_m; re_d; re_H].

(** One alternative against the start of the text: the characters it
    consumed and the rest. *)
Fixpoint match_alt (a : alternative) (s : list ascii)
  : option (list ascii * list ascii) :=
  match a, s with
  | [], _ => Some ([], s)
  | c :: a', x :: s' =>
      if c x then
        match match_alt a' s' with
        | Some (m, r) => Some (x :: m, r)
        | None => None
        end
      else None
  | _ :: _, [] => None
  end.

Fixpoint first_some {A B} (f : A → option B) (l : list A) : option B :=
  match l with
  | [] => None
  | a :: l' => match f a with Some b => Some b | None => first_some f l' end
  end.

(** The groups in sequence: the first way, in the order of the
    alternatives, to match all of them; the captured groups and the text
    left over. *)
Fixpoint match_seq (ds : list directive) (s : list ascii)
  : option (list (list ascii) * list ascii) :=
  match ds with
  | [] => Some ([], s)
  | d :: ds' =>
      first_some (λ alt,
        match match_alt alt s with
        | Some (m, r) =>
            match match_seq ds' r with
            | Some (ms, r') => Some (m :: ms, r')
            | None => None
            end
        | None => None
        end) d
  end.

(** [int(group)]: the decimal value; the blank a day may start with is
    skipped. *)
Definition int_of (g : list ascii) : Z :=
  fold_left (λ acc c, if digit c then 10 * acc + (code c - 48) else acc) g 0.

(** [strptime(text, '%Y%m%d%H')], [None] where it raises. *)
Definition strptime (text : string) : option datetime :=
  match match_seq format_regex (String.list_ascii_of_string text) with
  | Some ([gY; gm; gd; gH], []) =>
      match make_date (int_of gY) (int_of gm) (int_of gd) with
      | Some d => Some (Timestamp d (Time (int_of gH)))
      | None => None
      end
  | _ => None
  end.

(** Why [strptime] raises on a text it raises on. *)
Definition strptime_error (text : string) : ParseError :=
  match match_seq format_regex (String.list_ascii_of_string text) with
  | None => DoesNotMatch
  | Some (_, c :: rest) => UnconvertedData (String.string_of_list_ascii (c :: rest))
  | Some (_, []) => OutOfRange
  end.

(** [strftime('%d.%m.%Y')] and [str] of a [datetime.time] with whole
    hours. *)
Definition two_digits (n : Z) : string :=
  if n <? 10 then "0" +:+ pretty n else pretty n.
Definition four_digits (n : Z) : string :=
  if n <? 10 then "000" +:+ pretty n
  else if n <? 100 then "00" +:+ pretty n
  else if n <? 1000 then "0" +:+ pretty n
  else pretty n.
Definition strftime_dmY (d : date) : string :=
  two_digits (day d) +:+ "." +:+ two_digits (month d) +:+ "."
    +:+ four_digits (year d).
Definition str_time (t : time) : string :=
  two_digits (hour t) +:+ ":00:00".

End Datetime.

Import Datetime.

(** ** The data frame *)

(** A cell of the temperature column: a float.  The program only compares
    it with 27 and tests it for zero, and both are exact on the rational a
    finite float denotes, so a finite float is that rational; [NaN] is the
    missing value, which [read_csv] gives for an empty field, and [PosInf]
    and [NegInf] are the two infinities, which it gives for [inf] and
    [-inf]. *)
Inductive float64 : Type :=
  | Finite (q : Q)
  | NaN
  | PosInf
  | NegInf.

(** [x >= 27] on a float; false on [NaN]. *)
Definition ge27 (x : float64) : bool :=
  match x with
  | Finite q => Qle_bool 27 q
  | PosInf => true
  | NaN | NegInf => false
  end.

Definition notna (x : float64) : bool :=
  match x with NaN => false | Finite _ | PosInf | NegInf => true end.

Definition is_finite (x : float64) : bool :=
  match x with Finite _ => true | NaN | PosInf | NegInf => false end.

(** A row of the file as [read_csv] returns it with
    [usecols=["MESS_DATUM", "TT_TU"]]: the timestamp column holds integers,
    the temperature column floats. *)
Record RawRow : Type := { MESS_DATUM : Z; TT_TU : float64 }.

(** A row of the frame [process_data] returns. *)
Record Row : Type := {
  Zeitstempel : datetime;
  Wert : float64;
  Jahr : Z;
  Monat : Z;
  Tag : date;
  Uhrzeit : time
}.

Definition DataFrame : Type := list Row.

(** [pd.to_datetime(column, format='%Y%m%d%H')]: every integer is turned
    into its decimal text and parsed; the first text that fails raises. *)
Fixpoint to_datetime (col : list Z) : Exc (list datetime) :=
  match col with
  | [] => mret []
  | x :: col' =>
      match strptime (pretty x) with
      | None => raise (ValueError (strptime_error (pretty x)))
      | Some t =>
          ts ← to_datetime col';
          mret (t :: ts)
      end
  end.

Definition mk_row (t : datetime) (w : float64) : Row :=
  {| Zeitstempel := t; Wert := w;
     Jahr := year (dt_date t); Monat := month (dt_date t);
     Tag := dt_date t; Uhrzeit := dt_time t |}.

Definition process_data (file : list RawRow) : Exc DataFrame :=
  ts ← to_datetime (fmap MESS_DATUM file);
  mret (zip_with mk_row ts (fmap TT_TU file)).

(** ** Pivot tables *)

(** A frame indexed by year, with one labelled column of counts per month:
    the column labels, and for every index value its row of cells. *)
Record PivotTable (L : Type) : Type := {
  columns : list L;
  rows : list (Z * list nat)
}.
Arguments columns {L} _.
Arguments rows {L} _.

(** The sorted distinct values of a key column, as [groupby] lists them. *)
Definition sorted_unique (l : list Z) : list Z :=
  merge_sort (≤) (remove_dups l).

Section pivot_table.
Context {R : Type} (index_key column_key : R → Z) (value_notna : R → bool).

(** [aggfunc='count'] on one group: its values that are not missing. *)
Definition group_count (df : list R) (y m : Z) : nat :=
  length (filter (λ r, value_notna r)
    (filter (λ r, index_key r = y ∧ column_key r = m) df)).

Definition has_group (df : list R) (y m : Z) : bool :=
  bool_decide (Exists (λ r, index_key r = y ∧ column_key r = m) df).

(** [df.pivot_table(index=.., columns=.., values=.., aggfunc='count',
    fill_value=fill)]: the groups of (index, column) are counted and
    unstacked into a table over the sorted index values and the sorted
    column values; a pair without a group gets [fill]. *)
Definition pivot_table (fill : nat) (df : list R) : PivotTable Z :=
  let cols := sorted_unique (fmap column_key df) in
  {| columns := cols;
     rows := fmap (λ y, (y, fmap (λ m, if has_group df y m
                                      then group_count df y m else fill) cols))
                 (sorted_unique (fmap index_key df)) |}.
End pivot_table.

(** [t.reindex(columns=new, fill_value=fill)]: the columns of [new], in
    that order; a label the table has keeps its cells, any other is filled. *)
Definition reindex_columns (new : list Z) (fill : nat) (t : PivotTable Z)
  : PivotTable Z :=
  {| columns := new;
     rows := fmap (λ row : Z * list nat,
               (row.1, fmap (λ m, match list_find (λ c, c = m) (columns t) with
                                 | Some (i, _) => default fill (row.2 !! i)
                                 | None => fill
                                 end) new))
             (rows t) |}.

(** [t.columns = labels]: the labels are replaced, the cells stay.  pandas
    raises when the number of labels differs from the number of columns;
    both callers assign twelve labels to a table just reindexed to the
    twelve columns of [range(1, 13)] (see [reindexed_width]). *)
Definition set_columns {L L'} (labels : list L') (t : PivotTable L)
  : PivotTable L' :=
  {| columns := labels; rows := rows t |}.

(** [t.loc[y, label]] *)
Definition loc {L} `{EqDecision L} (t : PivotTable L) (y : Z) (label : L)
  : option nat :=
  row ← snd <$> list_find (λ row : Z * list nat, row.1 = y) (rows t);
  j ← fst <$> list_find (λ c, c = label) (columns t);
  row.2 !! j.

Definition month_labels : list string :=
  ["Jan"; "Feb"; "Mrz"; "Apr"; "Mai"; "Jun";
   "Jul"; "Aug"; "Sep"; "Okt"; "Nov"; "Dez"].

(** [range(1, 13)] *)
Definition range_1_13 : list Z := seqZ 1 12.

(** The order of calendar days, by which [groupby('Tag')] sorts. *)
Definition date_le (a b : date) : Prop :=
  year a < year b ∨
  (year a = year b ∧ (month a < month b ∨ (month a = month b ∧ day a ≤ day b))).

Global Instance date_le_dec a b : Decision (date_le a b).
Proof. unfold date_le. apply _. Defined.

(** A row of [df_days]: a day with an observation of 27 or more, how many
    it has, and the year and month of the day. *)
Record DayRow : Type := {
  d_Tag : date;
  Ueberschreitungen : nat;
  d_Jahr : Z;
  d_Monat : Z
}.

(** [df[df['Wert'] >= 27].groupby('Tag').size().reset_index(name=..)] with
    the two columns added from the day. *)
Definition days_frame (df : DataFrame) : list DayRow :=
  let hot := filter (λ r, ge27 (Wert r)) df in
  fmap (λ d, {| d_Tag := d;
               Ueberschreitungen := length (filter (λ r, Tag r = d) hot);
               d_Jahr := year d; d_Monat := month d |})
      (merge_sort date_le (remove_dups (fmap Tag hot))).

Definition create_pivot_tables (df : DataFrame)
  : PivotTable string * PivotTable string :=
  let pivot_hours :=
    set_columns month_labels (reindex_columns range_1_13 0
      (pivot_table Jahr Monat (λ r, notna (Wert r)) 0
         (filter (λ r, ge27 (Wert r)) df))) in
  let df_days := days_frame df in
  let pivot_days :=
    set_columns month_labels (reindex_columns range_1_13 0
      (pivot_table d_Jahr d_Monat (λ _, true) 0 df_days)) in
  (pivot_hours, pivot_days).

(** ** The workbook *)

(** What the program writes into a cell: a text, an integer or a
    number. *)
Inductive CellValue : Type :=
  | VStr (s : string)
  | VInt (n : Z)
  | VNum (q : Q).

Record PatternFill : Type := {
  start_color : string;
  end_color : string;
  fill_type : string
}.

Record Cell : Type := { value : CellValue; cell_fill : option PatternFill }.

(** A worksheet: its title, its grid of cells (row 1 first), the widths set
    in [column_dimensions], by column letter, and the images added with the
    cell they are anchored at. *)
Record Worksheet : Type := {
  title : string;
  cells : list (list Cell);
  column_dimensions : gmap string nat;
  images : list (string * string)
}.

(** [writer.book]: the sheets in the order they were created. *)
Definition Workbook : Type := list Worksheet.

Definition plain (v : CellValue) : Cell := {| value := v; cell_fill := None |}.

(** The value [to_excel] writes for a float: the number, the empty text
    ([na_rep]) for a missing one and the text [inf] or [-inf] ([inf_rep])
    for an infinite one. *)
Definition float_value (x : float64) : CellValue :=
  match x with
  | Finite q => VNum q
  | NaN => VStr ""
  | PosInf => VStr "inf"
  | NegInf => VStr "-inf"
  end.

Definition new_sheet (name : string) (grid : list (list Cell)) : Worksheet :=
  {| title := name; cells := grid; column_dimensions := ∅; images := [] |}.

(** The cells [to_excel] writes for a pivot table: the header row (the
    index name, then the column labels) and one row per index value. *)
Definition pivot_grid (t : PivotTable string) : list (list Cell) :=
  fmap plain (VStr "Jahr" :: fmap VStr (columns t)) ::
  fmap (λ row : Z * list nat,
         fmap plain (VInt row.1 :: fmap (λ n, VInt (Z.of_nat n)) row.2))
       (rows t).

(** [pivot.to_excel(writer, sheet_name=name)]: a new sheet with these
    cells.  (The writer would write into a sheet of that name if it had
    one; the names the program uses are all different, see
    [sheet_name_inj] and [sheet_name_not_summary].) *)
Definition pivot_to_excel (t : PivotTable string) (name : string)
    (book : Workbook) : Workbook :=
  book ++ [new_sheet name (pivot_grid t)].

(** A row of [month_data] after the renaming and the date formatting. *)
Record MonthRow : Type := {
  Datum : string;
  m_Uhrzeit : time;
  Temperatur : float64
}.

Definition month_columns : list string := ["Datum"; "Uhrzeit"; "Temperatur"].

(** The cells [to_excel] writes for [month_data] with [index=False]: the
    header row, then one row per row of the frame.  The day is a text
    already; the time of day is written as the text [str] gives. *)
Definition month_grid (month_data : list MonthRow) : list (list Cell) :=
  fmap (λ h, plain (VStr h)) month_columns ::
  fmap (λ r, [plain (VStr (Datum r)); plain (VStr (str_time (m_Uhrzeit r)));
             plain (float_value (Temperatur r))])
       month_data.

(** [month_data.to_excel(writer, sheet_name=name, index=False)] *)
Definition month_to_excel (month_data : list MonthRow) (name : string)
    (book : Workbook) : Workbook :=
  book ++ [new_sheet name (month_grid month_data)].

(** Python's truth value of a cell value. *)
Definition truthy (v : CellValue) : bool :=
  match v with
  | VStr s => negb (bool_decide (s = ""))
  | VInt n => negb (n =? 0)
  | VNum q => negb (Qeq_bool q 0)
  end.

(** [v >= 27]: Python compares numbers, and raises on a text. *)
Definition value_ge27 (v : CellValue) : Exc bool :=
  match v with
  | VInt n => mret (27 <=? n)
  | VNum q => mret (Qle_bool 27 q)
  | VStr _ => raise TypeError
  end.

Definition months : list (Z * string) :=
  [(1, "Jan"); (2, "Feb"); (3, "Mrz"); (4, "Apr"); (5, "Mai"); (6, "Jun");
   (7, "Jul"); (8, "Aug"); (9, "Sep"); (10, "Okt"); (11, "Nov"); (12, "Dez")].

Definition fill : PatternFill :=
  {| start_color := "FFFF99"; end_color := "FFFF99"; fill_type := "solid" |}.

(** [column.unique()]: the distinct values in the order they first appear. *)
Fixpoint unique_from (seen : list Z) (col : list Z) : list Z :=
  match col with
  | [] => []
  | x :: col' =>
      if decide (x ∈ seen) then unique_from seen col'
      else x :: unique_from (x :: seen) col'
  end.
Definition unique (col : list Z) : list Z := unique_from [] col.

(** [get_column_letter(n)] for the first 26 columns; the program asks for
    columns 1 to 3. *)
Definition get_column_letter (n : nat) : string :=
  String (ascii_of_nat (64 + n)) "".

(** [sheet_name = f"{year}_{month_name}"] *)
Definition sheet_name (year : Z) (month_name : string) : string :=
  pretty year +:+ "_" +:+ month_name.

(** *** Loops that can raise

    The workbook is changed in place, so what a loop has done when its
    body raises stays done: a loop gives how it ended and the state it
    leaves. *)
Fixpoint for_each {A S} (body : S → A → Exc () * S) (s : S) (l : list A)
  : Exc () * S :=
  match l with
  | [] => (inr (), s)
  | a :: l' =>
      match body s a with
      | (inl e, s) => (inl e, s)
      | (inr _, s) => for_each body s l'
      end
  end.

(** *** Highlighting

    [if cell.value and cell.value >= 27: cell.fill = fill] *)
Definition highlight_cell (c : Cell) : Exc Cell :=
  if truthy (value c) then
    hot ← value_ge27 (value c);
    mret (if hot : bool then {| value := value c; cell_fill := Some fill |}
          else c)
  else mret c.

(** The loop over
    [iter_rows(min_row=2, min_col=3, max_col=3, max_row=max_row)]: only the
    third cell of a row is visited.  The rows gone through before a cell
    raises keep their fills. *)
Fixpoint highlight_body (body : list (list Cell))
  : Exc () * list (list Cell) :=
  match body with
  | [] => (inr (), [])
  | row :: body' =>
      match row !! 2%nat with
      | Some c =>
          match highlight_cell c with
          | inl e => (inl e, row :: body')
          | inr c' =>
              let '(r, rest) := highlight_body body' in
              (r, <[2%nat := c']> row :: rest)
          end
      | None =>
          let '(r, rest) := highlight_body body' in (r, row :: rest)
      end
  end.

Definition highlight_rows (grid : list (list Cell))
  : Exc () * list (list Cell) :=
  match grid with
  | [] => (inr (), [])
  | header :: body =>
      let '(r, body) := highlight_body body in (r, header :: body)
  end.

Definition highlight (ws : Worksheet) : Exc () * Worksheet :=
  let '(r, grid) := highlight_rows (cells ws) in
  (r, {| title := title ws; cells := grid;
         column_dimensions := column_dimensions ws; images := images ws |}).

(** [workbook[name]] changed in place by [f]: the first sheet with that
    title. *)
Fixpoint update_sheet (name : string) (f : Worksheet → Worksheet)
    (book : Workbook) : Workbook :=
  match book with
  | [] => []
  | ws :: book' =>
      if decide (title ws = name) then f ws :: book'
      else ws :: update_sheet name f book'
  end.

(** The same for statements on the sheet that can raise. *)
Fixpoint with_sheet (name : string) (f : Worksheet → Exc () * Worksheet)
    (book : Workbook) : Exc () * Workbook :=
  match book with
  | [] => (inl KeyError, [])
  | ws :: book' =>
      if decide (title ws = name) then
        let '(r, ws) := f ws in (r, ws :: book')
      else
        let '(r, book') := with_sheet name f book' in (r, ws :: book')
  end.

Definition set_width (letter : string) (width : nat) (ws : Worksheet)
  : Worksheet :=
  {| title := title ws; cells := cells ws;
     column_dimensions := <[letter := width]> (column_dimensions ws);
     images := images ws |}.

(** [.map(len)]: [len] raises on a missing value. *)
Fixpoint map_len (texts : list (option string)) : Exc (list nat) :=
  match texts with
  | [] => mret []
  | Some text :: texts' =>
      lens ← map_len texts';
      mret (String.length text :: lens)
  | None :: _ => raise TypeError
  end.

Section report.
(** [str] of a float of the temperature column that is not missing; the
    digits Python prints for a float are not modelled. *)
Variable str_float : float64 → string.

(** [.astype(str)] on the temperature column: a missing value stays
    missing. *)
Definition astype_str (x : float64) : option string :=
  match x with
  | NaN => None
  | Finite _ | PosInf | NegInf => Some (str_float x)
  end.

(** The texts of the three columns of [month_data], column by column. *)
Definition column_texts (month_data : list MonthRow) (col : nat)
  : list (option string) :=
  match col with
  | 0%nat => fmap (λ r, Some (Datum r)) month_data
  | 1%nat => fmap (λ r, Some (str_time (m_Uhrzeit r))) month_data
  | _ => fmap (λ r, astype_str (Temperatur r)) month_data
  end.

(** [max(column.astype(str).map(len).max(), len(header)) + 2] *)
Definition max_length (month_data : list MonthRow) (col : nat) : Exc nat :=
  lens ← map_len (column_texts month_data col);
  mret (max_list lens `max` String.length (default "" (month_columns !! col))
        + 2)%nat.

(** The loop over the columns; a width set before a column raises stays
    set. *)
Definition set_widths (month_data : list MonthRow) (ws : Worksheet)
  : Exc () * Worksheet :=
  for_each (λ ws col,
              match max_length month_data col with
              | inl e => (inl e, ws)
              | inr width =>
                  (inr (), set_width (get_column_letter (col + 1)) width ws)
              end)
           ws (seq 0 (length month_columns)).

(** The rows of one month, with the columns picked, renamed and the date
    formatted. *)
Definition month_data_of (df : DataFrame) (year month_num : Z)
  : list MonthRow :=
  fmap (λ r, {| Datum := strftime_dmY (Tag r); m_Uhrzeit := Uhrzeit r;
               Temperatur := Wert r |})
      (filter (λ r, Jahr r = year ∧ Monat r = month_num) df).

(** What is done to the sheet of a month once [to_excel] has written
    it: the widths, then the highlighting. *)
Definition format_sheet (month_data : list MonthRow) (ws : Worksheet)
  : Exc () * Worksheet :=
  match set_widths month_data ws with
  | (inl e, ws) => (inl e, ws)
  | (inr _, ws) => highlight ws
  end.

(** The body of the inner loop of [save_monthly_data]. *)
Definition save_month (df : DataFrame) (year : Z) (book : Workbook)
    (m : Z * string) : Exc () * Workbook :=
  let month_data := month_data_of df year m.1 in
  if bool_decide (month_data = []) then (inr (), book)
  else
    let name := sheet_name year m.2 in
    let book := month_to_excel month_data name book in
    with_sheet name (format_sheet month_data) book.

Definition save_monthly_data (df : DataFrame) (book : Workbook)
  : Exc () * Workbook :=
  for_each (λ book year, for_each (save_month df year) book months)
           book (unique (fmap Jahr df)).

(** *** The run *)

(** The plotting engine: a table and a title give the path of the image
    file, or an exception. *)
Variable plot_pivot : PivotTable string → string → Exc string.

(** Whether openpyxl manages to write the workbook to the open file. *)
Variable book_save : Workbook → bool.

Definition plot_and_save_pivot_tables (pivot_hours pivot_days : PivotTable string)
  : Exc (string * string) :=
  image_path_hours ← plot_pivot pivot_hours
    "Anzahl der Stunden mit Temperaturen ≥ 27°C pro Jahr und Monat";
  image_path_days ← plot_pivot pivot_days
    "Anzahl der Tage mit Temperaturen ≥ 27°C pro Jahr und Monat";
  mret (image_path_hours, image_path_days).

Definition sheet_hours : string := "Überschreitungen (Stunden)".
Definition sheet_days : string := "Überschreitungen (Tage)".
Definition excel_path : string := "wetterdaten_analyse_jahr_monat_linie.xlsx".

Definition add_image (img anchor : string) (ws : Worksheet) : Worksheet :=
  {| title := title ws; cells := cells ws;
     column_dimensions := column_dimensions ws;
     images := images ws ++ [(img, anchor)] |}.

(** The body of the [with] block: how it ends, and the workbook the
    writer holds at that point. *)
Definition write_report (df : DataFrame)
    (pivot_hours pivot_days : PivotTable string) : Exc () * Workbook :=
  let book := pivot_to_excel pivot_hours sheet_hours [] in
  let book := pivot_to_excel pivot_days sheet_days book in
  match save_monthly_data df book with
  | (inl e, book) => (inl e, book)
  | (inr _, book) =>
      match plot_and_save_pivot_tables pivot_hours pivot_days with
      | inl e => (inl e, book)
      | inr (image_path_hours, image_path_days) =>
          let book :=
            update_sheet sheet_hours (add_image image_path_hours "E5") book in
          let book :=
            update_sheet sheet_days (add_image image_path_days "E5") book in
          (inr (), book)
      end
  end.

(** What is stored under [excel_path]: a file opened for writing and not
    written completely, or a saved workbook. *)
Inductive FileContent : Type :=
  | Partial
  | Saved (book : Workbook).

Inductive Widget : Type :=
  | st_title (text : string)
  | st_error (text : string)
  | st_success (text : string)
  | st_download_button (label : string) (data : FileContent) (file_name : string).

Record World : Type := { disk : option FileContent; screen : list Widget }.

Definition show (w : Widget) (σ : World) : World :=
  {| disk := disk σ; screen := screen σ ++ [w] |}.
Definition store (c : FileContent) (σ : World) : World :=
  {| disk := Some c; screen := screen σ |}.

(** [with pd.ExcelWriter(excel_path, engine='openpyxl') as writer: body].
    Entering opens the file for writing, which empties it; leaving,
    normally or by an exception of the body, closes the writer, which
    saves the workbook it holds.  An exception of the saving replaces the
    one of the body. *)
Definition with_ExcelWriter (body : Exc () * Workbook) (σ : World)
  : Exc () * World :=
  let σ := store Partial σ in
  if book_save body.2 then (body.1, store (Saved body.2) σ)
  else (inl SaveError, σ).

(** [main], from the click on: [button] is what [st.button] returns and
    [target_file] the rows of the file [download_and_extract] has
    extracted, [None] when it returns [None].  The result is how the
    script run ends (an exception that escapes is shown by the host) and
    the world it leaves. *)
Definition main (button : bool) (target_file : option (list RawRow))
    (σ : World) : Exc () * World :=
  let σ := show (st_title "Wetterdaten Analyse") σ in
  if button then
    match target_file with
    | None =>
        (inr (), show (st_error
           "Die Zieldatei konnte nicht heruntergeladen oder extrahiert werden.") σ)
    | Some file =>
        match process_data file with
        | inl e => (inl e, σ)
        | inr df =>
            let '(pivot_hours, pivot_days) := create_pivot_tables df in
            match with_ExcelWriter (write_report df pivot_hours pivot_days) σ with
            | (inl e, σ) => (inl e, σ)
            | (inr _, σ) =>
                let σ := show (st_success
                  ("Excel-Datei wurde erstellt: " +:+ excel_path)) σ in
                match disk σ with
                | None => (inl FileNotFoundError, σ)
                | Some file =>
                    (inr (), show (st_download_button "Download Excel-Datei"
                                     file excel_path) σ)
                end
            end
        end
    end
  else (inr (), σ).
End report.

(** ** Retrieval *)

(** Python's [keyword in text] on two strings: [keyword] occurs in
    [text]. *)
Fixpoint str_in (keyword text : string) : bool :=
  String.prefix keyword text
  || match text with
     | EmptyString => false
     | String _ text' => str_in keyword text'
     end.

(** What [download_and_extract] reads of the answer to its request. *)
Record Response (B : Type) : Type := {
  status_code : Z;
  reason : string;
  resp_url : string;
  content : B
}.
Arguments status_code {B} _.
Arguments reason {B} _.
Arguments resp_url {B} _.
Arguments content {B} _.

(** [response.raise_for_status()]: a status from 400 to 599 raises an
    [HTTPError]; the result is the text of that exception, or nothing. *)
Definition raise_for_status {B} (response : Response B) : string + () :=
  let status := status_code response in
  if (400 <=? status) && (status <? 500) then
    inl (pretty status +:+ " Client Error: " +:+ reason response
           +:+ " for url: " +:+ resp_url response)
  else if (500 <=? status) && (status <? 600) then
    inl (pretty status +:+ " Server Error: " +:+ reason response
           +:+ " for url: " +:+ resp_url response)
  else inr ().

Section download.
(** The bytes of an answer, an opened archive and the working directory
    are those of the machine the program runs on, and so are the calls
    that reach out of the program.  A call that raises gives the text of
    its exception, which is all the handler reads of it. *)
Context {B Zip FS : Type}.
Variable requests_get : string → string + Response B.
Variable ZipFile : B → string + Zip.
Variable namelist : Zip → list string.
(** [zip_ref.extract(name)] in a working directory: the text of the
    exception it raised, if it raised, and the directory it leaves. *)
Variable extract : Zip → string → FS → option string * FS.

(** The body of the [try]: the exception raised or the value returned,
    and the working directory left.  [find] is the [next] of the
    generator with its default [None]; the empty name is the one name
    that is not true for [if target_file]. *)
Definition download_body (url keyword : string) (cwd : FS)
  : (string + option string) * FS :=
  match requests_get url with
  | inl e => (inl e, cwd)
  | inr response =>
      match raise_for_status response with
      | inl e => (inl e, cwd)
      | inr _ =>
          match ZipFile (content response) with
          | inl e => (inl e, cwd)
          | inr zip_ref =>
              match find (str_in keyword) (namelist zip_ref) with
              | Some target_file =>
                  if bool_decide (target_file = "") then (inr None, cwd)
                  else
                    match extract zip_ref target_file cwd with
                    | (Some e, cwd) => (inl e, cwd)
                    | (None, cwd) => (inr (Some target_file), cwd)
                    end
              | None => (inr None, cwd)
              end
          end
      end
  end.

(** [download_and_extract(url, keyword)]: what it returns, the working
    directory it leaves and the widgets it has shown. *)
Definition download_and_extract (url keyword : string) (cwd : FS)
  : option string * FS * list Widget :=
  match download_body url keyword cwd with
  | (inr target_file, cwd) => (target_file, cwd, [])
  | (inl e, cwd) =>
      (None, cwd, [st_error ("Ein Fehler ist aufgetreten: " +:+ e)])
  end.
End download.

(** The keyword [main] passes. *)
Definition main_keyword : string := "produkt_tu_stunde".

(** ** Predicates of the statements *)

(** *** The exact pattern of the timestamp

    What the format is meant to read: a number of ten decimal digits,
    four of the year, two of the month, two of the day and two of the
    hour, with a month from 01 to 12, a day the month has and an hour from
    00 to 23.  [strptime_ten_digits] proves that the format reads every
    number of ten digits this way. *)
Definition exact_YYYYMMDDHH (x : Z) : option datetime :=
  let y := x `div` 1000000 in
  let m := (x `div` 10000) `mod` 100 in
  let d := (x `div` 100) `mod` 100 in
  let h := x `mod` 100 in
  if (1 <=? m) && (m <=? 12) && (1 <=? d) && (d <=? days_in_month y m)
     && (h <=? 23)
  then Some (Timestamp (Date y m d) (Time h)) else None.

(** Every row of a frame [process_data] returns has its year, month, day
    and time of day taken from its timestamp. *)
Definition derived_columns (r : Row) : Prop :=
  Jahr r = year (Tag r) ∧ Monat r = month (Tag r)
  ∧ Tag r = dt_date (Zeitstempel r) ∧ Uhrzeit r = dt_time (Zeitstempel r).

(** The values of a grid of cells, without the styles. *)
Definition grid_values (grid : list (list Cell)) : list (list CellValue) :=
  (λ row : list Cell, value <$> row) <$> grid.

(** *** The monthly sheets in closed form

    What the two loops of [save_monthly_data] add to the workbook
    ([save_monthly_data_eq] proves it): for every year of the frame, in the
    order [unique] lists them, and every month of [months], the sheet of
    the month when the month has rows, up to and with the first month
    whose sheet makes a statement raise, which is the first month with a
    temperature that is missing or infinite. *)
Definition all_keys (df : DataFrame) : list (Z * (Z * string)) :=
  y ← unique (Jahr <$> df); m ← months; [(y, m)].

Definition has_rows (df : DataFrame) (k : Z * (Z * string)) : Prop :=
  month_data_of df k.1 k.2.1 ≠ [].

Definition detail_keys (df : DataFrame) : list (Z * (Z * string)) :=
  filter (has_rows df) (all_keys df).

(** No temperature of the frame, or of a month of it, is missing or
    infinite. *)
Definition all_finite (df : DataFrame) : Prop :=
  Forall (λ r, is_finite (Wert r)) df.

Definition month_finite (df : DataFrame) (k : Z * (Z * string)) : Prop :=
  all_finite (filter (λ r, Jahr r = k.1 ∧ Monat r = k.2.1) df).

(** The elements of a list up to and with the first that has [P]. *)
Fixpoint through_first {A} (P : A → Prop) `{∀ a, Decision (P a)}
    (l : list A) : list A :=
  match l with
  | [] => []
  | a :: l' => if decide (P a) then [a] else a :: through_first P l'
  end.

Definition written_keys (df : DataFrame) : list (Z * (Z * string)) :=
  through_first (λ k, ¬ month_finite df k) (detail_keys df).

(** The sheet of a month as [save_month] leaves it: with its widths and
    its fills when no statement raised, and else with those set before
    the one that raised. *)
Definition month_sheet (str_float : float64 → string) (df : DataFrame)
    (k : Z * (Z * string)) : Worksheet :=
  let month_data := month_data_of df k.1 k.2.1 in
  (format_sheet str_float month_data
     (new_sheet (sheet_name k.1 k.2.2) (month_grid month_data))).2.

Definition detail_sheets (str_float : float64 → string) (df : DataFrame)
  : Workbook :=
  month_sheet str_float df <$> written_keys df.

(** The row [to_excel] writes for a row of [month_data], and that row
    with the fill the highlighting gives its temperature. *)
Definition sheet_row (r : MonthRow) : list Cell :=
  [plain (VStr (Datum r)); plain (VStr (str_time (m_Uhrzeit r)));
   plain (float_value (Temperatur r))].

Definition filled_row (r : MonthRow) : list Cell :=
  [plain (VStr (Datum r)); plain (VStr (str_time (m_Uhrzeit r)));
   {| value := float_value (Temperatur r);
      cell_fill := if ge27 (Temperatur r) then Some fill else None |}].

(** The width the column sizing is to give a column: the longest text of
    the column or the header, whichever is longer, and two more. *)
Definition padded_width (texts : list string) (header : string) : nat :=
  (max_list (String.length <$> texts) `max` String.length header + 2)%nat.

(** The order of the monthly sheets by year, then month number. *)
Definition key_lt (k k' : Z * (Z * string)) : Prop :=
  k.1 < k'.1 ∨ (k.1 = k'.1 ∧ k.2.1 < k'.2.1).

(** The distinct calendar days of a year and month that have at least
    one observation of 27 or more. *)
Definition hot_days (df : DataFrame) (y m : Z) : list date :=
  remove_dups
    (Tag <$> filter (λ r, Jahr r = y ∧ Monat r = m ∧ ge27 (Wert r)) df).

(** The number a day and an hour are written as: YYYYMMDDHH. *)
Definition stamp (t : datetime) : Z :=
  year (dt_date t) * 1000000 + month (dt_date t) * 10000
  + day (dt_date t) * 100 + hour (dt_time t).

(** The counts of a table: the cells of all its rows. *)
Definition counts {L} (t : PivotTable L) : list nat :=
  concat (snd <$> rows t).

(** The cells of a grid that have a fill. *)
Definition filled (grid : list (list Cell)) : list Cell :=
  filter (λ c, is_Some (cell_fill c)) (concat grid).

(** *** Auxiliaries of the parsing proofs *)

(** The value of a digit character, and of two of them. *)
Definition digit_value (c : ascii) : Z := code c - 48.
Definition two (a b : ascii) : Z := 10 * digit_value a + digit_value b.

Definition digit_chars : list ascii :=
  ["0"; "1"; "2"; "3"; "4"; "5"; "6"; "7"; "8"; "9"]%char.

(** The numbers of the groups of a match that leaves no text over. *)
Definition full (r : option (list (list ascii) * list ascii)) : option (list Z) :=
  match r with
  | Some (ms, []) => Some (int_of <$> ms)
  | _ => None
  end.

Definition valid_day_hour (c d e f : ascii) : bool :=
  (1 <=? two c d) && (two c d <=? 31) && (two e f <=? 23).

(** The length of the longest alternative of a group. *)
Definition longest (d : directive) : nat := max_list (length <$> d).

(** The last [k] decimal digits of [n], written before [s]. *)
Fixpoint digits_text (k : nat) (n : N) (s : string) : string :=
  match k with
  | O => s
  | S k' =>
      digits_text k' (n `div` 10)%N (String (pretty_N_char (n `mod` 10)%N) s)
  end.

(** ** Sample files *)

(** Two hours of New Year's Day 2023, the second at 27.0 degrees. *)
Definition january_file : list RawRow :=
  [ {| MESS_DATUM := 2023010100; TT_TU := Finite 10.5 |};
    {| MESS_DATUM := 2023010123; TT_TU := Finite 27.0 |} ].

Definition january_frame : DataFrame :=
  [ mk_row (Timestamp (Date 2023 1 1) (Time 0)) (Finite 10.5);
    mk_row (Timestamp (Date 2023 1 1) (Time 23)) (Finite 27.0) ].

(** Two hours of one July day, both over 27 degrees, and a cool hour of
    the next day. *)
Definition july_file : list RawRow :=
  [ {| MESS_DATUM := 2023070114; TT_TU := Finite 28.5 |};
    {| MESS_DATUM := 2023070115; TT_TU := Finite 30.1 |};
    {| MESS_DATUM := 2023070203; TT_TU := Finite 17.2 |} ].

Definition july_frame : DataFrame :=
  [ mk_row (Timestamp (Date 2023 7 1) (Time 14)) (Finite 28.5);
    mk_row (Timestamp (Date 2023 7 1) (Time 15)) (Finite 30.1);
    mk_row (Timestamp (Date 2023 7 2) (Time 3)) (Finite 17.2) ].

(** The first hour of 2024 followed by the first hour of 2023. *)
Definition unordered_file : list RawRow :=
  [ {| MESS_DATUM := 2024010100; TT_TU := Finite 3.5 |};
    {| MESS_DATUM := 2023010100; TT_TU := Finite 1.5 |} ].

Definition unordered_frame : DataFrame :=
  [ mk_row (Timestamp (Date 2024 1 1) (Time 0)) (Finite 3.5);
    mk_row (Timestamp (Date 2023 1 1) (Time 0)) (Finite 1.5) ].

(** A stand-in for Python's [str] of a float in the examples: one
    decimal, which is what Python prints for the values of the samples. *)
Definition str_tenths (x : float64) : string :=
  match x with
  | Finite q =>
      let tenths := (Qnum q * 10) `div` Z.pos (Qden q) in
      pretty (tenths `div` 10) +:+ "." +:+ pretty (tenths `mod` 10)
  | NaN => "nan"
  | PosInf => "inf"
  | NegInf => "-inf"
  end.

(** A hot hour of July followed by an hour of July without a
    temperature, and an hour of August. *)
Definition gap_file : list RawRow :=
  [ {| MESS_DATUM := 2023070114; TT_TU := Finite 28.5 |};
    {| MESS_DATUM := 2023070115; TT_TU := NaN |};
    {| MESS_DATUM := 2023080100; TT_TU := Finite 20.0 |} ].

Definition gap_frame : DataFrame :=
  [ mk_row (Timestamp (Date 2023 7 1) (Time 14)) (Finite 28.5);
    mk_row (Timestamp (Date 2023 7 1) (Time 15)) NaN;
    mk_row (Timestamp (Date 2023 8 1) (Time 0)) (Finite 20.0) ].

(** Three hours of one July day, the second with an infinite
    temperature. *)
Definition inf_file : list RawRow :=
  [ {| MESS_DATUM := 2023070114; TT_TU := Finite 28.5 |};
    {| MESS_DATUM := 2023070115; TT_TU := PosInf |};
    {| MESS_DATUM := 2023070116; TT_TU := Finite 30.0 |} ].

Definition inf_frame : DataFrame :=
  [ mk_row (Timestamp (Date 2023 7 1) (Time 14)) (Finite 28.5);
    mk_row (Timestamp (Date 2023 7 1) (Time 15)) PosInf;
    mk_row (Timestamp (Date 2023 7 1) (Time 16)) (Finite 30.0) ].

(** Hours of three months of two years, in the order of time. *)
Definition two_year_file : list RawRow :=
  [ {| MESS_DATUM := 2023010100; TT_TU := Finite 5.0 |};
    {| MESS_DATUM := 2023070114; TT_TU := Finite 28.5 |};
    {| MESS_DATUM := 2024010100; TT_TU := Finite 3.0 |} ].

Definition two_year_frame : DataFrame :=
  [ mk_row (Timestamp (Date 2023 1 1) (Time 0)) (Finite 5.0);
    mk_row (Timestamp (Date 2023 7 1) (Time 14)) (Finite 28.5);
    mk_row (Timestamp (Date 2024 1 1) (Time 0)) (Finite 3.0) ].

(** A timestamp of seven digits, which the format reads as the hour 1 of
    1 January 2023. *)
Definition short_stamp_file : list RawRow :=
  [ {| MESS_DATUM := 2023111; TT_TU := Finite 4.0 |} ].

(** A plotting engine that returns a path, and one that raises. *)
Definition plot_ok (t : PivotTable string) (title : string) : Exc string :=
  inr ("/tmp/" +:+ title +:+ ".png").
Definition plot_raises (t : PivotTable string) (title : string) : Exc string :=
  inl PlotError.

(** The two rows of the specification's scenario: the second timestamp
    has the hour 27. *)
Definition scenario_file : list RawRow :=
  [ {| MESS_DATUM := 2023010100; TT_TU := Finite 10.5 |};
    {| MESS_DATUM := 2023010127; TT_TU := Finite 27.0 |} ].

(** An archive as the weather service packs it, a description next to
    the file of hourly values, and one without such a file.  In the
    samples the bytes of an answer are a text, an opened archive is the
    list of its names and the working directory the list of the names
    extracted into it. *)
Definition station_archive : list string :=
  ["Metadaten_Parameter_tu_stunde_02014.txt";
   "produkt_tu_stunde_20230101_20241231_02014.txt";
   "produkt_tu_stunde_alt.txt"].
Definition other_archive : list string :=
  ["Metadaten_Parameter_tu_stunde_02014.txt"].

Definition server_ok (url : string) : string + Response string :=
  inr {| status_code := 200; reason := "OK"; resp_url := url;
         content := "PK" |}.
Definition server_not_found (url : string) : string + Response string :=
  inr {| status_code := 404; reason := "Not Found"; resp_url := url;
         content := "" |}.
Definition open_archive (names : list string) (bytes : string)
  : string + list string := inr names.
Definition extract_ok (zip_ref : list string) (name : string)
    (cwd : list string) : option string * list string :=
  (None, cwd ++ [name]).

(** A world without a report file and with an empty screen. *)
Definition fresh_world : World := {| disk := None; screen := [] |}.

(** * Properties *)

(** ** Texts *)

Lemma string_length_app (s t : string) :
  String.length (s +:+ t) = (String.length s + String.length t)%nat.
Proof.
  induction s as [|a s IH]; [done|].
  change (S (String.length (s +:+ t))
          = S (String.length s + String.length t)).
  by rewrite IH.
Qed.

Lemma string_app_inj_2 (s1 s2 t1 t2 : string) :
  String.length t1 = String.length t2 →
  s1 +:+ t1 = s2 +:+ t2 → s1 = s2 ∧ t1 = t2.
Proof.
  intros Hlen. revert s2. induction s1 as [|a s1 IH]; intros [|b s2] Heq.
  - done.
  - apply (f_equal String.length) in Heq.
    rewrite !string_length_app in Heq. simpl in Heq. lia.
  - apply (f_equal String.length) in Heq.
    rewrite !string_length_app in Heq. simpl in Heq. lia.
  - change (String a (s1 +:+ t1) = String b (s2 +:+ t2)) in Heq.
    injection Heq as -> Heq. destruct (IH _ Heq) as [-> ->]. done.
Qed.

(** ** The format on sample texts *)

Example strptime_midnight :
  strptime "2023010100" = Some (Timestamp (Date 2023 1 1) (Time 0)).
Proof. by vm_compute. Qed.

Example strptime_leap_day :
  strptime "2024022923" = Some (Timestamp (Date 2024 2 29) (Time 23)).
Proof. by vm_compute. Qed.

(** An hour over 23: the hour group takes the 2 and the 7 is left over. *)
Example strptime_hour_27 : strptime "2023010127" = None.
Proof. by vm_compute. Qed.

Example strptime_month_19 : strptime "2023190100" = None.
Proof. by vm_compute. Qed.

Example strptime_february_30 : strptime "2023023000" = None.
Proof. by vm_compute. Qed.

Example strptime_eleven_digits : strptime "20230101000" = None.
Proof. by vm_compute. Qed.

(** The leading zero of a month, a day or an hour is optional in the
    format, so some shorter texts are read too. *)
Example strptime_eight_digits :
  strptime "20231115" = Some (Timestamp (Date 2023 11 1) (Time 5)).
Proof. by vm_compute. Qed.

Example strptime_seven_digits :
  strptime "2023111" = Some (Timestamp (Date 2023 1 1) (Time 1)).
Proof. by vm_compute. Qed.

Example strftime_new_year : strftime_dmY (Date 2023 1 1) = "01.01.2023".
Proof. by vm_compute. Qed.

(** ** Sorted distinct keys *)

Lemma elem_of_sorted_unique (x : Z) (l : list Z) : x ∈ sorted_unique l ↔ x ∈ l.
Proof.
  unfold sorted_unique.
  by rewrite merge_sort_Permutation, elem_of_remove_dups.
Qed.

Lemma NoDup_sorted_unique (l : list Z) : NoDup (sorted_unique l).
Proof.
  unfold sorted_unique. rewrite merge_sort_Permutation.
  apply NoDup_remove_dups.
Qed.

Lemma filter_none {A} (P : A → Prop) `{∀ x, Decision (P x)} (l : list A) :
  (∀ x, x ∈ l → ¬ P x) → filter P l = [].
Proof.
  induction l as [|a l IH]; intros Hl; [done|].
  rewrite filter_cons_False by (apply Hl; left).
  apply IH. intros x Hx. apply Hl. by right.
Qed.

(** ** Looking a row and a column up *)

Lemma find_row {B} (f : Z → B) (y : Z) (ys : list Z) :
  snd <$> list_find (λ row : Z * B, row.1 = y) ((λ y', (y', f y')) <$> ys)
  = if decide (y ∈ ys) then Some (y, f y) else None.
Proof.
  induction ys as [|z ys IH].
  - case_decide as Hin; [|done]. by apply elem_of_nil in Hin.
  - rewrite fmap_cons. cbn [list_find]. cbn [fst].
    destruct (decide (z = y)) as [->|Hne].
    + by rewrite decide_True by left.
    + rewrite <- option_fmap_compose.
      change (snd ∘ prod_map S id) with (@snd nat (Z * B)).
      rewrite IH. destruct (decide (y ∈ ys)) as [Hin|Hin].
      * by rewrite decide_True by (by right).
      * rewrite decide_False; [done|].
        intros [?|?]%elem_of_cons; congruence.
Qed.

(** A reindexed cell: the old cell where the label was a column, the fill
    elsewhere. *)
Lemma reindexed_cell (g : Z → nat) (fill : nat) (cols : list Z) (m : Z) :
  match list_find (λ c, c = m) cols with
  | Some (i, _) => default fill ((g <$> cols) !! i)
  | None => fill
  end = if decide (m ∈ cols) then g m else fill.
Proof.
  destruct (list_find (λ c, c = m) cols) as [[i c]|] eqn:Hfind.
  - apply list_find_Some in Hfind as (Hi & -> & _).
    rewrite decide_True by (by eapply list_elem_of_lookup_2).
    by rewrite list_lookup_fmap, Hi.
  - apply list_find_None in Hfind.
    rewrite decide_False; [done|].
    intros Hin. rewrite Forall_forall in Hfind. by apply (Hfind m).
Qed.

Section pivot_table_facts.
Context {R : Type} (index_key column_key : R → Z) (value_notna : R → bool).

Lemma group_count_no_group (df : list R) (y m : Z) :
  has_group index_key column_key df y m = false →
  group_count index_key column_key value_notna df y m = 0%nat.
Proof.
  unfold has_group, group_count. intros Hno%bool_decide_eq_false.
  rewrite (filter_none (λ r, index_key r = y ∧ column_key r = m)); [done|].
  intros r Hr Hk. apply Hno, Exists_exists. eauto.
Qed.

Lemma group_count_no_column (df : list R) (y m : Z) :
  m ∉ column_key <$> df →
  group_count index_key column_key value_notna df y m = 0%nat.
Proof.
  intros Hm. apply group_count_no_group, bool_decide_eq_false.
  intros (r & Hr & _ & <-)%Exists_exists. apply Hm.
  by apply list_elem_of_fmap_2.
Qed.

(** The table after [reindex(columns=new, fill_value=0)]: one row per
    index value, and under every new label the count of its group. *)
Lemma reindexed_rows (new : list Z) (df : list R) :
  rows (reindex_columns new 0
          (pivot_table index_key column_key value_notna 0 df))
  = (λ y, (y, (λ m, group_count index_key column_key value_notna df y m) <$> new))
      <$> sorted_unique (index_key <$> df).
Proof.
  unfold reindex_columns, pivot_table; cbn [rows columns].
  rewrite <- list_fmap_compose. apply list_fmap_ext. intros _ y _.
  cbn. f_equal. apply list_fmap_ext. intros _ m _.
  rewrite (reindexed_cell
    (λ m, if has_group index_key column_key df y m
          then group_count index_key column_key value_notna df y m else 0%nat)).
  destruct (decide _) as [Hin|Hin].
  - destruct (has_group _ _ df y m) eqn:Hg; [done|].
    symmetry. by apply group_count_no_group.
  - symmetry. apply group_count_no_column.
    by rewrite <- elem_of_sorted_unique.
Qed.

Lemma reindexed_width (new : list Z) (fill : nat) (t : PivotTable Z) :
  length (columns (reindex_columns new fill t)) = length new.
Proof. done. Qed.
End pivot_table_facts.

(** ** The hour table *)

Lemma hours_group_count (df : DataFrame) (y m : Z) :
  group_count Jahr Monat (λ r, notna (Wert r))
    (filter (λ r, ge27 (Wert r)) df) y m
  = length (filter (λ r, Jahr r = y ∧ Monat r = m ∧ ge27 (Wert r)) df).
Proof.
  unfold group_count. rewrite list_filter_filter.
  rewrite (list_filter_filter _ (λ r, ge27 (Wert r) : Prop)). f_equal.
  apply list_filter_iff. intros r. split.
  - by intros ((_ & ? & ?) & ?).
  - intros (? & ? & Hge). split_and!; try done. by destruct (Wert r).
Qed.

(** A label of the renamed table is the column of its month number. *)
Lemma month_column {B} (g : Z → B) (m : Z) (name : string) :
  (m, name) ∈ months →
  ∃ j, fst <$> list_find (λ c, c = name) month_labels = Some j
       ∧ (g <$> range_1_13) !! j = Some (g m).
Proof.
  intros Hm. unfold months in Hm.
  repeat (apply elem_of_cons in Hm as [[= -> ->]|Hm];
          [eexists; split; reflexivity|]).
  by apply elem_of_nil in Hm.
Qed.

Lemma pivot_hours_loc (df : DataFrame) (y m : Z) (name : string) :
  (m, name) ∈ months →
  loc (create_pivot_tables df).1 y name =
    if decide (y ∈ Jahr <$> filter (λ r, ge27 (Wert r)) df)
    then Some (length (filter
                 (λ r, Jahr r = y ∧ Monat r = m ∧ ge27 (Wert r)) df))
    else None.
Proof.
  intros Hm. unfold create_pivot_tables, loc, set_columns; cbn [fst rows columns].
  rewrite reindexed_rows, find_row.
  rewrite (decide_ext _ _ _ _ (elem_of_sorted_unique y _)).
  case_decide; [|done]. cbn [mbind option_bind snd].
  destruct (month_column
    (λ m, group_count Jahr Monat (λ r, notna (Wert r))
            (filter (λ r, ge27 (Wert r)) df) y m) m name Hm) as (j & -> & Hj).
  cbn [mbind option_bind]. by rewrite Hj, hours_group_count.
Qed.

(** C1. The entry of the hour table for a year and a month is the number of
    observations of that year and month with a value of 27 or more, for
    every year that has a row, which are the years with such an
    observation; in a row, a month without one has the entry 0. *)
Theorem pivot_hours_entry (df : DataFrame) (y m : Z) (name : string) :
  (m, name) ∈ months →
  loc (create_pivot_tables df).1 y name =
    if decide (y ∈ Jahr <$> filter (λ r, ge27 (Wert r)) df)
    then Some (length (filter
                 (λ r, Jahr r = y ∧ Monat r = m ∧ ge27 (Wert r)) df))
    else None.
Proof. apply pivot_hours_loc. Qed.

Lemma pivot_hours_entry_witness :
  (1, "Jan") ∈ months
  ∧ loc (create_pivot_tables january_frame).1 2023 "Jan" = Some 1%nat.
Proof.
  split; [by left|].
  rewrite (pivot_hours_entry january_frame 2023 1 "Jan"); [|by left].
  vm_compute. reflexivity.
Defined.

(** ** Parsing *)

(** *** The format on numbers of ten digits *)

Lemma match_alt_Some (a : alternative) (s m r : list ascii) :
  match_alt a s = Some (m, r) → s = m ++ r ∧ length m = length a.
Proof.
  revert s m r. induction a as [|c a IH]; intros s m r.
  - destruct s; by intros [= <- <-].
  - destruct s as [|x s]; [done|]. cbn.
    destruct (c x); [|done].
    destruct (match_alt a s) as [[m' r']|] eqn:Ha; [|done].
    intros [= <- <-]. destruct (IH _ _ _ Ha) as [-> <-]. done.
Qed.

Lemma first_some_Some {A B} (f : A → option B) (l : list A) (b : B) :
  first_some f l = Some b → ∃ a, a ∈ l ∧ f a = Some b.
Proof.
  induction l as [|a l IH]; [done|]. cbn.
  destruct (f a) as [b'|] eqn:Hf.
  - intros [= <-]. exists a. split; [left|done].
  - intros (a' & ? & ?)%IH. exists a'. split; [by right|done].
Qed.

(** A match takes from the text at most the longest alternative of every
    group. *)
Lemma match_seq_length (ds : list directive) (s r : list ascii)
    (ms : list (list ascii)) :
  match_seq ds s = Some (ms, r) →
  (length s ≤ sum_list (longest <$> ds) + length r)%nat.
Proof.
  revert s r ms. induction ds as [|d ds IH]; intros s r ms.
  - intros [= <- <-]. simpl. lia.
  - cbn [match_seq]. intros (alt & Halt & Hf)%first_some_Some.
    destruct (match_alt alt s) as [[m r1]|] eqn:Hm; [|done].
    destruct (match_seq ds r1) as [[ms' r']|] eqn:Hrest; [|done].
    injection Hf as <- <-.
    apply match_alt_Some in Hm as [-> Hlen]. apply IH in Hrest.
    rewrite length_app, Hlen, fmap_cons.
    change (sum_list (longest d :: (longest <$> ds)))
      with (longest d + sum_list (longest <$> ds))%nat.
    assert (length alt ≤ longest d)%nat; [|lia].
    unfold longest. apply max_list_elem_of_le. by apply list_elem_of_fmap_2.
Qed.

Lemma digit_char_facts (c : ascii) :
  c ∈ digit_chars → digit c = true ∧ 0 ≤ digit_value c ≤ 9.
Proof.
  unfold digit_chars. rewrite !elem_of_cons, elem_of_nil.
  intros H. destruct_or!; subst; try done; by vm_compute.
Qed.

(** The day and the hour groups on the ten thousand texts of four digits,
    by evaluation: the match leaves nothing over exactly when the first
    two digits are a day from 01 to 31 and the last two an hour from 00 to
    23. *)
Lemma day_hour_checked :
  forallb (λ c, forallb (λ d, forallb (λ e, forallb (λ f,
    bool_decide (full (match_seq [re_d; re_H] [c; d; e; f])
                 = if valid_day_hour c d e f
                   then Some [two c d; two e f] else None))
    digit_chars) digit_chars) digit_chars) digit_chars
  = true.
Proof. vm_compute. reflexivity. Qed.

Lemma day_hour_stage (c d e f : ascii) :
  c ∈ digit_chars → d ∈ digit_chars → e ∈ digit_chars → f ∈ digit_chars →
  full (match_seq [re_d; re_H] [c; d; e; f])
  = if valid_day_hour c d e f then Some [two c d; two e f] else None.
Proof.
  intros Hc Hd He Hf. pose proof day_hour_checked as H.
  rewrite forallb_forall in H. apply list_elem_of_In, H in Hc.
  rewrite forallb_forall in Hc. apply list_elem_of_In, Hc in Hd.
  rewrite forallb_forall in Hd. apply list_elem_of_In, Hd in He.
  rewrite forallb_forall in He. apply list_elem_of_In, He in Hf.
  by apply bool_decide_eq_true in Hf.
Qed.

Lemma full_cons (g : list ascii) (r : option (list (list ascii) * list ascii)) :
  full (match r with
        | Some (ms, r') => Some (g :: ms, r')
        | None => None
        end)
  = match full r with Some l => Some (int_of g :: l) | None => None end.
Proof. by destruct r as [[ms [|x r']]|]. Qed.

Lemma strptime_full (text : string) :
  strptime text =
    match full (match_seq format_regex (String.list_ascii_of_string text)) with
    | Some [y; m; d; h] =>
        match make_date y m d with
        | Some dt => Some (Timestamp dt (Time h))
        | None => None
        end
    | _ => None
    end.
Proof.
  unfold strptime.
  destruct (match_seq _ _) as [[ms [|x r]]|]; cbn [full]; [|by repeat case_match..].
  by destruct ms as [|? [|? [|? [|? [|? ?]]]]].
Qed.

Lemma first_some_three {A B} (f : A → option B) (x y z : A) :
  first_some f [x; y; z]
  = match f x with
    | Some b => Some b
    | None => match f y with Some b => Some b | None => f z end
    end.
Proof. cbn. by destruct (f x), (f y), (f z). Qed.

Lemma between_spec (lo hi c : ascii) :
  between lo hi c = true ↔ code lo ≤ code c ≤ code hi.
Proof. unfold between. rewrite andb_true_iff, !Z.leb_le. done. Qed.

(** The month group before them.  A month of two digits is taken by one
    of the first two alternatives; the third takes one digit only, and
    what follows then leaves a digit over, five digits being more than the
    day and the hour can take. *)
Lemma month_stage (a b c d e f : ascii) :
  a ∈ digit_chars → b ∈ digit_chars → c ∈ digit_chars →
  d ∈ digit_chars → e ∈ digit_chars → f ∈ digit_chars →
  full (match_seq [re_m; re_d; re_H] [a; b; c; d; e; f])
  = if (1 <=? two a b) && (two a b <=? 12) && valid_day_hour c d e f
    then Some [two a b; two c d; two e f] else None.
Proof.
  intros Ha Hb Hc Hd He Hf.
  pose proof (day_hour_stage c d e f Hc Hd He Hf) as Hdh.
  assert (∀ g, full (match match_seq [re_d; re_H] [b; c; d; e; f] with
                     | Some (ms, r') => Some (g :: ms, r')
                     | None => None
                     end) = None) as Hshort.
  { intros g. destruct (match_seq [re_d; re_H] [b; c; d; e; f])
      as [[ms r']|] eqn:Hfive; [|done].
    apply match_seq_length in Hfive. destruct r'; [|done]. cbn in Hfive. lia. }
  destruct (digit_char_facts a Ha) as [Hda Hva].
  destruct (digit_char_facts b Hb) as [Hdb Hvb].
  assert (int_of [a; b] = two a b) as Hab.
  { unfold int_of. cbn [fold_left]. rewrite Hda, Hdb. unfold two, digit_value. lia. }
  unfold two, digit_value in Hva, Hvb |- *.
  change (match_seq [re_m; re_d; re_H] [a; b; c; d; e; f])
    with (first_some (λ alt,
            match match_alt alt [a; b; c; d; e; f] with
            | Some (m, r) =>
                match match_seq [re_d; re_H] r with
                | Some (ms, r') => Some (m :: ms, r')
                | None => None
                end
            | None => None
            end) re_m).
  unfold re_m, lit. rewrite first_some_three. cbn [match_alt].
  destruct (between "1" "1" a) eqn:H1; [destruct (between "0" "2" b) eqn:H2|].
  - apply between_spec in H1, H2. change (code "1") with 49 in H1.
    change (code "0") with 48 in H2. change (code "2") with 50 in H2.
    destruct (match_seq [re_d; re_H] [c; d; e; f]) as [[ms r']|] eqn:Hfour.
    + rewrite (full_cons [a; b] (Some (ms, r'))), Hdh, Hab.
      unfold two, digit_value.
      rewrite (proj2 (Z.leb_le 1 _)), (proj2 (Z.leb_le _ 12)) by lia.
      by destruct (valid_day_hour c d e f).
    + cbn [full] in Hdh. destruct (valid_day_hour c d e f); [done|].
      rewrite andb_false_r.
      destruct (between "0" "0" a) eqn:H0.
      { apply between_spec in H0. change (code "0") with 48 in H0. lia. }
      destruct (between "1" "9" a); [apply Hshort|done].
  - apply between_spec in H1. change (code "1") with 49 in H1.
    assert (¬ (48 ≤ code b ≤ 50)) as H2'.
    { intros ?. apply not_true_iff_false in H2. apply H2, between_spec.
      by change (code "0") with 48; change (code "2") with 50. }
    rewrite (proj2 (Z.leb_gt _ 12)) by lia. rewrite andb_false_r. cbn [andb].
    destruct (between "0" "0" a) eqn:H0.
    { apply between_spec in H0. change (code "0") with 48 in H0. lia. }
    destruct (between "1" "9" a); [apply Hshort|done].
  - assert (code a ≠ 49) as H1'.
    { intros ?. apply not_true_iff_false in H1. apply H1, between_spec.
      change (code "1") with 49. lia. }
    destruct (between "0" "0" a) eqn:H0; [destruct (between "1" "9" b) eqn:H9|].
    + apply between_spec in H0, H9. change (code "0") with 48 in H0.
      change (code "1") with 49 in H9. change (code "9") with 57 in H9.
      destruct (match_seq [re_d; re_H] [c; d; e; f]) as [[ms r']|] eqn:Hfour.
      * rewrite (full_cons [a; b] (Some (ms, r'))), Hdh, Hab.
        unfold two, digit_value.
        rewrite (proj2 (Z.leb_le 1 _)), (proj2 (Z.leb_le _ 12)) by lia.
      by destruct (valid_day_hour c d e f).
      * cbn [full] in Hdh. destruct (valid_day_hour c d e f); [done|].
        rewrite andb_false_r.
        destruct (between "1" "9" a) eqn:H19; [|done].
        apply between_spec in H19. change (code "1") with 49 in H19. lia.
    + apply between_spec in H0. change (code "0") with 48 in H0.
      assert (code b = 48) as Hb0.
      { destruct (decide (code b = 48)); [done|]. exfalso.
        apply not_true_iff_false in H9. apply H9, between_spec.
        change (code "1") with 49. change (code "9") with 57. lia. }
      rewrite (proj2 (Z.leb_gt 1 _)) by lia. cbn [andb].
      destruct (between "1" "9" a) eqn:H19; [|done].
      apply between_spec in H19. change (code "1") with 49 in H19. lia.
    + assert (code a ≠ 48) as H0'.
      { intros ?. apply not_true_iff_false in H0. apply H0, between_spec.
        change (code "0") with 48. lia. }
      rewrite (proj2 (Z.leb_gt _ 12)) by lia. rewrite andb_false_r. cbn [andb].
      destruct (between "1" "9" a); [apply Hshort|done].
Qed.

Lemma year_stage (ds : list directive) (y1 y2 y3 y4 : ascii) (s : list ascii) :
  y1 ∈ digit_chars → y2 ∈ digit_chars → y3 ∈ digit_chars → y4 ∈ digit_chars →
  match_seq (re_Y :: ds) (y1 :: y2 :: y3 :: y4 :: s)
  = match match_seq ds s with
    | Some (ms, r) => Some ([y1; y2; y3; y4] :: ms, r)
    | None => None
    end
  ∧ int_of [y1; y2; y3; y4]
    = 1000 * digit_value y1 + 100 * digit_value y2
      + 10 * digit_value y3 + digit_value y4.
Proof.
  intros [H1 _]%digit_char_facts [H2 _]%digit_char_facts
    [H3 _]%digit_char_facts [H4 _]%digit_char_facts.
  split.
  - cbn [match_seq re_Y first_some match_alt]. rewrite H1, H2, H3, H4.
    by destruct (match_seq ds s) as [[ms r]|].
  - unfold int_of. cbn [fold_left]. rewrite H1, H2, H3, H4.
    unfold digit_value. lia.
Qed.

Lemma days_in_month_le_31 (y m : Z) : days_in_month y m ≤ 31.
Proof. unfold days_in_month. repeat case_match; lia. Qed.

(** The parse of ten digit characters. *)
Lemma strptime_digits (y1 y2 y3 y4 a b c d e f : ascii) :
  Forall (λ ch, ch ∈ digit_chars) [y1; y2; y3; y4; a; b; c; d; e; f] →
  strptime (String y1 (String y2 (String y3 (String y4 (String a (String b
             (String c (String d (String e (String f ""))))))))))
  = let y := 1000 * digit_value y1 + 100 * digit_value y2
             + 10 * digit_value y3 + digit_value y4 in
    if (1 <=? two a b) && (two a b <=? 12) && (1 <=? two c d)
       && (two c d <=? days_in_month y (two a b)) && (two e f <=? 23)
    then if 1 <=? y
         then Some (Timestamp (Date y (two a b) (two c d)) (Time (two e f)))
         else None
    else None.
Proof.
  intros Hall. rewrite !Forall_cons in Hall.
  destruct Hall as (Hy1 & Hy2 & Hy3 & Hy4 & Ha & Hb & Hc & Hd & He & Hf & _).
  destruct (year_stage [re_m; re_d; re_H] y1 y2 y3 y4 [a; b; c; d; e; f])
    as [Hyear Hint]; [done..|].
  rewrite strptime_full. cbn [String.list_ascii_of_string]. unfold format_regex.
  rewrite Hyear, full_cons, month_stage, Hint by done. cbn zeta.
  pose proof (proj2 (digit_char_facts y1 Hy1)).
  pose proof (proj2 (digit_char_facts y2 Hy2)).
  pose proof (proj2 (digit_char_facts y3 Hy3)).
  pose proof (proj2 (digit_char_facts y4 Hy4)).
  set (y := 1000 * digit_value y1 + 100 * digit_value y2
            + 10 * digit_value y3 + digit_value y4) in *.
  pose proof (days_in_month_le_31 y (two a b)).
  unfold valid_day_hour.
  destruct (1 <=? two a b) eqn:Hm1, (two a b <=? 12) eqn:Hm2,
    (1 <=? two c d) eqn:Hd1, (two c d <=? 31) eqn:Hd2,
    (two e f <=? 23) eqn:Hh; cbn [andb]; cbv iota beta;
    unfold make_date; rewrite ?Hm1, ?Hm2, ?Hd1, ?andb_false_r;
    destruct (two c d <=? days_in_month y (two a b)) eqn:?,
      (1 <=? y) eqn:?, (y <=? 9999) eqn:?; cbn; try done; lia.
Qed.

Lemma pretty_N_char_digit (k : N) :
  (k < 10)%N →
  pretty_N_char k ∈ digit_chars ∧ digit_value (pretty_N_char k) = Z.of_N k.
Proof.
  intros Hk.
  assert (k = 0 ∨ k = 1 ∨ k = 2 ∨ k = 3 ∨ k = 4 ∨ k = 5 ∨ k = 6 ∨ k = 7
          ∨ k = 8 ∨ k = 9)%N as Hcases by lia.
  destruct_or!; subst; (split; [unfold digit_chars; set_solver|done]).
Qed.

(** The decimal text of a number of [k] digits. *)
Lemma pretty_N_go_digits (k : nat) (n : N) (s : string) :
  (10 ^ N.of_nat k ≤ 10 * n + 9 ∧ n < 10 ^ N.of_nat k)%N →
  pretty_N_go n s = digits_text k n s.
Proof.
  revert n s. induction k as [|k IH]; intros n s Hn.
  - cbn in Hn. assert (n = 0%N) as -> by lia. done.
  - rewrite Nat2N.inj_succ, N.pow_succ_r' in Hn.
    pose proof (N.pow_nonzero 10 (N.of_nat k) ltac:(done)) as Hpow.
    rewrite pretty_N_go_step by lia. cbn [digits_text]. apply IH.
    pose proof (N.div_mod n 10 ltac:(done)) as Hdiv.
    pose proof (N.mod_lt n 10 ltac:(done)) as Hmod.
    clear IH. revert Hn Hpow Hdiv Hmod.
    generalize (10 ^ N.of_nat k)%N (n `div` 10)%N (n `mod` 10)%N. lia.
Qed.

Lemma strptime_ten_digits_N (n : N) :
  (1000000000 ≤ n < 10000000000)%N →
  strptime (pretty n) = exact_YYYYMMDDHH (Z.of_N n).
Proof.
  intros Hn. unfold pretty, pretty_N. rewrite decide_False by lia.
  rewrite (pretty_N_go_digits 10)
    by (change (10 ^ N.of_nat 10)%N with 10000000000%N; lia).
  cbn [digits_text].
  set (q1 := (n `div` 10)%N). set (q2 := (q1 `div` 10)%N).
  set (q3 := (q2 `div` 10)%N). set (q4 := (q3 `div` 10)%N).
  set (q5 := (q4 `div` 10)%N). set (q6 := (q5 `div` 10)%N).
  set (q7 := (q6 `div` 10)%N). set (q8 := (q7 `div` 10)%N).
  set (q9 := (q8 `div` 10)%N).
  pose proof (N.div_mod n 10 ltac:(done)) as E0.
  pose proof (N.div_mod q1 10 ltac:(done)) as E1.
  pose proof (N.div_mod q2 10 ltac:(done)) as E2.
  pose proof (N.div_mod q3 10 ltac:(done)) as E3.
  pose proof (N.div_mod q4 10 ltac:(done)) as E4.
  pose proof (N.div_mod q5 10 ltac:(done)) as E5.
  pose proof (N.div_mod q6 10 ltac:(done)) as E6.
  pose proof (N.div_mod q7 10 ltac:(done)) as E7.
  pose proof (N.div_mod q8 10 ltac:(done)) as E8.
  pose proof (N.div_mod q9 10 ltac:(done)) as E9.
  fold q1 in E0. fold q2 in E1. fold q3 in E2. fold q4 in E3. fold q5 in E4.
  fold q6 in E5. fold q7 in E6. fold q8 in E7. fold q9 in E8.
  pose proof (N.mod_lt n 10 ltac:(done)) as L0.
  pose proof (N.mod_lt q1 10 ltac:(done)) as L1.
  pose proof (N.mod_lt q2 10 ltac:(done)) as L2.
  pose proof (N.mod_lt q3 10 ltac:(done)) as L3.
  pose proof (N.mod_lt q4 10 ltac:(done)) as L4.
  pose proof (N.mod_lt q5 10 ltac:(done)) as L5.
  pose proof (N.mod_lt q6 10 ltac:(done)) as L6.
  pose proof (N.mod_lt q7 10 ltac:(done)) as L7.
  pose proof (N.mod_lt q8 10 ltac:(done)) as L8.
  pose proof (N.mod_lt q9 10 ltac:(done)) as L9.
  rewrite strptime_digits.
  2:{ repeat (constructor; [by apply pretty_N_char_digit|]). constructor. }
  unfold two. rewrite !(λ k H, proj2 (pretty_N_char_digit k H)) by done.
  cbn zeta. unfold exact_YYYYMMDDHH.
  generalize dependent (q9 `div` 10)%N. intros q10 E9.
  revert E0 E1 E2 E3 E4 E5 E6 E7 E8 E9 L0 L1 L2 L3 L4 L5 L6 L7 L8 L9.
  generalize (n `mod` 10)%N (q1 `mod` 10)%N (q2 `mod` 10)%N (q3 `mod` 10)%N
    (q4 `mod` 10)%N (q5 `mod` 10)%N (q6 `mod` 10)%N (q7 `mod` 10)%N
    (q8 `mod` 10)%N (q9 `mod` 10)%N.
  clearbody q1 q2 q3 q4 q5 q6 q7 q8 q9.
  intros r0 r1 r2 r3 r4 r5 r6 r7 r8 r9 **.
  assert (Z.of_N n `div` 1000000
          = 1000 * Z.of_N r9 + 100 * Z.of_N r8 + 10 * Z.of_N r7 + Z.of_N r6)
    as <- by (Z.div_mod_to_equations; lia).
  assert ((Z.of_N n `div` 10000) `mod` 100 = 10 * Z.of_N r5 + Z.of_N r4)
    as <- by (Z.div_mod_to_equations; lia).
  assert ((Z.of_N n `div` 100) `mod` 100 = 10 * Z.of_N r3 + Z.of_N r2)
    as <- by (Z.div_mod_to_equations; lia).
  assert (Z.of_N n `mod` 100 = 10 * Z.of_N r1 + Z.of_N r0)
    as <- by (Z.div_mod_to_equations; lia).
  rewrite (proj2 (Z.leb_le 1 (Z.of_N n `div` 1000000)))
    by (Z.div_mod_to_equations; lia).
  done.
Qed.

(** The format reads a number of ten digits as the exact pattern does:
    the digits are the year, the month, the day and the hour, and the
    number is refused when one of them is out of its range. *)
Lemma strptime_ten_digits (x : Z) :
  1000000000 ≤ x < 10000000000 →
  strptime (pretty x) = exact_YYYYMMDDHH x.
Proof.
  intros Hx. destruct x as [|p|p]; [lia| |lia].
  apply (strptime_ten_digits_N (N.pos p)). lia.
Qed.

(** *** The text of a day *)

Lemma length_digits_text (k : nat) (n : N) (s : string) :
  String.length (digits_text k n s) = (k + String.length s)%nat.
Proof.
  revert n s. induction k as [|k IH]; intros n s; [done|].
  cbn [digits_text]. rewrite IH. cbn. lia.
Qed.

Lemma pretty_length (k : nat) (x : Z) :
  10 ^ Z.of_nat k ≤ 10 * x + 9 → 0 < x < 10 ^ Z.of_nat k →
  String.length (pretty x) = k.
Proof.
  intros Hlo Hhi. destruct x as [|p|p]; [lia| |lia].
  change (pretty (Z.pos p)) with (pretty_N (N.pos p)).
  unfold pretty_N. rewrite decide_False by done.
  rewrite (pretty_N_go_digits k), length_digits_text; [cbn; lia|].
  assert (Z.of_N (10 ^ N.of_nat k) = 10 ^ Z.of_nat k) as Hpow
    by (by rewrite N2Z.inj_pow, nat_N_Z).
  revert Hlo Hhi Hpow. generalize (10 ^ Z.of_nat k) (10 ^ N.of_nat k)%N. lia.
Qed.

Lemma two_digits_length (n : Z) :
  0 ≤ n < 100 → String.length (two_digits n) = 2%nat.
Proof.
  intros Hn. unfold two_digits. destruct (n <? 10) eqn:Hlt.
  - apply Z.ltb_lt in Hlt. destruct (decide (n = 0)) as [->|]; [done|].
    rewrite string_length_app, (pretty_length 1); [done|cbn; lia..].
  - apply Z.ltb_ge in Hlt. apply (pretty_length 2); cbn; lia.
Qed.

Lemma four_digits_length (n : Z) :
  0 ≤ n < 10000 → String.length (four_digits n) = 4%nat.
Proof.
  intros Hn. unfold four_digits.
  destruct (n <? 10) eqn:H1; [|destruct (n <? 100) eqn:H2;
    [|destruct (n <? 1000) eqn:H3]];
    rewrite ?Z.ltb_lt, ?Z.ltb_ge in *.
  - destruct (decide (n = 0)) as [->|]; [done|].
    rewrite string_length_app, (pretty_length 1); [done|cbn; lia..].
  - rewrite string_length_app, (pretty_length 2); [done|cbn; lia..].
  - rewrite string_length_app, (pretty_length 3); [done|cbn; lia..].
  - apply (pretty_length 4); cbn; lia.
Qed.

(** The text [strftime('%d.%m.%Y')] gives has ten characters. *)
Lemma strftime_dmY_length (d : date) :
  0 ≤ day d < 100 → 0 ≤ month d < 100 → 0 ≤ year d < 10000 →
  String.length (strftime_dmY d) = 10%nat.
Proof.
  intros Hd Hm Hy. unfold strftime_dmY. rewrite !string_length_app.
  by rewrite !two_digits_length, four_digits_length.
Qed.

Lemma strptime_date_range (text : string) (t : datetime) :
  strptime text = Some t →
  1 ≤ year (dt_date t) ≤ 9999 ∧ 1 ≤ month (dt_date t) ≤ 12
  ∧ 1 ≤ day (dt_date t) ≤ days_in_month (year (dt_date t)) (month (dt_date t)).
Proof.
  rewrite strptime_full.
  destruct (full _) as [[|y [|m [|d [|h [|? ?]]]]]|]; try done.
  unfold make_date.
  destruct ((1 <=? y) && (y <=? 9999) && (1 <=? m) && (m <=? 12)
            && (1 <=? d) && (d <=? days_in_month y m)) eqn:Hok; [|done].
  intros [= <-]. cbn. rewrite !andb_true_iff, !Z.leb_le in Hok. lia.
Qed.

(** *** The column of timestamps *)

Lemma to_datetime_inr (col : list Z) (ts : list datetime) :
  to_datetime col = inr ts
  ↔ Forall2 (λ x t, strptime (pretty x) = Some t) col ts.
Proof.
  revert ts. induction col as [|x col IH]; intros ts; cbn.
  - split; [intros [= <-]; constructor | by intros ->%Forall2_nil_inv_l].
  - destruct (strptime (pretty x)) as [t|] eqn:Hx.
    + destruct (to_datetime col) as [e|ts'] eqn:Hrest; cbn.
      * split; [done|]. intros (t' & ts' & _ & Hts & _)%Forall2_cons_inv_l.
        apply IH in Hts. congruence.
      * split.
        -- intros [= <-]. constructor; [done|]. by apply IH.
        -- intros (t' & ts'' & Ht & Hts & ->)%Forall2_cons_inv_l.
           apply IH in Hts.
           assert (t' = t) as -> by congruence.
           by assert (ts'' = ts') as -> by congruence.
    + split; [done|]. intros (t' & ts' & Ht & _)%Forall2_cons_inv_l.
      congruence.
Qed.

(** The error of [to_datetime] is the [ValueError] of the first text that
    does not parse. *)
Lemma to_datetime_inl (col : list Z) (e : Exception) :
  to_datetime col = inl e
  ↔ ∃ i x, col !! i = Some x ∧ strptime (pretty x) = None
          ∧ (∀ j y, (j < i)%nat → col !! j = Some y → is_Some (strptime (pretty y)))
          ∧ e = ValueError (strptime_error (pretty x)).
Proof.
  revert e. induction col as [|x col IH]; intros e; cbn.
  - split; [done|]. by intros (i & x & ? & _).
  - destruct (strptime (pretty x)) as [t|] eqn:Hx.
    + destruct (to_datetime col) as [e'|ts']; cbn.
      * split.
        -- intros [= <-].
           destruct (proj1 (IH e') eq_refl) as (i & y & Hi & Hy & Hlt & ->).
           exists (S i), y. split_and!; [done..| |done].
           intros [|j] z Hj Hz; [by simplify_eq/=|].
           apply (Hlt j); [lia|done].
        -- intros ([|i] & y & Hi & Hy & Hlt & ->); simplify_eq/=.
           apply IH. exists i, y. split_and!; [done..| |done].
           intros j z Hj Hz. apply (Hlt (S j)); [lia|done].
      * split; [done|].
        intros ([|i] & y & Hi & Hy & Hlt & ->); simplify_eq/=.
        assert (inr (A:=Exception) ts'
                = inl (ValueError (strptime_error (pretty y)))) as Habs; [|done].
        apply IH. exists i, y. split_and!; [done..| |done].
        intros j z Hj Hz. apply (Hlt (S j)); [lia|done].
    + split.
      * intros [= <-]. exists 0%nat, x. split_and!; [done..|lia|done].
      * intros ([|i] & y & Hi & Hy & Hlt & ->); simplify_eq/=; [done|].
        destruct (Hlt 0%nat x) as [? ?]; [lia|done|congruence].
Qed.

Lemma zip_with_mk_row_derived (ts : list datetime) (ws : list float64) :
  Forall derived_columns (zip_with mk_row ts ws).
Proof.
  revert ws. induction ts as [|t ts IH]; intros [|w ws]; cbn; try constructor.
  - done.
  - apply IH.
Qed.

Lemma process_data_inr (file : list RawRow) (df : DataFrame) :
  process_data file = inr df
  ↔ ∃ ts, Forall2 (λ x t, strptime (pretty x) = Some t) (MESS_DATUM <$> file) ts
          ∧ df = zip_with mk_row ts (TT_TU <$> file).
Proof.
  unfold process_data.
  destruct (to_datetime (MESS_DATUM <$> file)) as [e|ts] eqn:Hts; cbn.
  - split; [done|]. intros (ts & Hall%to_datetime_inr & _). congruence.
  - apply to_datetime_inr in Hts. split.
    + intros [= <-]. eauto.
    + intros (ts' & Hall & ->). do 2 f_equal.
      revert Hts Hall. generalize (MESS_DATUM <$> file). intros col Hts.
      revert ts'. induction Hts; intros ts' Hall.
      * by apply Forall2_nil_inv_l in Hall.
      * apply Forall2_cons_inv_l in Hall as (t' & ts'' & ? & ? & ->).
        f_equal; [congruence|auto].
Qed.

Lemma process_data_derived (file : list RawRow) (df : DataFrame) :
  process_data file = inr df → Forall derived_columns df.
Proof.
  intros (ts & _ & ->)%process_data_inr. apply zip_with_mk_row_derived.
Qed.

(** The days of a parsed frame are days of the calendar, in the years 1 to
    9999. *)
Lemma process_data_days (file : list RawRow) (df : DataFrame) :
  process_data file = inr df →
  Forall (λ r, 1 ≤ year (Tag r) ≤ 9999 ∧ 1 ≤ month (Tag r) ≤ 12
               ∧ 1 ≤ day (Tag r) ≤ days_in_month (year (Tag r)) (month (Tag r)))
         df.
Proof.
  intros (ts & Hts & ->)%process_data_inr.
  revert Hts. generalize (MESS_DATUM <$> file) (TT_TU <$> file).
  intros col ws Hts. revert ws.
  induction Hts as [|x t col ts Hx _ IH]; intros [|w ws]; cbn; try constructor.
  - by apply strptime_date_range in Hx.
  - apply IH.
Qed.

(** ** The day table *)

Lemma filter_all {A} (P : A → Prop) `{∀ x, Decision (P x)} (l : list A) :
  (∀ x, x ∈ l → P x) → filter P l = l.
Proof.
  induction l as [|a l IH]; intros Hl; [done|].
  rewrite filter_cons_True by (apply Hl; left).
  f_equal. apply IH. intros x Hx. apply Hl. by right.
Qed.

Lemma length_filter_fmap {A B} (f : A → B) (P : B → Prop)
    `{∀ x, Decision (P x)} (l : list A) :
  length (filter P (f <$> l)) = length (filter (λ a, P (f a)) l).
Proof.
  induction l as [|a l IH]; [done|].
  rewrite fmap_cons, !filter_cons. case_decide; cbn; by rewrite IH.
Qed.

(** The days [groupby('Tag')] lists: the distinct days with a value of 27
    or more. *)
Lemma elem_of_groupby_days (df : DataFrame) (d : date) :
  d ∈ merge_sort date_le (remove_dups (Tag <$> filter (λ r, ge27 (Wert r)) df))
  ↔ ∃ r, r ∈ df ∧ ge27 (Wert r) ∧ Tag r = d.
Proof.
  rewrite merge_sort_Permutation, elem_of_remove_dups, list_elem_of_fmap.
  split.
  - intros (r & -> & (? & ?)%list_elem_of_filter). eauto.
  - intros (r & ? & ? & <-). exists r. split; [done|].
    by apply list_elem_of_filter.
Qed.

Lemma NoDup_groupby_days (df : DataFrame) :
  NoDup (merge_sort date_le
           (remove_dups (Tag <$> filter (λ r, ge27 (Wert r)) df))).
Proof. rewrite merge_sort_Permutation. apply NoDup_remove_dups. Qed.

(** The count of a group of [df_days] is a number of distinct days. *)
Lemma days_group_count (df : DataFrame) (y m : Z) :
  group_count d_Jahr d_Monat (λ _, true) (days_frame df) y m
  = length (remove_dups (Tag <$> filter
      (λ r, year (Tag r) = y ∧ month (Tag r) = m ∧ ge27 (Wert r)) df)).
Proof.
  unfold group_count. rewrite filter_all by done.
  unfold days_frame. rewrite length_filter_fmap. cbn [d_Jahr d_Monat].
  apply Permutation_length, NoDup_Permutation.
  - apply NoDup_filter, NoDup_groupby_days.
  - apply NoDup_remove_dups.
  - intros d. rewrite list_elem_of_filter, elem_of_groupby_days.
    rewrite elem_of_remove_dups, list_elem_of_fmap. split.
    + intros ([? ?] & r & ? & ? & <-). exists r. split; [done|].
      by apply list_elem_of_filter.
    + intros (r & -> & ((? & ? & ?) & ?)%list_elem_of_filter). eauto 6.
Qed.

Lemma days_index (df : DataFrame) (y : Z) :
  y ∈ sorted_unique (d_Jahr <$> days_frame df)
  ↔ y ∈ (λ r, year (Tag r)) <$> filter (λ r, ge27 (Wert r)) df.
Proof.
  rewrite elem_of_sorted_unique. unfold days_frame.
  rewrite <- list_fmap_compose, !list_elem_of_fmap. split.
  - intros (d & -> & (r & ? & ? & <-)%elem_of_groupby_days).
    exists r. split; [done|]. by apply list_elem_of_filter.
  - intros (r & -> & (? & ?)%list_elem_of_filter). exists (Tag r).
    split; [done|]. apply elem_of_groupby_days. eauto.
Qed.

(** The entry of the day table, by the year and month of the day. *)
Lemma pivot_days_loc (df : DataFrame) (y m : Z) (name : string) :
  (m, name) ∈ months →
  loc (create_pivot_tables df).2 y name =
    if decide (y ∈ (λ r, year (Tag r)) <$> filter (λ r, ge27 (Wert r)) df)
    then Some (length (remove_dups (Tag <$> filter
           (λ r, year (Tag r) = y ∧ month (Tag r) = m ∧ ge27 (Wert r)) df)))
    else None.
Proof.
  intros Hm. unfold create_pivot_tables, loc, set_columns; cbn [snd rows columns].
  rewrite reindexed_rows, find_row.
  rewrite (decide_ext _ _ _ _ (days_index df y)).
  case_decide; [|done]. cbn [mbind option_bind snd].
  destruct (month_column
    (λ m, group_count d_Jahr d_Monat (λ _, true) (days_frame df) y m)
    m name Hm) as (j & -> & Hj).
  cbn [mbind option_bind]. by rewrite Hj, days_group_count.
Qed.

Lemma filter_ext_in {A} (P Q : A → Prop) `{∀ x, Decision (P x)}
    `{∀ x, Decision (Q x)} (l : list A) :
  (∀ x, x ∈ l → P x ↔ Q x) → filter P l = filter Q l.
Proof.
  induction l as [|a l IH]; intros Hl; [done|].
  rewrite (filter_cons P), (filter_cons Q), IH.
  - apply decide_ext, Hl. by left.
  - intros x Hx. apply Hl. by right.
Qed.

Lemma derived_filter (df : DataFrame) (P : Row → Prop) (y m : Z)
    `{∀ r, Decision (P r)} :
  Forall derived_columns df →
  filter (λ r, year (Tag r) = y ∧ month (Tag r) = m ∧ P r) df
  = filter (λ r, Jahr r = y ∧ Monat r = m ∧ P r) df.
Proof.
  intros Hdf. apply filter_ext_in. intros r Hr.
  rewrite Forall_forall in Hdf. destruct (Hdf r Hr) as (-> & -> & _). done.
Qed.

Lemma derived_years (df : DataFrame) :
  Forall derived_columns df → (λ r, year (Tag r)) <$> df = Jahr <$> df.
Proof.
  induction 1 as [|r df (HJ & _) _ IH]; [done|].
  rewrite !fmap_cons. by rewrite IH, HJ.
Qed.

(** C2. In a parsed frame, the entry of the day table for a year and a
    month is the number of distinct calendar days of that year and month
    with at least one observation of 27 or more, for every year that has
    a row: several such observations on one day count once. *)
Theorem pivot_days_entry (file : list RawRow) (df : DataFrame)
    (y m : Z) (name : string) :
  process_data file = inr df →
  (m, name) ∈ months →
  loc (create_pivot_tables df).2 y name =
    if decide (y ∈ Jahr <$> filter (λ r, ge27 (Wert r)) df)
    then Some (length (hot_days df y m))
    else None.
Proof.
  intros Hdf%process_data_derived Hm. rewrite (pivot_days_loc df y m name Hm).
  unfold hot_days. rewrite (derived_filter df _ y m Hdf).
  apply decide_ext. rewrite derived_years; [done|].
  apply Forall_forall. intros r (_ & Hr)%list_elem_of_filter.
  rewrite Forall_forall in Hdf. auto.
Qed.

Lemma pivot_days_entry_witness :
  process_data july_file = inr july_frame
  ∧ (7, "Jul") ∈ months
  ∧ loc (create_pivot_tables july_frame).1 2023 "Jul" = Some 2%nat
  ∧ loc (create_pivot_tables july_frame).2 2023 "Jul" = Some 1%nat.
Proof.
  assert ((7, "Jul") ∈ months) as Hm by (unfold months; set_solver).
  split_and!; [by vm_compute|done|by vm_compute|].
  rewrite (pivot_days_entry july_file july_frame 2023 7 "Jul"); [|by vm_compute|done].
  by vm_compute.
Defined.

(** ** The shape of the two tables *)

Lemma StronglySorted_le_lt (l : list Z) :
  StronglySorted Z.le l → NoDup l → StronglySorted Z.lt l.
Proof.
  induction 1 as [|x k Hk IH Hx]; intros Hnd; [constructor|].
  apply NoDup_cons in Hnd as [Hnotin Hnd].
  constructor; [by apply IH|].
  apply Forall_forall. intros z Hz. rewrite Forall_forall in Hx.
  specialize (Hx z Hz). assert (x ≠ z) by (intros ->; done). lia.
Qed.

Lemma StronglySorted_lt_sorted_unique (l : list Z) :
  StronglySorted Z.lt (sorted_unique l).
Proof.
  apply StronglySorted_le_lt; [|apply NoDup_sorted_unique].
  apply (StronglySorted_merge_sort _).
Qed.

Lemma reindexed_index {R} (index_key column_key : R → Z)
    (value_notna : R → bool) (new : list Z) (df : list R) :
  (rows (reindex_columns new 0
           (pivot_table index_key column_key value_notna 0 df))).*1
  = sorted_unique (index_key <$> df).
Proof.
  rewrite reindexed_rows, <- list_fmap_compose.
  rewrite <- (list_fmap_id (sorted_unique _)) at 2. by apply list_fmap_ext.
Qed.

Lemma reindexed_row_length {R} (index_key column_key : R → Z)
    (value_notna : R → bool) (new : list Z) (df : list R) :
  Forall (λ row : Z * list nat, length row.2 = length new)
    (rows (reindex_columns new 0
             (pivot_table index_key column_key value_notna 0 df))).
Proof.
  rewrite reindexed_rows. apply Forall_fmap, Forall_true.
  intros y. cbn. by rewrite length_fmap.
Qed.

(** C4. Whatever the frame, both tables have the twelve month labels Jan to
    Dez as their columns, in that order, and twelve cells in every row;
    their rows are in ascending order of the year; and in a row, a month
    without a value of 27 or more has the entry 0. *)
Theorem pivot_tables_shape (df : DataFrame) :
  (columns (create_pivot_tables df).1 = month_labels
   ∧ columns (create_pivot_tables df).2 = month_labels)
  ∧ (Forall (λ row, length row.2 = 12%nat) (rows (create_pivot_tables df).1)
     ∧ Forall (λ row, length row.2 = 12%nat) (rows (create_pivot_tables df).2))
  ∧ (StronglySorted Z.lt (rows (create_pivot_tables df).1).*1
     ∧ StronglySorted Z.lt (rows (create_pivot_tables df).2).*1)
  ∧ (∀ y m name,
       (m, name) ∈ months →
       (y ∈ (rows (create_pivot_tables df).1).*1 →
        (∀ r, r ∈ df → Jahr r = y → Monat r = m → ¬ ge27 (Wert r)) →
        loc (create_pivot_tables df).1 y name = Some 0%nat)
       ∧ (y ∈ (rows (create_pivot_tables df).2).*1 →
          (∀ r, r ∈ df → year (Tag r) = y → month (Tag r) = m
                → ¬ ge27 (Wert r)) →
          loc (create_pivot_tables df).2 y name = Some 0%nat)).
Proof.
  split_and!; try done.
  - apply (reindexed_row_length Jahr Monat _ range_1_13).
  - apply (reindexed_row_length d_Jahr d_Monat _ range_1_13).
  - unfold create_pivot_tables, set_columns; cbn [fst rows].
    rewrite reindexed_index. apply StronglySorted_lt_sorted_unique.
  - unfold create_pivot_tables, set_columns; cbn [snd rows].
    rewrite reindexed_index. apply StronglySorted_lt_sorted_unique.
  - intros y m name Hm. split.
    + intros Hy Hnone. rewrite (pivot_hours_loc df y m name Hm).
      unfold create_pivot_tables, set_columns in Hy; cbn [fst rows] in Hy.
      rewrite reindexed_index, elem_of_sorted_unique in Hy.
      rewrite decide_True by done.
      rewrite (filter_none (λ r, Jahr r = y ∧ Monat r = m ∧ ge27 (Wert r)));
        [done|].
      intros r Hr (? & ? & ?). by apply (Hnone r).
    + intros Hy Hnone. rewrite (pivot_days_loc df y m name Hm).
      unfold create_pivot_tables, set_columns in Hy; cbn [snd rows] in Hy.
      rewrite reindexed_index in Hy. apply days_index in Hy.
      rewrite decide_True by done.
      rewrite (filter_none
        (λ r, year (Tag r) = y ∧ month (Tag r) = m ∧ ge27 (Wert r))); [done|].
      intros r Hr (? & ? & ?). by apply (Hnone r).
Qed.

Lemma pivot_tables_shape_witness :
  rows (create_pivot_tables july_frame).1
    = [(2023, [0; 0; 0; 0; 0; 0; 2; 0; 0; 0; 0; 0]%nat)]
  ∧ rows (create_pivot_tables july_frame).2
    = [(2023, [0; 0; 0; 0; 0; 0; 1; 0; 0; 0; 0; 0]%nat)]
  ∧ loc (create_pivot_tables july_frame).1 2023 "Jan" = Some 0%nat
  ∧ loc (create_pivot_tables july_frame).2 2023 "Jan" = Some 0%nat.
Proof.
  pose proof (pivot_tables_shape july_frame) as (_ & _ & _ & Hzero).
  destruct (Hzero 2023 1 "Jan") as [Hhours Hdays]; [by left|].
  assert (∀ r, r ∈ july_frame → Monat r = 1 → ¬ ge27 (Wert r)) as Hcool.
  { intros r Hr Hmo. revert Hr Hmo. unfold july_frame.
    rewrite !elem_of_cons, elem_of_nil. by intros [->|[->|[->|[]]]]. }
  split_and!; [by vm_compute..|apply Hhours|apply Hdays].
  - vm_compute. by left.
  - intros r Hr _. by apply Hcool.
  - vm_compute. by left.
  - intros r Hr _ Hmo. apply Hcool; [done|].
    revert Hr Hmo. unfold july_frame.
    rewrite !elem_of_cons, elem_of_nil. by intros [->|[->|[->|[]]]].
Defined.

(** ** Sheet names *)

Lemma month_name_length (m : Z) (name : string) :
  (m, name) ∈ months → String.length name = 3%nat.
Proof.
  unfold months. rewrite !elem_of_cons, elem_of_nil.
  intros H. repeat (destruct H as [[= _ ->]|H]; [done|]). done.
Qed.

Lemma month_name_number (m m' : Z) (name : string) :
  (m, name) ∈ months → (m', name) ∈ months → m = m'.
Proof.
  unfold months. rewrite !elem_of_cons, !elem_of_nil.
  intros H H'. destruct_or!; by simplify_eq.
Qed.

Lemma sheet_name_inj (y y' m m' : Z) (name name' : string) :
  (m, name) ∈ months → (m', name') ∈ months →
  sheet_name y name = sheet_name y' name' →
  y = y' ∧ m = m' ∧ name = name'.
Proof.
  intros Hm Hm' Heq. unfold sheet_name in Heq.
  apply string_app_inj_2 in Heq as [Hy Hn].
  - apply (inj pretty) in Hy.
    change (String "_" name = String "_" name') in Hn. injection Hn as ->.
    split_and!; [done| |done]. by eapply month_name_number.
  - rewrite !string_length_app.
    by rewrite (month_name_length m name), (month_name_length m' name').
Qed.

(** The two summary sheets are named unlike any monthly sheet. *)
Lemma sheet_name_not_summary (y m : Z) (name : string) :
  (m, name) ∈ months →
  sheet_name y name ≠ sheet_hours ∧ sheet_name y name ≠ sheet_days.
Proof.
  intros Hm.
  assert (∀ pre suf, String.length suf = 4%nat → suf ≠ "_" +:+ name →
            sheet_name y name ≠ pre +:+ suf) as Hne.
  { intros pre suf Hlen Hsuf Heq. unfold sheet_name in Heq.
    apply string_app_inj_2 in Heq as [_ Heq]; [done|].
    by rewrite string_length_app, (month_name_length m name), Hlen. }
  split.
  - apply (Hne "Überschreitungen (Stun" "den)"); [done|].
    unfold months in Hm. rewrite !elem_of_cons, elem_of_nil in Hm.
    repeat (destruct Hm as [[= _ ->]|Hm]; [done|]). done.
  - apply (Hne "Überschreitungen (T" "age)"); [done|].
    unfold months in Hm. rewrite !elem_of_cons, elem_of_nil in Hm.
    repeat (destruct Hm as [[= _ ->]|Hm]; [done|]). done.
Qed.

(** ** Loops that can raise *)

Lemma for_each_app {A S} (body : S → A → Exc () * S) (s : S) (l1 l2 : list A) :
  for_each body s (l1 ++ l2)
  = match for_each body s l1 with
    | (inl e, s') => (inl e, s')
    | (inr _, s') => for_each body s' l2
    end.
Proof.
  revert s. induction l1 as [|a l1 IH]; intros s; [done|]. cbn.
  destruct (body s a) as [[e|[]] s']; [done|apply IH].
Qed.

Lemma for_each_bind {A B S} (body : S → A → Exc () * S) (g : B → list A)
    (s : S) (l : list B) :
  for_each body s (l ≫= g) = for_each (λ s x, for_each body s (g x)) s l.
Proof.
  revert s. induction l as [|x l IH]; intros s; [done|]. cbn.
  rewrite for_each_app.
  destruct (for_each body s (g x)) as [[e|[]] s']; [done|apply IH].
Qed.

Lemma through_first_sublist {A} (P : A → Prop) `{∀ a, Decision (P a)}
    (l : list A) :
  through_first P l `sublist_of` l.
Proof.
  induction l as [|a l IH]; [done|]. cbn. destruct (decide (P a)).
  - apply sublist_skip, sublist_nil_l.
  - by apply sublist_skip.
Qed.

Lemma through_first_prefix {A} (P : A → Prop) `{∀ a, Decision (P a)}
    (l : list A) :
  through_first P l `prefix_of` l.
Proof.
  induction l as [|a l IH]; [done|]. cbn. destruct (decide (P a)).
  - by exists l.
  - by apply prefix_cons.
Qed.

Lemma through_first_none {A} (P : A → Prop) `{∀ a, Decision (P a)}
    (l : list A) :
  Forall (λ a, ¬ P a) l → through_first P l = l.
Proof.
  induction 1 as [|a l Ha _ IH]; [done|]. cbn.
  rewrite decide_False by done. by rewrite IH.
Qed.

(** When an element has [P], the last of these is the first that has. *)
Lemma through_first_last {A} (P : A → Prop) `{∀ a, Decision (P a)}
    (l : list A) :
  ¬ Forall (λ a, ¬ P a) l →
  ∃ a, last (through_first P l) = Some a ∧ P a
       ∧ Forall (λ a, ¬ P a) (removelast (through_first P l)).
Proof.
  induction l as [|a l IH]; intros Hsome; [by destruct Hsome|].
  cbn [through_first]. destruct (decide (P a)) as [Ha|Ha].
  - exists a. by split_and!.
  - destruct IH as (b & Hlast & Hb & Hbefore).
    { intros Hall. apply Hsome. by constructor. }
    exists b. destruct (through_first P l) as [|c k] eqn:Hk; [done|].
    split_and!; [done..|]. cbn [removelast]. by constructor.
Qed.

(** ** The statements on the sheet of a month *)

Lemma with_sheet_app_fresh (name : string) (f : Worksheet → Exc () * Worksheet)
    (book : Workbook) (ws : Worksheet) :
  name ∉ title <$> book → title ws = name →
  with_sheet name f (book ++ [ws]) = ((f ws).1, book ++ [(f ws).2]).
Proof.
  intros Hfresh Hws. induction book as [|ws' book IH]; cbn.
  - rewrite decide_True by done. by destruct (f ws).
  - rewrite fmap_cons, not_elem_of_cons in Hfresh. destruct Hfresh as [Hne Hfresh].
    rewrite decide_False by done. by rewrite IH.
Qed.

Lemma map_len_Some {A} (f : A → string) (l : list A) :
  map_len ((λ a, Some (f a)) <$> l) = inr ((λ a, String.length (f a)) <$> l).
Proof. induction l as [|a l IH]; [done|]. cbn. by rewrite IH. Qed.

Section sheet_facts.
Context (str_float : float64 → string).

Lemma map_len_astype (temps : list float64) :
  map_len (astype_str str_float <$> temps)
  = if decide (Forall (λ x, notna x) temps)
    then inr ((λ x, String.length (str_float x)) <$> temps)
    else inl TypeError.
Proof.
  induction temps as [|x temps IH]; [done|]. cbn [fmap list_fmap map_len].
  destruct x; cbn [astype_str map_len].
  2:{ rewrite decide_False; [done|]. by intros [[] _]%Forall_cons. }
  all: rewrite IH; destruct (decide (Forall _ temps)) as [Hall|Hall].
  all: try (rewrite decide_True by (by constructor); done).
  all: rewrite decide_False; [done|]; by intros [_ ?]%Forall_cons.
Qed.

(** The widths of the first two columns are always set; the third column
    raises when a temperature is missing. *)
Lemma set_widths_eq (month_data : list MonthRow) (ws : Worksheet) :
  set_widths str_float month_data ws
  = let ws :=
      set_width "B"
        (padded_width ((λ r, str_time (m_Uhrzeit r)) <$> month_data) "Uhrzeit")
        (set_width "A" (padded_width (Datum <$> month_data) "Datum") ws) in
    if decide (Forall (λ r, notna (Temperatur r)) month_data)
    then (inr (),
          set_width "C"
            (padded_width ((λ r, str_float (Temperatur r)) <$> month_data)
               "Temperatur") ws)
    else (inl TypeError, ws).
Proof.
  unfold set_widths, max_length. cbn [month_columns length seq for_each].
  cbn [column_texts]. rewrite !map_len_Some. cbn [mbind mret Exc_bind Exc_ret].
  rewrite (list_fmap_compose Temperatur (astype_str str_float)), map_len_astype.
  destruct (decide (Forall (λ r, notna (Temperatur r)) month_data)) as [Hall|Hall].
  - rewrite decide_True by (by apply Forall_fmap). cbn. unfold padded_width.
    by rewrite <- !list_fmap_compose.
  - rewrite decide_False by (by rewrite Forall_fmap). cbn. unfold padded_width.
    by rewrite <- !list_fmap_compose.
Qed.
End sheet_facts.

(** ** Highlighting a grid *)

Lemma ge27_nonzero (q : Q) : Qle_bool 27 q = true → Qeq_bool q 0 = false.
Proof.
  intros Hge%Qle_bool_iff. apply not_true_is_false. intros Hz%Qeq_bool_iff.
  rewrite Hz in Hge. by apply Qle_bool_iff in Hge.
Qed.

(** The cell the highlighting leaves has the value it had. *)
Lemma value_highlight_cell (c c' : Cell) :
  highlight_cell c = inr c' → value c' = value c.
Proof.
  unfold highlight_cell. destruct (truthy (value c)); [|by intros [= <-]].
  destruct (value_ge27 (value c)) as [e|[]]; cbn; by intros [= <-].
Qed.

Lemma value_highlight_body (body : list (list Cell)) :
  grid_values (highlight_body body).2 = grid_values body.
Proof.
  unfold grid_values. induction body as [|row body IH]; [done|].
  cbn [highlight_body]. destruct (row !! 2%nat) as [c|] eqn:Hc.
  - destruct (highlight_cell c) as [e|c'] eqn:Hcell; [done|].
    destruct (highlight_body body) as [r rest]. cbn [snd] in *.
    rewrite !fmap_cons, IH. f_equal.
    rewrite list_fmap_insert. apply list_insert_id.
    by rewrite list_lookup_fmap, Hc, (value_highlight_cell c c').
  - destruct (highlight_body body) as [r rest]. cbn [snd] in *.
    by rewrite !fmap_cons, IH.
Qed.

Lemma value_highlight_rows (grid : list (list Cell)) :
  grid_values (highlight_rows grid).2 = grid_values grid.
Proof.
  destruct grid as [|header body]; [done|]. cbn [highlight_rows].
  pose proof (value_highlight_body body) as Hbody.
  destruct (highlight_body body) as [r rest]. cbn [snd] in *.
  unfold grid_values in *. by rewrite !fmap_cons, Hbody.
Qed.

(** The third cell of a row of a month: a number gets the fill when it is
    27 or more, an empty cell is passed over, the text of an infinite
    temperature raises. *)
Lemma highlight_month_cell (x : float64) :
  highlight_cell (plain (float_value x))
  = match x with
    | Finite _ | NaN =>
        inr {| value := float_value x;
               cell_fill := if ge27 x then Some fill else None |}
    | PosInf | NegInf => inl TypeError
    end.
Proof.
  destruct x as [q| | |]; try done.
  unfold highlight_cell, plain; cbn [value float_value truthy value_ge27 ge27].
  destruct (Qle_bool 27 q) eqn:Hge.
  - by rewrite (ge27_nonzero q Hge).
  - by destruct (Qeq_bool q 0).
Qed.

(** The rows of a month after the loop over them: every row the loop has
    gone through has its fill, the others are as they were written. *)
Lemma highlight_month_rows (month_data : list MonthRow) :
  Forall2 (λ r row, row = sheet_row r
                    ∨ (is_finite (Temperatur r) ∧ row = filled_row r))
    month_data (highlight_body (sheet_row <$> month_data)).2.
Proof.
  induction month_data as [|r month_data IH]; [by constructor|].
  cbn [fmap list_fmap highlight_body]. unfold sheet_row at 1 2 3.
  cbn [lookup list_lookup]. rewrite highlight_month_cell.
  destruct (Temperatur r) as [q| | |] eqn:Hx.
  - destruct (highlight_body (sheet_row <$> month_data)) as [res rest].
    constructor; [|done]. right. split; [by rewrite Hx|].
    unfold filled_row. by rewrite Hx.
  - destruct (highlight_body (sheet_row <$> month_data)) as [res rest].
    constructor; [|done]. left. unfold sheet_row. by rewrite Hx.
  - constructor; [left; unfold sheet_row; by rewrite Hx|].
    apply Forall2_fmap_r, Forall_Forall2_diag, Forall_forall. by left.
  - constructor; [left; unfold sheet_row; by rewrite Hx|].
    apply Forall2_fmap_r, Forall_Forall2_diag, Forall_forall. by left.
Qed.

(** When no temperature is missing or infinite the loop goes through
    every row. *)
Lemma highlight_month_finite (month_data : list MonthRow) :
  Forall (λ r, is_finite (Temperatur r)) month_data →
  highlight_body (sheet_row <$> month_data)
  = (inr (), filled_row <$> month_data).
Proof.
  induction 1 as [|r month_data Hr _ IH]; [done|].
  cbn [fmap list_fmap highlight_body]. unfold sheet_row at 1.
  cbn [lookup list_lookup]. rewrite highlight_month_cell, IH.
  destruct (Temperatur r) as [q| | |] eqn:Hx; try done.
  unfold filled_row. by rewrite Hx.
Qed.

(** When no temperature is missing, the loop raises on the first infinite
    one. *)
Lemma highlight_month_outcome (month_data : list MonthRow) :
  Forall (λ r, notna (Temperatur r)) month_data →
  (highlight_body (sheet_row <$> month_data)).1
  = if decide (Forall (λ r, is_finite (Temperatur r)) month_data)
    then inr () else inl TypeError.
Proof.
  induction 1 as [|r month_data Hr _ IH]; [done|].
  cbn [fmap list_fmap highlight_body]. unfold sheet_row at 1.
  cbn [lookup list_lookup]. rewrite highlight_month_cell.
  destruct (Temperatur r) as [q| | |] eqn:Hx; try done.
  - destruct (highlight_body (sheet_row <$> month_data)) as [res rest].
    cbn [fst] in *. rewrite IH.
    destruct (decide (Forall _ month_data)) as [Hall|Hall].
    + rewrite decide_True; [done|]. constructor; [by rewrite Hx|done].
    + rewrite decide_False; [done|]. by intros [_ ?]%Forall_cons.
  - rewrite decide_False; [done|]. intros [Hfin _]%Forall_cons.
    by rewrite Hx in Hfin.
  - rewrite decide_False; [done|]. intros [Hfin _]%Forall_cons.
    by rewrite Hx in Hfin.
Qed.

(** ** The sheet of a month *)

Lemma Forall_finite_notna (month_data : list MonthRow) :
  Forall (λ r, is_finite (Temperatur r)) month_data →
  Forall (λ r, notna (Temperatur r)) month_data.
Proof.
  intros Hfin. eapply Forall_impl; [done|].
  intros r. cbn beta. by destruct (Temperatur r).
Qed.

Lemma month_grid_rows (month_data : list MonthRow) :
  month_grid month_data
  = ((λ h, plain (VStr h)) <$> month_columns) :: (sheet_row <$> month_data).
Proof. done. Qed.

Section format_facts.
Context (str_float : float64 → string).

Lemma title_format_sheet (month_data : list MonthRow) (ws : Worksheet) :
  title (format_sheet str_float month_data ws).2 = title ws.
Proof.
  unfold format_sheet. rewrite set_widths_eq. cbn zeta.
  destruct (decide _); [|done]. unfold highlight.
  by destruct (highlight_rows _).
Qed.

Lemma images_format_sheet (month_data : list MonthRow) (ws : Worksheet) :
  images (format_sheet str_float month_data ws).2 = images ws.
Proof.
  unfold format_sheet. rewrite set_widths_eq. cbn zeta.
  destruct (decide _); [|done]. unfold highlight.
  by destruct (highlight_rows _).
Qed.

(** The widths of the sheet of a month: of all three columns when no
    temperature is missing, and else of the first two. *)
Lemma widths_format_sheet (month_data : list MonthRow) (ws : Worksheet) :
  column_dimensions (format_sheet str_float month_data ws).2
  = let two :=
      <["B" := padded_width ((λ r, str_time (m_Uhrzeit r)) <$> month_data)
                 "Uhrzeit"]>
        (<["A" := padded_width (Datum <$> month_data) "Datum"]>
           (column_dimensions ws)) in
    if decide (Forall (λ r, notna (Temperatur r)) month_data)
    then <["C" := padded_width ((λ r, str_float (Temperatur r)) <$> month_data)
                     "Temperatur"]> two
    else two.
Proof.
  unfold format_sheet. rewrite set_widths_eq. cbn zeta.
  destruct (decide _); [|done]. unfold highlight.
  by destruct (highlight_rows _).
Qed.

Lemma values_format_sheet (month_data : list MonthRow) (ws : Worksheet) :
  grid_values (cells (format_sheet str_float month_data ws).2)
  = grid_values (cells ws).
Proof.
  unfold format_sheet. rewrite set_widths_eq. cbn zeta.
  destruct (decide _); [|done]. unfold highlight. cbn [set_width cells].
  pose proof (value_highlight_rows (cells ws)) as Hv.
  by destruct (highlight_rows (cells ws)).
Qed.

(** The cells of the sheet of a month: the header, and the rows with the
    fills of those the highlighting has gone through. *)
Lemma cells_format_sheet (month_data : list MonthRow) (ws : Worksheet) :
  cells ws = month_grid month_data →
  ∃ body,
    cells (format_sheet str_float month_data ws).2
      = ((λ h, plain (VStr h)) <$> month_columns) :: body
    ∧ Forall2 (λ r row, row = sheet_row r
                        ∨ (is_finite (Temperatur r) ∧ row = filled_row r))
        month_data body.
Proof.
  intros Hcells. unfold format_sheet. rewrite set_widths_eq. cbn zeta.
  destruct (decide _).
  - unfold highlight. cbn [set_width cells]. rewrite Hcells, month_grid_rows.
    unfold highlight_rows.
    pose proof (highlight_month_rows month_data) as Hrows.
    destruct (highlight_body (sheet_row <$> month_data)) as [res body].
    by exists body.
  - cbn [snd set_width cells]. rewrite Hcells. eexists. split; [done|].
    apply Forall2_fmap_r, Forall_Forall2_diag, Forall_forall. by left.
Qed.

Lemma cells_format_sheet_finite (month_data : list MonthRow) (ws : Worksheet) :
  cells ws = month_grid month_data →
  Forall (λ r, is_finite (Temperatur r)) month_data →
  cells (format_sheet str_float month_data ws).2
  = ((λ h, plain (VStr h)) <$> month_columns) :: (filled_row <$> month_data).
Proof.
  intros Hcells Hfin. unfold format_sheet. rewrite set_widths_eq. cbn zeta.
  rewrite decide_True by (by apply Forall_finite_notna).
  unfold highlight. cbn [set_width cells]. rewrite Hcells, month_grid_rows.
  unfold highlight_rows. by rewrite highlight_month_finite.
Qed.

(** The statements on the sheet of a month raise exactly when a
    temperature of the month is missing or infinite. *)
Lemma outcome_format_sheet (month_data : list MonthRow) (ws : Worksheet) :
  cells ws = month_grid month_data →
  (format_sheet str_float month_data ws).1
  = if decide (Forall (λ r, is_finite (Temperatur r)) month_data)
    then inr () else inl TypeError.
Proof.
  intros Hcells. unfold format_sheet. rewrite set_widths_eq. cbn zeta.
  destruct (decide (Forall (λ r, notna (Temperatur r)) month_data))
    as [Hall|Hall].
  - unfold highlight. cbn [set_width cells]. rewrite Hcells, month_grid_rows.
    unfold highlight_rows.
    pose proof (highlight_month_outcome month_data Hall) as Hout.
    by destruct (highlight_body (sheet_row <$> month_data)) as [res body].
  - rewrite decide_False; [done|]. intros Hfin.
    by apply Hall, Forall_finite_notna.
Qed.
End format_facts.

(** ** The loops of [save_monthly_data] *)

Lemma for_each_ext {A S} (f g : S → A → Exc () * S) (s : S) (l : list A) :
  (∀ s a, f s a = g s a) → for_each f s l = for_each g s l.
Proof.
  intros Hfg. revert s. induction l as [|a l IH]; intros s; [done|].
  cbn. rewrite Hfg. destruct (g s a) as [[e|[]] s']; [done|apply IH].
Qed.

Lemma for_each_singleton {A S} (f : S → A → Exc () * S) (s : S) (a : A) :
  for_each f s [a] = f s a.
Proof. cbn. by destruct (f s a) as [[e|[]] s']. Qed.

Lemma month_finite_data (df : DataFrame) (k : Z * (Z * string)) :
  month_finite df k
  ↔ Forall (λ r, is_finite (Temperatur r)) (month_data_of df k.1 k.2.1).
Proof. unfold month_finite, all_finite, month_data_of. by rewrite Forall_fmap. Qed.

Section report_facts.
Context (str_float : float64 → string).

Lemma title_month_sheet (df : DataFrame) (k : Z * (Z * string)) :
  title (month_sheet str_float df k) = sheet_name k.1 k.2.2.
Proof. unfold month_sheet. by rewrite title_format_sheet. Qed.

(** One pass of the inner loop on a workbook without a sheet of that
    name: a month without rows is passed over; the sheet of a month with
    rows is added, and the pass raises when a temperature of the month is
    missing or infinite. *)
Lemma save_month_fresh (df : DataFrame) (book : Workbook) (k : Z * (Z * string)) :
  sheet_name k.1 k.2.2 ∉ title <$> book →
  save_month str_float df k.1 book k.2
  = if decide (has_rows df k)
    then (if decide (month_finite df k) then inr () else inl TypeError,
          book ++ [month_sheet str_float df k])
    else (inr (), book).
Proof.
  intros Hfresh. unfold save_month, has_rows.
  destruct (decide (month_data_of df k.1 k.2.1 ≠ [])) as [Hrows|Hnone].
  - rewrite bool_decide_eq_false_2 by done. unfold month_to_excel.
    rewrite with_sheet_app_fresh by done.
    rewrite outcome_format_sheet by done. f_equal.
    destruct (decide (month_finite df k)) as [Hfin|Hfin].
    + rewrite decide_True; [done|]. by apply month_finite_data.
    + rewrite decide_False; [done|]. by rewrite <- month_finite_data.
  - apply dec_stable in Hnone. by rewrite bool_decide_eq_true_2.
Qed.

Lemma save_keys_fresh (df : DataFrame) (keys : list (Z * (Z * string)))
    (book : Workbook) :
  NoDup ((λ k, sheet_name k.1 k.2.2) <$> keys) →
  (∀ k, k ∈ keys → sheet_name k.1 k.2.2 ∉ title <$> book) →
  for_each (λ book k, save_month str_float df k.1 book k.2) book keys
  = (if decide (Forall (month_finite df) (filter (has_rows df) keys))
     then inr () else inl TypeError,
     book ++ (month_sheet str_float df
              <$> through_first (λ k, ¬ month_finite df k)
                    (filter (has_rows df) keys))).
Proof.
  revert book. induction keys as [|k keys IH]; intros book Hnd Hfresh.
  - cbn. by rewrite app_nil_r.
  - rewrite fmap_cons in Hnd. apply NoDup_cons in Hnd as [Hk Hnd].
    cbn [for_each]. rewrite save_month_fresh by (apply Hfresh; left).
    rewrite (filter_cons (has_rows df)).
    destruct (decide (has_rows df k)) as [Hrows|Hrows].
    + cbn [through_first].
      destruct (decide (month_finite df k)) as [Hfin|Hfin].
      * rewrite (decide_False (P := ¬ month_finite df k)) by (by intros Hn; apply Hn).
        rewrite IH; [|done|].
        -- rewrite fmap_cons, <- app_assoc. f_equal.
           destruct (decide (Forall _ (filter _ keys))) as [Hall|Hall].
           ++ rewrite decide_True; [done|]. by constructor.
           ++ rewrite decide_False; [done|]. by intros [_ ?]%Forall_cons.
        -- intros k' Hk'. rewrite fmap_app, elem_of_app. intros [Hin|Hin].
           ++ by apply (Hfresh k'); [right|].
           ++ apply list_elem_of_singleton in Hin. apply Hk.
              rewrite title_month_sheet in Hin. rewrite <- Hin.
              apply list_elem_of_fmap. by exists k'.
      * rewrite (decide_True (P := ¬ month_finite df k)) by done. f_equal.
        rewrite decide_False; [done|]. by intros [? _]%Forall_cons.
    + apply IH; [done|]. intros k' Hk'. apply Hfresh. by right.
Qed.
End report_facts.

(** ** [unique] and the keys of the monthly sheets *)

Lemma elem_of_unique_from (seen col : list Z) (x : Z) :
  x ∈ unique_from seen col ↔ x ∈ col ∧ x ∉ seen.
Proof.
  revert seen. induction col as [|c col IH]; intros seen; cbn.
  - rewrite elem_of_nil. by split; [|intros [? _]].
  - destruct (decide (c ∈ seen)) as [Hc|Hc].
    + rewrite IH, elem_of_cons. split; [intros [??]; auto|].
      intros [[->|?] ?]; done.
    + rewrite !elem_of_cons, IH, not_elem_of_cons. split.
      * intros [->|(? & ? & ?)]; auto.
      * intros [[->|?] ?]; [by left|].
        destruct (decide (x = c)) as [->|]; [by left|right; done].
Qed.

Lemma NoDup_unique_from (seen col : list Z) : NoDup (unique_from seen col).
Proof.
  revert seen. induction col as [|c col IH]; intros seen; cbn; [constructor|].
  destruct (decide (c ∈ seen)); [apply IH|].
  constructor; [|apply IH].
  rewrite elem_of_unique_from, not_elem_of_cons. by intros [_ [? _]].
Qed.

Lemma sublist_unique_from (seen col : list Z) : unique_from seen col `sublist_of` col.
Proof.
  revert seen. induction col as [|c col IH]; intros seen; cbn; [constructor|].
  destruct (decide (c ∈ seen)); [apply sublist_cons|apply sublist_skip]; apply IH.
Qed.

Lemma elem_of_unique (col : list Z) (x : Z) : x ∈ unique col ↔ x ∈ col.
Proof.
  unfold unique. rewrite elem_of_unique_from. split; [by intros [? _]|].
  intros ?. split; [done|]. apply not_elem_of_nil.
Qed.

Lemma elem_of_all_keys (df : DataFrame) (k : Z * (Z * string)) :
  k ∈ all_keys df ↔ k.1 ∈ Jahr <$> df ∧ k.2 ∈ months.
Proof.
  unfold all_keys. rewrite list_elem_of_bind. setoid_rewrite list_elem_of_bind.
  setoid_rewrite list_elem_of_singleton. setoid_rewrite elem_of_unique.
  destruct k as [y m]. split.
  - by intros (y' & (m' & [= -> ->] & ?) & ?).
  - intros [? ?]. exists y. split; [|done]. by exists m.
Qed.

Lemma NoDup_months : NoDup months.
Proof. apply (bool_decide_unpack (NoDup months)). by vm_compute. Qed.

Lemma NoDup_all_keys (df : DataFrame) : NoDup (all_keys df).
Proof.
  unfold all_keys. apply NoDup_bind; [| |apply NoDup_unique_from].
  - intros y1 y2 k _ _.
    intros (m1 & ->%list_elem_of_singleton & _)%list_elem_of_bind.
    by intros (m2 & [= ->]%list_elem_of_singleton & _)%list_elem_of_bind.
  - intros y _. apply NoDup_bind; [| |apply NoDup_months].
    + intros m1 m2 k _ _ ->%list_elem_of_singleton.
      by intros [= ->]%list_elem_of_singleton.
    + intros m _. apply NoDup_singleton.
Qed.

Lemma NoDup_key_names (df : DataFrame) :
  NoDup ((λ k, sheet_name k.1 k.2.2) <$> all_keys df).
Proof.
  apply NoDup_fmap_2_strong; [|apply NoDup_all_keys].
  intros [y [m name]] [y' [m' name']] [_ Hm]%elem_of_all_keys
    [_ Hm']%elem_of_all_keys Heq.
  by destruct (sheet_name_inj y y' m m' name name' Hm Hm' Heq) as (-> & -> & ->).
Qed.

Lemma save_monthly_data_keys (str_float : float64 → string)
    (df : DataFrame) (book : Workbook) :
  save_monthly_data str_float df book
  = for_each (λ book k, save_month str_float df k.1 book k.2) book
      (all_keys df).
Proof.
  unfold save_monthly_data, all_keys. rewrite for_each_bind.
  apply for_each_ext. intros book' y. rewrite for_each_bind.
  apply for_each_ext. intros book'' m. by rewrite for_each_singleton.
Qed.

(** The monthly sheets are appended to a workbook that has no sheet with
    the name of a monthly sheet; the loops raise at the first month with
    rows that has a temperature missing or infinite. *)
Lemma save_monthly_data_eq (str_float : float64 → string)
    (df : DataFrame) (book : Workbook) :
  (∀ ws, ws ∈ book → title ws = sheet_hours ∨ title ws = sheet_days) →
  save_monthly_data str_float df book
  = (if decide (Forall (month_finite df) (detail_keys df))
     then inr () else inl TypeError,
     book ++ detail_sheets str_float df).
Proof.
  intros Hbook. rewrite save_monthly_data_keys.
  apply save_keys_fresh; [apply NoDup_key_names|].
  intros [y [m name]] [_ Hm]%elem_of_all_keys.
  intros (ws & Hname & Hws)%list_elem_of_fmap.
  destruct (sheet_name_not_summary y m name Hm) as [Hh Hd].
  cbn [fst snd] in Hname. destruct (Hbook ws Hws); congruence.
Qed.

(** ** The workbook of a run *)

Section workbook_facts.
Context (str_float : float64 → string).
Context (plot_pivot : PivotTable string → string → Exc string).

(** The workbook the writer holds when the [with] block ends, however it
    ends: the two summary sheets, then the monthly sheets.  The summary
    sheets have the cells of their table and no column width; only their
    images depend on the plots. *)
Lemma write_report_book (df : DataFrame) (pivot_hours pivot_days : PivotTable string) :
  ∃ wh wd,
    (write_report str_float plot_pivot df pivot_hours pivot_days).2
      = wh :: wd :: detail_sheets str_float df
    ∧ (title wh = sheet_hours ∧ cells wh = pivot_grid pivot_hours
       ∧ column_dimensions wh = ∅)
    ∧ (title wd = sheet_days ∧ cells wd = pivot_grid pivot_days
       ∧ column_dimensions wd = ∅).
Proof.
  unfold write_report, pivot_to_excel. rewrite save_monthly_data_eq.
  2:{ intros ws. cbn [app]. rewrite !elem_of_cons, elem_of_nil.
      intros [->|[->|[]]]; auto. }
  destruct (decide (Forall _ _)); [|by eexists _, _].
  destruct (plot_and_save_pivot_tables plot_pivot pivot_hours pivot_days)
    as [e|[image_path_hours image_path_days]]; cbn [snd app].
  - by eexists _, _.
  - cbn [update_sheet new_sheet title]. rewrite decide_True by done.
    cbn [update_sheet add_image title]. rewrite decide_False by done.
    rewrite decide_True by done. by eexists _, _.
Qed.

(** How the [with] block ends: with the [TypeError] of the first month
    that has a temperature missing or infinite, else with what the
    plotting raises, else normally. *)
Lemma write_report_outcome (df : DataFrame)
    (pivot_hours pivot_days : PivotTable string) :
  (write_report str_float plot_pivot df pivot_hours pivot_days).1
  = if decide (Forall (month_finite df) (detail_keys df))
    then match plot_and_save_pivot_tables plot_pivot pivot_hours pivot_days with
         | inl e => inl e
         | inr _ => inr ()
         end
    else inl TypeError.
Proof.
  unfold write_report, pivot_to_excel. rewrite save_monthly_data_eq.
  2:{ intros ws. cbn [app]. rewrite !elem_of_cons, elem_of_nil.
      intros [->|[->|[]]]; auto. }
  destruct (decide (Forall _ _)); [|done].
  by destruct (plot_and_save_pivot_tables plot_pivot pivot_hours pivot_days)
    as [e|[image_path_hours image_path_days]].
Qed.
End workbook_facts.

(** ** The monthly sheets *)

Lemma elem_of_detail_keys (df : DataFrame) (k : Z * (Z * string)) :
  k ∈ detail_keys df
  ↔ k.2 ∈ months ∧ ∃ r, r ∈ df ∧ Jahr r = k.1 ∧ Monat r = k.2.1.
Proof.
  unfold detail_keys. rewrite list_elem_of_filter, elem_of_all_keys.
  unfold has_rows, month_data_of. split.
  - intros (Hrows & _ & Hm). split; [done|].
    destruct (filter (λ r, Jahr r = k.1 ∧ Monat r = k.2.1) df)
      as [|r rs] eqn:Hf; [done|].
    assert (r ∈ filter (λ r, Jahr r = k.1 ∧ Monat r = k.2.1) df) as Hr
      by (rewrite Hf; left).
    apply list_elem_of_filter in Hr as ((? & ?) & ?). eauto.
  - intros (Hm & r & Hr & Hy & Hmo).
    split_and!; [|rewrite <- Hy; by apply list_elem_of_fmap_2|done].
    intros Hnil%fmap_nil_inv.
    assert (r ∈ filter (λ r, Jahr r = k.1 ∧ Monat r = k.2.1) df) as Hin
      by (by apply list_elem_of_filter).
    rewrite Hnil in Hin. by apply elem_of_nil in Hin.
Qed.

Lemma written_keys_sublist (df : DataFrame) :
  written_keys df `sublist_of` detail_keys df.
Proof. apply through_first_sublist. Qed.

Lemma elem_of_written_keys (df : DataFrame) (k : Z * (Z * string)) :
  k ∈ written_keys df → k ∈ detail_keys df.
Proof.
  intros Hk. eapply elem_of_sublist; [done|apply written_keys_sublist].
Qed.

(** Every month of a frame without a missing or infinite temperature is
    without one, and then every month with rows has its sheet written. *)
Lemma all_finite_months (df : DataFrame) (ks : list (Z * (Z * string))) :
  all_finite df → Forall (month_finite df) ks.
Proof.
  intros Hfin. apply Forall_forall. intros k _.
  unfold month_finite, all_finite. apply Forall_forall.
  intros r [_ Hr]%list_elem_of_filter. revert r Hr. by apply Forall_forall.
Qed.

Lemma written_keys_finite (df : DataFrame) :
  all_finite df → written_keys df = detail_keys df.
Proof.
  intros Hfin. apply through_first_none.
  eapply Forall_impl; [by apply all_finite_months|]. cbn beta. tauto.
Qed.

(** A sheet of the workbook with the name of a month is the sheet of that
    month. *)
Lemma monthly_sheet_by_name (str_float : float64 → string) (df : DataFrame)
    (wh wd ws : Worksheet) (y m : Z) (name : string) :
  title wh = sheet_hours → title wd = sheet_days →
  (m, name) ∈ months →
  ws ∈ wh :: wd :: detail_sheets str_float df →
  title ws = sheet_name y name →
  ws = month_sheet str_float df (y, (m, name))
  ∧ (y, (m, name)) ∈ written_keys df.
Proof.
  intros Hwh Hwd Hm Hws Hname.
  destruct (sheet_name_not_summary y m name Hm) as [Hh Hd].
  rewrite !elem_of_cons in Hws. destruct Hws as [->|[->|Hws]]; [congruence..|].
  apply list_elem_of_fmap in Hws as ([y' [m' name']] & -> & Hk).
  pose proof Hk as [Hm' _]%elem_of_written_keys%elem_of_detail_keys.
  rewrite title_month_sheet in Hname. cbn [fst snd] in Hname, Hm'.
  by destruct (sheet_name_inj y' y m' m name' name Hm' Hm Hname) as (-> & -> & ->).
Qed.

Section monthly_sheets.
Context (str_float : float64 → string).
Context (plot_pivot : PivotTable string → string → Exc string).

(** The values of the sheet of a month, whatever became of its widths and
    fills: the header and one row per row of the month. *)
Lemma values_month_sheet (df : DataFrame) (k : Z * (Z * string)) :
  grid_values (cells (month_sheet str_float df k))
  = [VStr "Datum"; VStr "Uhrzeit"; VStr "Temperatur"]
    :: ((λ r, [VStr (strftime_dmY (Tag r)); VStr (str_time (Uhrzeit r));
               float_value (Wert r)])
        <$> filter (λ r, Jahr r = k.1 ∧ Monat r = k.2.1) df).
Proof.
  unfold month_sheet. rewrite values_format_sheet.
  unfold new_sheet; cbn [cells].
  unfold grid_values, month_grid, month_data_of.
  cbn [fmap list_fmap month_columns]. f_equal.
  rewrite <- !list_fmap_compose. by apply list_fmap_ext.
Qed.

(** X21. For a parsed frame, a sheet of the workbook named
    [{year}_{month name}] is the sheet of a year and month the frame has a
    row of, and when no temperature of the frame is missing or infinite
    every year and month the frame has a row of has its sheet; such a
    sheet has the columns Datum, Uhrzeit and Temperatur, in that order,
    and below the header one row per row of the frame in that year and
    month, in the order of the frame; the Datum of a row is its day as
    DD.MM.YYYY, a text of ten characters, and the Uhrzeit the text of the
    time of day. *)
Theorem monthly_sheet_rows (file : list RawRow) (df : DataFrame)
    (pivot_hours pivot_days : PivotTable string) (y m : Z) (name : string) :
  process_data file = inr df →
  (m, name) ∈ months →
  ((∃ ws, ws ∈ (write_report str_float plot_pivot df pivot_hours pivot_days).2
          ∧ title ws = sheet_name y name)
   → ∃ r, r ∈ df ∧ Jahr r = y ∧ Monat r = m)
  ∧ (all_finite df →
     (∃ r, r ∈ df ∧ Jahr r = y ∧ Monat r = m) →
     ∃ ws, ws ∈ (write_report str_float plot_pivot df pivot_hours pivot_days).2
           ∧ title ws = sheet_name y name)
  ∧ (∀ ws, ws ∈ (write_report str_float plot_pivot df pivot_hours pivot_days).2 →
       title ws = sheet_name y name →
       grid_values (cells ws)
         = [VStr "Datum"; VStr "Uhrzeit"; VStr "Temperatur"]
           :: ((λ r, [VStr (strftime_dmY (Tag r)); VStr (str_time (Uhrzeit r));
                      float_value (Wert r)])
               <$> filter (λ r, Jahr r = y ∧ Monat r = m) df)
       ∧ length (cells ws)
         = S (length (filter (λ r, Jahr r = y ∧ Monat r = m) df)))
  ∧ Forall (λ r, String.length (strftime_dmY (Tag r)) = 10%nat) df.
Proof.
  intros Hdata Hm.
  destruct (write_report_book str_float plot_pivot df pivot_hours pivot_days)
    as (wh & wd & -> & (Hwh & _) & (Hwd & _)).
  assert (∀ ws, ws ∈ wh :: wd :: detail_sheets str_float df →
            title ws = sheet_name y name →
            grid_values (cells ws)
            = [VStr "Datum"; VStr "Uhrzeit"; VStr "Temperatur"]
              :: ((λ r, [VStr (strftime_dmY (Tag r));
                         VStr (str_time (Uhrzeit r)); float_value (Wert r)])
                  <$> filter (λ r, Jahr r = y ∧ Monat r = m) df)) as Hcells.
  { intros ws Hws Hname.
    destruct (monthly_sheet_by_name str_float df wh wd ws y m name)
      as [-> _]; [done..|].
    apply values_month_sheet. }
  split_and!.
  - intros (ws & Hws & Hname).
    destruct (monthly_sheet_by_name str_float df wh wd ws y m name)
      as [_ Hk]; [done..|].
    by apply elem_of_written_keys, elem_of_detail_keys in Hk as [_ Hr].
  - intros Hfin Hr. exists (month_sheet str_float df (y, (m, name))).
    split; [|by rewrite title_month_sheet]. do 2 right.
    apply list_elem_of_fmap.
    exists (y, (m, name)). split; [done|].
    rewrite written_keys_finite by done. by apply elem_of_detail_keys.
  - intros ws Hws Hname. split; [by apply Hcells|].
    pose proof (f_equal length (Hcells ws Hws Hname)) as Hlen.
    unfold grid_values in Hlen.
    by rewrite length_fmap, length_cons, length_fmap in Hlen.
  - eapply Forall_impl; [by apply (process_data_days file)|].
    intros r (Hy & Hmo & Hd). cbn beta in *.
    pose proof (days_in_month_le_31 (year (Tag r)) (month (Tag r))).
    apply strftime_dmY_length; lia.
Qed.
End monthly_sheets.

(** ** Highlighting *)

Lemma pivot_grid_plain (t : PivotTable string) (i j : nat)
    (row : list Cell) (c : Cell) :
  pivot_grid t !! i = Some row → row !! j = Some c → cell_fill c = None.
Proof.
  intros Hrow%list_elem_of_lookup_2 Hc%list_elem_of_lookup_2.
  unfold pivot_grid in Hrow. apply elem_of_cons in Hrow as [->|Hrow].
  - by apply list_elem_of_fmap in Hc as (v & -> & _).
  - apply list_elem_of_fmap in Hrow as (r & -> & _).
    by apply list_elem_of_fmap in Hc as (v & -> & _).
Qed.

(** The fill of a cell of the sheet of a month: only the third cell of a
    row below the header can have one, it is the highlight fill, and the
    cell then holds a number of 27 or more. *)
Lemma month_sheet_fill (str_float : float64 → string) (df : DataFrame)
    (k : Z * (Z * string)) (i j : nat) (row : list Cell) (c : Cell) :
  cells (month_sheet str_float df k) !! i = Some row →
  row !! j = Some c →
  cell_fill c = None
  ∨ (cell_fill c = Some fill
     ∧ (1 ≤ i)%nat ∧ j = 2%nat ∧ ∃ q, value c = VNum q ∧ (27 <= q)%Q).
Proof.
  intros Hrow Hc. unfold month_sheet in Hrow.
  destruct (cells_format_sheet str_float (month_data_of df k.1 k.2.1)
              (new_sheet (sheet_name k.1 k.2.2)
                 (month_grid (month_data_of df k.1 k.2.1))) eq_refl)
    as (body & Hcells & Hbody).
  rewrite Hcells in Hrow. destruct i as [|i]; cbn [lookup list_lookup] in Hrow.
  - injection Hrow as <-. left. apply list_elem_of_lookup_2 in Hc.
    rewrite !elem_of_cons, elem_of_nil in Hc. by destruct_or!; subst.
  - destruct (Forall2_lookup_r _ _ _ _ _ Hbody Hrow) as (r & _ & Hr).
    destruct Hr as [->|[Hfin ->]].
    + left. apply list_elem_of_lookup_2 in Hc. unfold sheet_row in Hc.
      rewrite !elem_of_cons, elem_of_nil in Hc. by destruct_or!; subst.
    + unfold filled_row in Hc.
      destruct j as [|[|[|j]]]; cbn in Hc; simplify_eq; [by left..|].
      cbn [cell_fill value]. destruct (Temperatur r) as [q| | |]; try done.
      cbn [ge27 float_value]. destruct (Qle_bool 27 q) eqn:Hge; [|by left].
      right. split_and!; [done|lia|done|].
      exists q. split; [done|]. by apply Qle_bool_iff.
Qed.

(** When no temperature of the month is missing or infinite, every such
    cell has the fill. *)
Lemma month_sheet_fill_finite (str_float : float64 → string) (df : DataFrame)
    (k : Z * (Z * string)) (i : nat) (row : list Cell) (c : Cell) (q : Q) :
  month_finite df k →
  cells (month_sheet str_float df k) !! S i = Some row →
  row !! 2%nat = Some c →
  value c = VNum q → (27 <= q)%Q →
  cell_fill c = Some fill.
Proof.
  intros Hfin%month_finite_data Hrow Hc Hv Hq. unfold month_sheet in Hrow.
  rewrite cells_format_sheet_finite in Hrow by done.
  cbn [lookup list_lookup] in Hrow.
  apply list_lookup_fmap_Some in Hrow as (r & -> & _).
  cbn in Hc. injection Hc as <-. cbn [value cell_fill] in *.
  destruct (Temperatur r) as [q'| | |]; try done.
  injection Hv as ->. cbn [ge27].
  apply Qle_bool_iff in Hq. by rewrite Hq.
Qed.

Section highlighting.
Context (str_float : float64 → string).
Context (plot_pivot : PivotTable string → string → Exc string).

(** X22. In the workbook of a run, a cell with a fill is in the third
    column (Temperatur) of a row below the header of a monthly sheet and
    holds a number of 27 or more, and its fill is the highlight one; when
    no temperature of the frame is missing or infinite, every such cell
    has the fill.  No cell of the two summary sheets has a fill. *)
Theorem highlighted_cells (df : DataFrame)
    (pivot_hours pivot_days : PivotTable string)
    (ws : Worksheet) (i j : nat) (row : list Cell) (c : Cell) :
  ws ∈ (write_report str_float plot_pivot df pivot_hours pivot_days).2 →
  cells ws !! i = Some row →
  row !! j = Some c →
  (is_Some (cell_fill c)
   → (∃ y m name, (m, name) ∈ months ∧ title ws = sheet_name y name)
     ∧ (1 ≤ i)%nat ∧ j = 2%nat ∧ ∃ q, value c = VNum q ∧ (27 <= q)%Q)
  ∧ (all_finite df
     → (∃ y m name, (m, name) ∈ months ∧ title ws = sheet_name y name)
       ∧ (1 ≤ i)%nat ∧ j = 2%nat ∧ (∃ q, value c = VNum q ∧ (27 <= q)%Q)
     → is_Some (cell_fill c))
  ∧ (is_Some (cell_fill c) → cell_fill c = Some fill)
  ∧ (title ws = sheet_hours ∨ title ws = sheet_days → cell_fill c = None).
Proof.
  intros Hws Hrow Hc.
  destruct (write_report_book str_float plot_pivot df pivot_hours pivot_days)
    as (wh & wd & Hbook & (Hwh & Hch & _) & (Hwd & Hcd & _)).
  rewrite Hbook in Hws.
  assert (title ws = sheet_hours ∨ title ws = sheet_days → cell_fill c = None
          ∧ ¬ ∃ y m name, (m, name) ∈ months ∧ title ws = sheet_name y name)
    as Hsummary.
  { intros Htitle. split.
    - rewrite !elem_of_cons in Hws. destruct Hws as [->|[->|Hws]].
      + rewrite Hch in Hrow. by eapply pivot_grid_plain.
      + rewrite Hcd in Hrow. by eapply pivot_grid_plain.
      + apply list_elem_of_fmap in Hws as ([y [m name]] & -> & Hk).
        apply elem_of_written_keys, elem_of_detail_keys in Hk as [Hm _].
        destruct (sheet_name_not_summary y m name Hm).
        rewrite title_month_sheet in Htitle. by destruct Htitle.
    - intros (y & m & name & Hm & Hname).
      destruct (sheet_name_not_summary y m name Hm).
      destruct Htitle; congruence. }
  destruct (decide (title ws = sheet_hours ∨ title ws = sheet_days))
    as [Htitle|Hdetail].
  { destruct (Hsummary Htitle) as [Hnone Hno]. rewrite Hnone.
    split_and!; [by intros []|by intros _ [? _]|by intros []|done]. }
  rewrite !elem_of_cons in Hws. destruct Hws as [->|[->|Hws]]; [tauto..|].
  apply list_elem_of_fmap in Hws as ([y [m name]] & -> & Hk).
  pose proof Hk as [Hm _]%elem_of_written_keys%elem_of_detail_keys.
  cbn [fst snd] in Hm. split_and!.
  - intros Hfill.
    destruct (month_sheet_fill _ _ _ i j row c Hrow Hc) as [Hnone|[_ Hhot]].
    + rewrite Hnone in Hfill. by destruct Hfill.
    + split; [|done]. exists y, m, name. by rewrite title_month_sheet.
  - intros Hfin (_ & Hi & -> & q & Hv & Hq).
    destruct i as [|i]; [lia|].
    pose proof (all_finite_months df [(y, (m, name))] Hfin)
      as [Hmonth _]%Forall_cons.
    by rewrite (month_sheet_fill_finite str_float df (y, (m, name)) i row c q).
  - intros Hfill.
    destruct (month_sheet_fill _ _ _ i j row c Hrow Hc) as [Hnone|[Hsome _]];
      [|done].
    rewrite Hnone in Hfill. by destruct Hfill.
  - tauto.
Qed.
End highlighting.

(** ** Column widths *)

Section column_sizing.
Context (str_float : float64 → string).
Context (plot_pivot : PivotTable string → string → Exc string).

(** The widths of the sheet of a month. *)
Lemma widths_month_sheet (df : DataFrame) (k : Z * (Z * string)) :
  column_dimensions (month_sheet str_float df k)
  = let rows := filter (λ r, Jahr r = k.1 ∧ Monat r = k.2.1) df in
    let two :=
      <["B" := padded_width ((λ r, str_time (Uhrzeit r)) <$> rows) "Uhrzeit"]>
        (<["A" := padded_width ((λ r, strftime_dmY (Tag r)) <$> rows) "Datum"]>
           ∅) in
    if decide (Forall (λ r, notna (Wert r)) rows)
    then <["C" := padded_width ((λ r, str_float (Wert r)) <$> rows)
                    "Temperatur"]> two
    else two.
Proof.
  unfold month_sheet. rewrite widths_format_sheet. cbn zeta.
  unfold new_sheet; cbn [column_dimensions]. unfold month_data_of.
  rewrite <- !list_fmap_compose.
  destruct (decide (Forall (λ r, notna (Wert r))
                      (filter (λ r, Jahr r = k.1 ∧ Monat r = k.2.1) df)))
    as [Hall|Hall].
  - by rewrite decide_True by (by apply Forall_fmap).
  - by rewrite decide_False by (by rewrite Forall_fmap).
Qed.

(** C8 (amended). In the workbook of a run, the three columns A, B and C
    of the sheet of a month without a missing temperature have their
    width set to the longest text of the column (the formatted day, the
    time of day, the float as text) or the length of the header,
    whichever is larger, plus 2, from the rows of that sheet alone.  The
    two summary sheets get no column width. *)
Theorem column_widths (df : DataFrame)
    (pivot_hours pivot_days : PivotTable string) (ws : Worksheet) :
  ws ∈ (write_report str_float plot_pivot df pivot_hours pivot_days).2 →
  (title ws = sheet_hours ∨ title ws = sheet_days → column_dimensions ws = ∅)
  ∧ ∀ y m name,
      (m, name) ∈ months → title ws = sheet_name y name →
      Forall (λ r, notna (Wert r)) (filter (λ r, Jahr r = y ∧ Monat r = m) df) →
      column_dimensions ws =
        <["C" := padded_width
                   ((λ r, str_float (Wert r))
                    <$> filter (λ r, Jahr r = y ∧ Monat r = m) df) "Temperatur"]>
        (<["B" := padded_width
                    ((λ r, str_time (Uhrzeit r))
                     <$> filter (λ r, Jahr r = y ∧ Monat r = m) df) "Uhrzeit"]>
         (<["A" := padded_width
                     ((λ r, strftime_dmY (Tag r))
                      <$> filter (λ r, Jahr r = y ∧ Monat r = m) df) "Datum"]>
          ∅)).
Proof.
  intros Hws.
  destruct (write_report_book str_float plot_pivot df pivot_hours pivot_days)
    as (wh & wd & Hbook & (Hwh & _ & Hdh) & (Hwd & _ & Hdd)).
  rewrite Hbook in Hws. split.
  - intros Htitle. rewrite !elem_of_cons in Hws.
    destruct Hws as [->|[->|Hws]]; [done..|].
    apply list_elem_of_fmap in Hws as ([y [m name]] & -> & Hk).
    apply elem_of_written_keys, elem_of_detail_keys in Hk as [Hm _].
    destruct (sheet_name_not_summary y m name Hm).
    rewrite title_month_sheet in Htitle. by destruct Htitle.
  - intros y m name Hm Hname Hall.
    destruct (monthly_sheet_by_name str_float df wh wd ws y m name)
      as [-> _]; [done..|].
    rewrite widths_month_sheet. cbn zeta. cbn [fst snd].
    by rewrite decide_True by done.
Qed.
End column_sizing.

(** ** The order of the sheets *)

Lemma StronglySorted_sublist {A} (R : relation A) (l k : list A) :
  l `sublist_of` k → StronglySorted R k → StronglySorted R l.
Proof.
  induction 1 as [|x l k Hsub IH|x l k Hsub IH]; intros Hk; [done| |].
  - apply StronglySorted_cons in Hk as [Hx Hk].
    apply StronglySorted_cons. split; [|by apply IH].
    rewrite Forall_forall in Hx. apply Forall_forall. intros z Hz.
    eapply Hx, sublist_subseteq; done.
  - apply StronglySorted_cons in Hk as [_ Hk]. by apply IH.
Qed.

(** The years of a frame whose years never decrease come out of [unique]
    in ascending order. *)
Lemma unique_ascending (col : list Z) :
  Sorted Z.le col → StronglySorted Z.lt (unique col).
Proof.
  intros Hcol. apply StronglySorted_le_lt; [|apply NoDup_unique_from].
  apply (StronglySorted_sublist _ _ col); [apply sublist_unique_from|].
  by apply (Sorted_StronglySorted _).
Qed.

Lemma months_ascending (y : Z) :
  StronglySorted key_lt (months ≫= λ m, [(y, m)]).
Proof.
  assert (StronglySorted (λ m m' : Z * string, m.1 < m'.1) months) as Hm.
  { apply (bool_decide_unpack _). by vm_compute. }
  assert ((months ≫= λ m, [(y, m)]) = (λ m, (y, m)) <$> months) as ->
    by reflexivity.
  eapply StronglySorted_fmap; [|exact Hm].
  intros m m' Hlt. right. done.
Qed.

Lemma all_keys_ascending (years : list Z) :
  StronglySorted Z.lt years →
  StronglySorted key_lt (years ≫= λ y, months ≫= λ m, [(y, m)]).
Proof.
  induction 1 as [|y years Hyears IH Hy]; [constructor|].
  rewrite bind_cons. apply StronglySorted_app_2; [|apply months_ascending|done].
  intros k k' (m & ->%list_elem_of_singleton & _)%list_elem_of_bind.
  intros (y' & (m' & ->%list_elem_of_singleton & _)%list_elem_of_bind & Hy')
    %list_elem_of_bind.
  left. rewrite Forall_forall in Hy. by apply Hy.
Qed.

Section creation_order.
Context (str_float : float64 → string).
Context (plot_pivot : PivotTable string → string → Exc string).

Lemma report_titles (df : DataFrame) (pivot_hours pivot_days : PivotTable string) :
  title <$> (write_report str_float plot_pivot df pivot_hours pivot_days).2
  = sheet_hours :: sheet_days
      :: ((λ k, sheet_name k.1 k.2.2) <$> written_keys df).
Proof.
  destruct (write_report_book str_float plot_pivot df pivot_hours pivot_days)
    as (wh & wd & -> & (Hwh & _) & (Hwd & _)).
  rewrite !fmap_cons, Hwh, Hwd. do 2 f_equal.
  unfold detail_sheets. rewrite <- list_fmap_compose.
  apply list_fmap_ext. intros _ k _. apply title_month_sheet.
Qed.

(** C7 (amended). The sheets of the workbook are, in the order of their
    creation, the hours summary, the days summary and then monthly
    sheets, year by year in the order the years first appear in the frame
    and month by month within a year: the sheets of the first months with
    rows, and of all of them when no temperature is missing or infinite.
    When the years of the frame never decrease, as in a file in the order
    of time, that is the ascending order of (year, month). *)
Theorem sheet_order (df : DataFrame)
    (pivot_hours pivot_days : PivotTable string) :
  title <$> (write_report str_float plot_pivot df pivot_hours pivot_days).2
    = sheet_hours :: sheet_days
        :: ((λ k, sheet_name k.1 k.2.2) <$> written_keys df)
  ∧ written_keys df `prefix_of` detail_keys df
  ∧ (all_finite df → written_keys df = detail_keys df)
  ∧ (Sorted Z.le (Jahr <$> df) → StronglySorted key_lt (detail_keys df)).
Proof.
  split_and!.
  - apply report_titles.
  - apply through_first_prefix.
  - apply written_keys_finite.
  - intros Hsorted.
    apply (StronglySorted_sublist _ _ (all_keys df)); [apply sublist_filter|].
    apply all_keys_ascending, unique_ascending, Hsorted.
Qed.
End creation_order.

(** ** Failing runs *)

Lemma process_data_inl (file : list RawRow) (e : Exception) :
  process_data file = inl e
  ↔ ∃ pos r, file !! pos = Some r
             ∧ strptime (pretty (MESS_DATUM r)) = None
             ∧ (∀ j r', (j < pos)%nat → file !! j = Some r'
                        → is_Some (strptime (pretty (MESS_DATUM r'))))
             ∧ e = ValueError (strptime_error (pretty (MESS_DATUM r))).
Proof.
  unfold process_data.
  destruct (to_datetime (MESS_DATUM <$> file)) as [e'|ts] eqn:Hts; cbn.
  - apply to_datetime_inl in Hts as (i & x & Hi & Hx & Hlt & ->).
    apply list_lookup_fmap_Some in Hi as (r & -> & Hr). split.
    + intros [= <-]. exists i, r. split_and!; [done..| |done].
      intros j r' Hj Hr'. apply (Hlt j); [done|].
      by rewrite list_lookup_fmap, Hr'.
    + intros (pos & r' & Hpos & Hbad & Hbefore & ->).
      destruct (Nat.lt_trichotomy pos i) as [Hlt'|[->|Hlt']].
      * destruct (Hlt pos (MESS_DATUM r')) as [t Ht]; [done| |congruence].
        by rewrite list_lookup_fmap, Hpos.
      * by simplify_eq.
      * destruct (Hbefore i r) as [t Ht]; [done..|congruence].
  - split; [done|]. intros (pos & r & Hpos & Hbad & _).
    apply to_datetime_inr in Hts.
    assert ((MESS_DATUM <$> file) !! pos = Some (MESS_DATUM r)) as Hx
      by (by rewrite list_lookup_fmap, Hpos).
    destruct (Forall2_lookup_l _ _ _ _ _ Hts Hx) as (t & _ & Ht). congruence.
Qed.

Section runs.
Context (str_float : float64 → string).
Context (plot_pivot : PivotTable string → string → Exc string).
Context (book_save : Workbook → bool).

(** C10 (amended). When the timestamp of some row does not parse with the
    format, [process_data] raises the [ValueError] of the first such row,
    which tells why its text does not parse and not which row it is, and
    the run ends with that error, having shown the title only; when every
    timestamp parses, [process_data] returns a frame with one row per row
    of the file.  A timestamp of ten digits parses exactly when it
    follows the pattern YYYYMMDDHH, and then to the year, month, day and
    hour its digits give. *)
Theorem malformed_timestamp (file : list RawRow) (σ : World) :
  (Exists (λ r, strptime (pretty (MESS_DATUM r)) = None) file →
   ∃ pos r,
     file !! pos = Some r
     ∧ strptime (pretty (MESS_DATUM r)) = None
     ∧ (∀ j r', (j < pos)%nat → file !! j = Some r'
                → is_Some (strptime (pretty (MESS_DATUM r'))))
     ∧ process_data file
       = inl (ValueError (strptime_error (pretty (MESS_DATUM r))))
     ∧ main str_float plot_pivot book_save true (Some file) σ
       = (inl (ValueError (strptime_error (pretty (MESS_DATUM r)))),
          show (st_title "Wetterdaten Analyse") σ))
  ∧ (Forall (λ r, is_Some (strptime (pretty (MESS_DATUM r)))) file →
     ∃ df, process_data file = inr df ∧ length df = length file)
  ∧ (∀ x, 1000000000 ≤ x < 10000000000 →
          strptime (pretty x) = exact_YYYYMMDDHH x).
Proof.
  split_and!; [| |apply strptime_ten_digits].
  - intros (r0 & Hr0 & Hbad0)%Exists_exists.
    destruct (process_data file) as [e|df] eqn:Hdata.
    + pose proof Hdata as (pos & r & Hpos & Hbad & Hfirst & ->)%process_data_inl.
      exists pos, r. split_and!; [done..|].
      unfold main. by rewrite Hdata.
    + apply process_data_inr in Hdata as (ts & Hts & _).
      apply list_elem_of_lookup in Hr0 as [i Hi].
      assert ((MESS_DATUM <$> file) !! i = Some (MESS_DATUM r0)) as Hx
        by (by rewrite list_lookup_fmap, Hi).
      destruct (Forall2_lookup_l _ _ _ _ _ Hts Hx) as (t & _ & Ht). congruence.
  - intros Hall. destruct (process_data file) as [e|df] eqn:Hdata.
    + apply process_data_inl in Hdata as (pos & r & Hpos & Hbad & _).
      rewrite Forall_forall in Hall.
      destruct (Hall r) as [t Ht]; [by eapply list_elem_of_lookup_2|congruence].
    + exists df. split; [done|].
      apply process_data_inr in Hdata as (ts & Hts & ->).
      apply Forall2_length in Hts. rewrite length_fmap in Hts.
      rewrite length_zip_with_l_eq; [done|]. by rewrite length_fmap.
Qed.

(** C9 (amended). A run that ends with an exception has shown the title
    only: no success message and no download button.  When the exception
    is the one of [process_data], the file under the report's name is as
    it was.  Otherwise that file has been opened for writing: it is left
    incomplete when the saving raised, and else it holds the workbook as
    the [with] block left it, which raised. *)
Theorem failed_run (file : list RawRow) (σ σ' : World) (e : Exception) :
  main str_float plot_pivot book_save true (Some file) σ = (inl e, σ') →
  screen σ' = screen σ ++ [st_title "Wetterdaten Analyse"]
  ∧ match process_data file with
    | inl e' => e = e' ∧ disk σ' = disk σ
    | inr df =>
        let report := write_report str_float plot_pivot df
                        (create_pivot_tables df).1 (create_pivot_tables df).2 in
        (e = SaveError ∧ disk σ' = Some Partial)
        ∨ (report.1 = inl e ∧ disk σ' = Some (Saved report.2))
    end.
Proof.
  unfold main. destruct (process_data file) as [e'|df] eqn:Hdata.
  - by intros [= <- <-].
  - destruct (create_pivot_tables df) as [pivot_hours pivot_days] eqn:Hpivots.
    unfold with_ExcelWriter. cbn [fst snd].
    destruct (book_save _) eqn:Hsave.
    + destruct (write_report str_float plot_pivot df pivot_hours pivot_days)
        as [[e''|[]] book] eqn:Hreport; cbn [fst snd].
      * intros [= <- <-]. split; [done|]. right. done.
      * by intros [= ].
    + intros [= <- <-]. split; [done|]. by left.
Qed.
End runs.

(** ** The scenario of two rows *)

(** C3 (as stated). The second timestamp of the scenario, 2023010127, has
    the hour 27, which [%H] does not accept: the hour is read from the 2
    and the 7 is left over.  [process_data] raises and the run ends
    there, without any table or sheet. *)
Lemma scenario_hour_27_rejected :
  exact_YYYYMMDDHH 2023010127 = None
  ∧ process_data scenario_file = inl (ValueError (UnconvertedData "7"))
  ∧ main str_tenths plot_ok (λ _, true) true (Some scenario_file) fresh_world
    = (inl (ValueError (UnconvertedData "7")),
       {| disk := None; screen := [st_title "Wetterdaten Analyse"] |}).
Proof. split_and!; by vm_compute. Qed.

(** C3 (amended). With a valid hour in the second timestamp (2023010123),
    both timestamps parse with the format, to the hours 0 and 23 of
    1 January 2023; the hour table and the day table both have 1 under
    2023 and Jan; and the workbook has one sheet named 2023_Jan, with two
    rows below the header, of which only the Temperatur cell of the second
    has the highlight fill. *)
Theorem january_scenario (str_float : float64 → string)
    (plot_pivot : PivotTable string → string → Exc string) :
  process_data january_file
    = inr [ mk_row (Timestamp (Date 2023 1 1) (Time 0)) (Finite 10.5);
            mk_row (Timestamp (Date 2023 1 1) (Time 23)) (Finite 27.0) ]
  ∧ loc (create_pivot_tables january_frame).1 2023 "Jan" = Some 1%nat
  ∧ loc (create_pivot_tables january_frame).2 2023 "Jan" = Some 1%nat
  ∧ ∃ ws,
      filter (λ ws, title ws = "2023_Jan")
        (write_report str_float plot_pivot january_frame
           (create_pivot_tables january_frame).1
           (create_pivot_tables january_frame).2).2 = [ws]
      ∧ cells ws
        = [ [plain (VStr "Datum"); plain (VStr "Uhrzeit");
             plain (VStr "Temperatur")];
            [plain (VStr "01.01.2023"); plain (VStr "00:00:00");
             plain (VNum 10.5)];
            [plain (VStr "01.01.2023"); plain (VStr "23:00:00");
             {| value := VNum 27.0; cell_fill := Some fill |}] ].
Proof.
  split_and!; [by vm_compute..|].
  destruct (write_report_book str_float plot_pivot january_frame
              (create_pivot_tables january_frame).1
              (create_pivot_tables january_frame).2)
    as (wh & wd & -> & (Hwh & _) & (Hwd & _)).
  exists (month_sheet str_float january_frame (2023, (1, "Jan"))).
  split; [|by vm_compute].
  rewrite (filter_cons (λ ws, title ws = "2023_Jan")), Hwh.
  rewrite decide_False by done.
  rewrite (filter_cons (λ ws, title ws = "2023_Jan")), Hwd.
  rewrite decide_False by done.
  assert (written_keys january_frame = [(2023, (1, "Jan"))]) as Hkeys
    by (by vm_compute).
  unfold detail_sheets. rewrite Hkeys. cbn [fmap list_fmap].
  rewrite (filter_cons (λ ws, title ws = "2023_Jan")).
  by rewrite decide_True by (by vm_compute).
Qed.

(** ** A month with a missing temperature *)

(** C5 (the code at the failing input). A file with a hot hour of July
    2023, an hour of July without a temperature and an hour of August:
    the width of the third column of the sheet of July raises, the run
    ends with that [TypeError], and the workbook has the sheet of July
    and no sheet of August, of which the frame has a row. *)
Theorem missing_temperature_sheets (str_float : float64 → string)
    (plot_pivot : PivotTable string → string → Exc string) :
  process_data gap_file = inr gap_frame
  ∧ (∃ r, r ∈ gap_frame ∧ Jahr r = 2023 ∧ Monat r = 8)
  ∧ (8, "Aug") ∈ months
  ∧ (write_report str_float plot_pivot gap_frame
       (create_pivot_tables gap_frame).1 (create_pivot_tables gap_frame).2).1
    = inl TypeError
  ∧ title <$> (write_report str_float plot_pivot gap_frame
                 (create_pivot_tables gap_frame).1
                 (create_pivot_tables gap_frame).2).2
    = [sheet_hours; sheet_days; "2023_Jul"]
  ∧ ¬ ∃ ws, ws ∈ (write_report str_float plot_pivot gap_frame
                    (create_pivot_tables gap_frame).1
                    (create_pivot_tables gap_frame).2).2
            ∧ title ws = sheet_name 2023 "Aug".
Proof.
  assert (title <$> (write_report str_float plot_pivot gap_frame
                       (create_pivot_tables gap_frame).1
                       (create_pivot_tables gap_frame).2).2
          = [sheet_hours; sheet_days; "2023_Jul"]) as Htitles.
  { rewrite report_titles. by vm_compute. }
  split_and!; [by vm_compute| |by apply (list_elem_of_lookup_2 _ 7%nat)| |done|].
  - eexists. split; [do 2 right; left|done].
  - rewrite write_report_outcome. apply decide_False.
    intros Hall. pose proof (bool_decide_pack _ Hall) as Hb. by vm_compute in Hb.
  - intros (ws & Hws & Hname).
    apply (list_elem_of_fmap_2 title) in Hws. rewrite Htitles, Hname in Hws.
    repeat (apply elem_of_cons in Hws as [Hws|Hws]; [by vm_compute in Hws|]).
    by apply elem_of_nil in Hws.
Qed.

(** C6 (the code at the failing input). On the same file the cell of
    28.5 degrees, in the third column of the first row below the header
    of the sheet of July, has no fill: the loop that fills the cells is
    not reached.  And on a file with an infinite temperature between two
    hot hours of a day, the comparison of the text [inf] with 27 raises:
    the cell of 28.5 above it has the fill and the cell of 30.0 below it
    has none. *)
Theorem hot_cell_without_fill (str_float : float64 → string)
    (plot_pivot : PivotTable string → string → Exc string) :
  (27 <= 28.5)%Q ∧ (27 <= 30.0)%Q
  ∧ (∃ ws,
       ws ∈ (write_report str_float plot_pivot gap_frame
               (create_pivot_tables gap_frame).1
               (create_pivot_tables gap_frame).2).2
       ∧ title ws = sheet_name 2023 "Jul"
       ∧ cells ws
         = [ [plain (VStr "Datum"); plain (VStr "Uhrzeit");
              plain (VStr "Temperatur")];
             [plain (VStr "01.07.2023"); plain (VStr "14:00:00");
              plain (VNum 28.5)];
             [plain (VStr "01.07.2023"); plain (VStr "15:00:00");
              plain (VStr "")] ])
  ∧ process_data inf_file = inr inf_frame
  ∧ (write_report str_float plot_pivot inf_frame
       (create_pivot_tables inf_frame).1 (create_pivot_tables inf_frame).2).1
    = inl TypeError
  ∧ (∃ ws,
       ws ∈ (write_report str_float plot_pivot inf_frame
               (create_pivot_tables inf_frame).1
               (create_pivot_tables inf_frame).2).2
       ∧ title ws = sheet_name 2023 "Jul"
       ∧ cells ws
         = [ [plain (VStr "Datum"); plain (VStr "Uhrzeit");
              plain (VStr "Temperatur")];
             [plain (VStr "01.07.2023"); plain (VStr "14:00:00");
              {| value := VNum 28.5; cell_fill := Some fill |}];
             [plain (VStr "01.07.2023"); plain (VStr "15:00:00");
              plain (VStr "inf")];
             [plain (VStr "01.07.2023"); plain (VStr "16:00:00");
              plain (VNum 30.0)] ]).
Proof.
  split_and!; [done..| |by vm_compute| |].
  - exists (month_sheet str_float gap_frame (2023, (7, "Jul"))).
    split_and!; [|by vm_compute..].
    destruct (write_report_book str_float plot_pivot gap_frame
                (create_pivot_tables gap_frame).1
                (create_pivot_tables gap_frame).2) as (wh & wd & -> & _).
    do 2 right. apply list_elem_of_fmap. eexists. split; [done|].
    by vm_compute; left.
  - rewrite write_report_outcome. apply decide_False.
    intros Hall. pose proof (bool_decide_pack _ Hall) as Hb. by vm_compute in Hb.
  - exists (month_sheet str_float inf_frame (2023, (7, "Jul"))).
    split_and!; [|by vm_compute..].
    destruct (write_report_book str_float plot_pivot inf_frame
                (create_pivot_tables inf_frame).1
                (create_pivot_tables inf_frame).2) as (wh & wd & -> & _).
    do 2 right. apply list_elem_of_fmap. eexists. split; [done|].
    by vm_compute; left.
Qed.

(** ** The statements on the sample files *)

Lemma january_month_sheet :
  month_sheet str_tenths january_frame (2023, (1, "Jan"))
  ∈ (write_report str_tenths plot_ok january_frame
       (create_pivot_tables january_frame).1
       (create_pivot_tables january_frame).2).2.
Proof. vm_compute. do 2 right. left. Qed.

Lemma january_all_finite : all_finite january_frame.
Proof. by repeat constructor. Qed.

Lemma monthly_sheet_rows_witness :
  process_data january_file = inr january_frame
  ∧ (1, "Jan") ∈ months
  ∧ all_finite january_frame
  ∧ ∃ ws,
      ws ∈ (write_report str_tenths plot_ok january_frame
              (create_pivot_tables january_frame).1
              (create_pivot_tables january_frame).2).2
      ∧ title ws = "2023_Jan" ∧ length (cells ws) = 3%nat.
Proof.
  assert (process_data january_file = inr january_frame) as Hdata
    by (by vm_compute).
  assert ((1, "Jan") ∈ months) as Hm by left.
  split_and!; [done..|apply january_all_finite|].
  destruct (monthly_sheet_rows str_tenths plot_ok january_file january_frame
              (create_pivot_tables january_frame).1
              (create_pivot_tables january_frame).2 2023 1 "Jan" Hdata Hm)
    as (_ & Hsheet & Hrows & _).
  destruct (Hsheet january_all_finite) as (ws & Hws & Hname).
  { exists (mk_row (Timestamp (Date 2023 1 1) (Time 0)) (Finite 10.5)).
    split; [apply list_elem_of_here|split; reflexivity]. }
  exists ws. split_and!; [exact Hws|exact Hname|].
  destruct (Hrows ws Hws Hname) as [_ ->]. by vm_compute.
Defined.

Lemma highlighted_cells_witness :
  ∃ ws row c,
    ws ∈ (write_report str_tenths plot_ok january_frame
            (create_pivot_tables january_frame).1
            (create_pivot_tables january_frame).2).2
    ∧ cells ws !! 2%nat = Some row ∧ row !! 2%nat = Some c
    ∧ all_finite january_frame
    ∧ value c = VNum 27.0 ∧ cell_fill c = Some fill.
Proof.
  exists (month_sheet str_tenths january_frame (2023, (1, "Jan"))).
  eexists _, _. split; [apply january_month_sheet|].
  split; [by vm_compute|]. split; [by vm_compute|].
  split; [apply january_all_finite|]. split; [done|].
  destruct (highlighted_cells str_tenths plot_ok january_frame _ _ _ 2 2
              _ _ january_month_sheet eq_refl eq_refl)
    as (_ & Hfilled & Hfill & _).
  apply Hfill, Hfilled; [apply january_all_finite|]. split_and!; [|lia|done|].
  - exists 2023, 1, "Jan". split; [left|done].
  - exists 27.0%Q. split; [done|]. by vm_compute.
Defined.

(** C7 (as stated). A file whose first row is of 2024 and whose second is
    of 2023 gets the sheet of January 2024 before the sheet of January
    2023. *)
Lemma unordered_years_sheet_order :
  process_data unordered_file = inr unordered_frame
  ∧ title <$> (write_report str_tenths plot_ok unordered_frame
                 (create_pivot_tables unordered_frame).1
                 (create_pivot_tables unordered_frame).2).2
    = [sheet_hours; sheet_days; "2024_Jan"; "2023_Jan"].
Proof. split; by vm_compute. Qed.

(** Three months of two years in the order of time: the sheets of the
    three months follow the two summary sheets in ascending order. *)
Lemma sheet_order_witness :
  process_data two_year_file = inr two_year_frame
  ∧ all_finite two_year_frame
  ∧ Sorted Z.le (Jahr <$> two_year_frame)
  ∧ title <$> (write_report str_tenths plot_ok two_year_frame
                 (create_pivot_tables two_year_frame).1
                 (create_pivot_tables two_year_frame).2).2
    = [sheet_hours; sheet_days; "2023_Jan"; "2023_Jul"; "2024_Jan"]
  ∧ written_keys two_year_frame
    = [(2023, (1, "Jan")); (2023, (7, "Jul")); (2024, (1, "Jan"))]
  ∧ StronglySorted key_lt (written_keys two_year_frame).
Proof.
  assert (all_finite two_year_frame) as Hfin by (by repeat constructor).
  assert (Sorted Z.le (Jahr <$> two_year_frame)) as Hsorted
    by (repeat constructor; done).
  split; [by vm_compute|]. split; [done|]. split; [done|].
  destruct (sheet_order str_tenths plot_ok two_year_frame
              (create_pivot_tables two_year_frame).1
              (create_pivot_tables two_year_frame).2)
    as (-> & _ & Hall & Hkeys).
  rewrite (Hall Hfin). split; [by vm_compute|]. split; [by vm_compute|].
  exact (Hkeys Hsorted).
Defined.

(** C8 (as stated). On the hours summary sheet of the January sample no
    width is set for column A, which holds the years. *)
Lemma summary_sheet_without_width :
  ∃ ws,
    ws ∈ (write_report str_tenths plot_ok january_frame
            (create_pivot_tables january_frame).1
            (create_pivot_tables january_frame).2).2
    ∧ title ws = sheet_hours
    ∧ grid_values (cells ws)
      = [ VStr "Jahr" :: (VStr <$> month_labels);
          VInt 2023 :: (VInt <$> [1; 0; 0; 0; 0; 0; 0; 0; 0; 0; 0; 0]) ]
    ∧ column_dimensions ws !! "A" = None.
Proof.
  eexists. split; [vm_compute; left|]. split_and!; by vm_compute.
Qed.

Lemma column_widths_witness :
  ∃ ws,
    ws ∈ (write_report str_tenths plot_ok january_frame
            (create_pivot_tables january_frame).1
            (create_pivot_tables january_frame).2).2
    ∧ title ws = "2023_Jan"
    ∧ column_dimensions ws !! "A" = Some 12%nat
    ∧ column_dimensions ws !! "B" = Some 10%nat
    ∧ column_dimensions ws !! "C" = Some 12%nat.
Proof.
  exists (month_sheet str_tenths january_frame (2023, (1, "Jan"))).
  split; [apply january_month_sheet|]. split; [by vm_compute|].
  destruct (column_widths str_tenths plot_ok january_frame _ _ _
              january_month_sheet) as [_ Hwidths].
  rewrite (Hwidths 2023 1 "Jan"); [|left|by vm_compute|by repeat constructor].
  split_and!; by vm_compute.
Defined.

(** The run on the January sample in which the plotting raises. *)
Lemma january_run_plot_raises :
  main str_tenths plot_raises (λ _, true) true (Some january_file) fresh_world
  = (inl PlotError,
     {| disk := Some (Saved
          (write_report str_tenths plot_raises january_frame
             (create_pivot_tables january_frame).1
             (create_pivot_tables january_frame).2).2);
        screen := [st_title "Wetterdaten Analyse"] |}).
Proof. by vm_compute. Qed.

(** C9 (as stated). A run on the January sample in which the plotting
    raises ends with that exception, and leaves the workbook with its
    three sheets saved under the report's name. *)
Lemma failed_plot_leaves_workbook :
  ∃ book,
    main str_tenths plot_raises (λ _, true) true (Some january_file)
         fresh_world
    = (inl PlotError,
       {| disk := Some (Saved book);
          screen := [st_title "Wetterdaten Analyse"] |})
    ∧ title <$> book = [sheet_hours; sheet_days; "2023_Jan"].
Proof.
  eexists. split; [apply january_run_plot_raises|by vm_compute].
Qed.

Lemma failed_run_witness :
  ∃ σ',
    main str_tenths plot_raises (λ _, true) true (Some january_file)
         fresh_world = (inl PlotError, σ')
    ∧ screen σ' = [st_title "Wetterdaten Analyse"]
    ∧ ∃ book, disk σ' = Some (Saved book).
Proof.
  eexists. split; [apply january_run_plot_raises|].
  destruct (failed_run str_tenths plot_raises (λ _, true)
              january_file fresh_world _ PlotError january_run_plot_raises)
    as [-> _].
  split; [done|]. by eexists.
Defined.

(** C10 (as stated). The timestamp 2023111 has seven digits and is not in
    the pattern YYYYMMDDHH, and yet the format reads it, as the hour 1 of
    1 January 2023: the run does not fail on it.  And the error of a
    timestamp that does not parse does not name its row: the timestamp
    2023010127 raises the same error as the first row of a file and as
    the second. *)
Lemma short_timestamp_accepted :
  exact_YYYYMMDDHH 2023111 = None
  ∧ process_data short_stamp_file
    = inr [mk_row (Timestamp (Date 2023 1 1) (Time 1)) (Finite 4.0)]
  ∧ process_data [ {| MESS_DATUM := 2023010100; TT_TU := Finite 10.5 |};
                   {| MESS_DATUM := 2023010127; TT_TU := Finite 27.0 |} ]
    = inl (ValueError (UnconvertedData "7"))
  ∧ process_data [ {| MESS_DATUM := 2023010127; TT_TU := Finite 27.0 |};
                   {| MESS_DATUM := 2023010100; TT_TU := Finite 10.5 |} ]
    = inl (ValueError (UnconvertedData "7")).
Proof. split_and!; by vm_compute. Qed.

Lemma malformed_timestamp_witness :
  Exists (λ r, strptime (pretty (MESS_DATUM r)) = None) scenario_file
  ∧ ∃ pos r,
      scenario_file !! pos = Some r
      ∧ process_data scenario_file
        = inl (ValueError (strptime_error (pretty (MESS_DATUM r)))).
Proof.
  assert (Exists (λ r, strptime (pretty (MESS_DATUM r)) = None) scenario_file)
    as Hbad by (apply Exists_cons_tl, Exists_cons_hd; by vm_compute).
  split; [done|].
  destruct (malformed_timestamp str_tenths plot_ok (λ _, true)
              scenario_file fresh_world) as (Hfails & _ & _).
  destruct (Hfails Hbad) as (pos & r & Hpos & _ & _ & Hdata & _).
  exists pos, r. split; assumption.
Defined.

(** * Further properties *)

(** ** A timestamp and its number *)

Lemma exact_stamp (x : Z) (t : datetime) :
  exact_YYYYMMDDHH x = Some t → stamp t = x ∧ 0 ≤ hour (dt_time t) ≤ 23.
Proof.
  unfold exact_YYYYMMDDHH. case_match eqn:Hok; [|done]. intros [= <-].
  unfold stamp; cbn. rewrite !andb_true_iff, !Z.leb_le in Hok.
  split; [|Z.div_mod_to_equations; lia].
  Z.div_mod_to_equations; lia.
Qed.

(** X1. Parsing a timestamp of ten digits loses nothing: the number is
    read back from the year, month, day and hour of the timestamp it
    parses to, so two different numbers of ten digits never parse to the
    same timestamp. *)
Theorem ten_digit_stamp_recovered (x : Z) (t : datetime) :
  1000000000 ≤ x < 10000000000 →
  strptime (pretty x) = Some t → stamp t = x.
Proof.
  intros Hx. rewrite (strptime_ten_digits x Hx). by intros [? _]%exact_stamp.
Qed.

Lemma ten_digit_stamp_recovered_witness :
  1000000000 ≤ 2023070114 < 10000000000
  ∧ strptime (pretty 2023070114) = Some (Timestamp (Date 2023 7 1) (Time 14))
  ∧ stamp (Timestamp (Date 2023 7 1) (Time 14)) = 2023070114.
Proof.
  assert (1000000000 ≤ 2023070114 < 10000000000) as Hx by lia.
  assert (strptime (pretty 2023070114)
          = Some (Timestamp (Date 2023 7 1) (Time 14))) as Ht by (by vm_compute).
  split; [exact Hx|]. split; [exact Ht|].
  exact (ten_digit_stamp_recovered 2023070114 _ Hx Ht).
Defined.

(** X2. Every hour of the calendar from the year 1000 on, written as
    YYYYMMDDHH, is parsed to that day and hour. *)
Theorem stamp_parsed (y m d h : Z) :
  1000 ≤ y ≤ 9999 → 1 ≤ m ≤ 12 → 1 ≤ d ≤ days_in_month y m → 0 ≤ h ≤ 23 →
  strptime (pretty (stamp (Timestamp (Date y m d) (Time h))))
  = Some (Timestamp (Date y m d) (Time h)).
Proof.
  intros Hy Hm Hd Hh. pose proof (days_in_month_le_31 y m).
  unfold stamp; cbn [year month day hour dt_date dt_time].
  rewrite strptime_ten_digits by lia. unfold exact_YYYYMMDDHH.
  assert ((y * 1000000 + m * 10000 + d * 100 + h) `div` 1000000 = y) as ->
    by (Z.div_mod_to_equations; lia).
  assert (((y * 1000000 + m * 10000 + d * 100 + h) `div` 10000) `mod` 100 = m)
    as -> by (Z.div_mod_to_equations; lia).
  assert (((y * 1000000 + m * 10000 + d * 100 + h) `div` 100) `mod` 100 = d)
    as -> by (Z.div_mod_to_equations; lia).
  assert ((y * 1000000 + m * 10000 + d * 100 + h) `mod` 100 = h) as ->
    by (Z.div_mod_to_equations; lia).
  rewrite (proj2 (Z.leb_le 1 m)), (proj2 (Z.leb_le m 12)),
    (proj2 (Z.leb_le 1 d)), (proj2 (Z.leb_le d _)), (proj2 (Z.leb_le h 23));
    [done|lia..].
Qed.

Lemma stamp_parsed_witness :
  strptime (pretty 2024022923) = Some (Timestamp (Date 2024 2 29) (Time 23)).
Proof.
  apply (stamp_parsed 2024 2 29 23); [lia|lia|by vm_compute|lia].
Defined.

(** ** What the format accepts *)

Lemma match_alt_classes (a : alternative) (s m r : list ascii) :
  match_alt a s = Some (m, r) → Forall2 (λ (c : char_class) x, c x = true) a m.
Proof.
  revert s m r. induction a as [|c a IH]; intros s m r.
  - destruct s; intros [= <- <-]; constructor.
  - destruct s as [|x s]; [done|]. cbn.
    destruct (c x) eqn:Hc; [|done].
    destruct (match_alt a s) as [[m' r']|] eqn:Ha; [|done].
    intros [= <- <-]. constructor; [done|]. by eapply IH.
Qed.

(** The groups of a match: each is matched by an alternative of its
    group, and together with the text left over they are the text. *)
Lemma match_seq_groups (ds : list directive) (s r : list ascii)
    (ms : list (list ascii)) :
  match_seq ds s = Some (ms, r) →
  Forall2 (λ (d : directive) m,
             ∃ alt, alt ∈ d ∧ Forall2 (λ (c : char_class) x, c x = true) alt m)
          ds ms
  ∧ s = concat ms ++ r.
Proof.
  revert s r ms. induction ds as [|d ds IH]; intros s r ms.
  - intros [= <- <-]. split; [constructor|done].
  - cbn [match_seq]. intros (alt & Halt & Hf)%first_some_Some.
    destruct (match_alt alt s) as [[m r1]|] eqn:Hm; [|done].
    destruct (match_seq ds r1) as [[ms' r']|] eqn:Hrest; [|done].
    injection Hf as <- <-. apply IH in Hrest as [Hgroups ->].
    pose proof (match_alt_classes _ _ _ _ Hm) as Hcl.
    apply match_alt_Some in Hm as [-> _]. split.
    + constructor; [|done]. by exists alt.
    + cbn. by rewrite app_assoc.
Qed.

Ltac inv_Forall2 :=
  repeat match goal with
    | H : Forall2 _ (_ :: _) _ |- _ =>
        apply Forall2_cons_inv_l in H as (? & ? & ? & H & ->)
    | H : Forall2 _ [] _ |- _ => apply Forall2_nil_inv_l in H as ->
    end.

Ltac char_codes :=
  change (code "0") with 48 in *; change (code "1") with 49 in *;
  change (code "2") with 50 in *; change (code "3") with 51 in *;
  change (code "9") with 57 in *.

(** The hour group is one or two digits that read as 0 to 23. *)
Lemma hour_group (g : list ascii) :
  (∃ alt, alt ∈ re_H ∧ Forall2 (λ (c : char_class) x, c x = true) alt g) →
  0 ≤ int_of g ≤ 23 ∧ (1 ≤ length g ≤ 2)%nat.
Proof.
  intros (alt & Halt & Hg). unfold re_H in Halt.
  rewrite !elem_of_cons, elem_of_nil in Halt.
  destruct Halt as [->|[->|[->|[]]]]; inv_Forall2;
    unfold lit, digit in *;
    repeat match goal with
    | H : between _ _ _ = true |- _ => apply between_spec in H
    end;
    unfold int_of; cbn [fold_left]; unfold digit;
    repeat match goal with
    | |- context [between "0" "9" ?x] =>
        rewrite (proj2 (between_spec "0" "9" x)) by (char_codes; lia)
    end;
    char_codes; cbn [length]; lia.
Qed.

Lemma short_group (d : directive) (g : list ascii) :
  d = re_m ∨ d = re_d →
  (∃ alt, alt ∈ d ∧ Forall2 (λ (c : char_class) x, c x = true) alt g) →
  (1 ≤ length g ≤ 2)%nat.
Proof.
  intros Hd (alt & Halt & Hg). apply Forall2_length in Hg as <-.
  destruct Hd as [->| ->]; unfold re_m, re_d in Halt;
    rewrite !elem_of_cons, elem_of_nil in Halt;
    destruct_or!; subst; cbn; try lia; done.
Qed.

Lemma year_group (g : list ascii) :
  (∃ alt, alt ∈ re_Y ∧ Forall2 (λ (c : char_class) x, c x = true) alt g) →
  ∃ y1 y2 y3 y4, g = [y1; y2; y3; y4] ∧ digit y1 = true.
Proof.
  intros (alt & Halt & Hg). unfold re_Y in Halt.
  apply list_elem_of_singleton in Halt as ->. inv_Forall2. eauto 6.
Qed.

(** What the format reads: a text of seven to ten characters that starts
    with a digit, and an hour from 0 to 23. *)
Lemma strptime_text (text : string) (t : datetime) :
  strptime text = Some t →
  0 ≤ hour (dt_time t) ≤ 23
  ∧ (7 ≤ String.length text ≤ 10)%nat
  ∧ ∃ c rest, text = String c rest ∧ digit c = true.
Proof.
  unfold strptime.
  destruct (match_seq _ _) as [[ms r]|] eqn:Hmatch; [|done].
  apply match_seq_groups in Hmatch as [Hgroups Htext].
  unfold format_regex in Hgroups.
  apply Forall2_cons_inv_l in Hgroups as (gY & ms1 & HY & Hgroups & ->).
  apply Forall2_cons_inv_l in Hgroups as (gm & ms2 & Hm & Hgroups & ->).
  apply Forall2_cons_inv_l in Hgroups as (gd & ms3 & Hd & Hgroups & ->).
  apply Forall2_cons_inv_l in Hgroups as (gH & ms4 & HH & Hgroups & ->).
  apply Forall2_nil_inv_l in Hgroups as ->.
  destruct r as [|? ?]; [|done].
  destruct (make_date _ _ _) as [d|]; [|done]. intros [= <-]. cbn [hour dt_time].
  apply hour_group in HH as [Hhour HlenH].
  apply (short_group re_m) in Hm; [|by left].
  apply (short_group re_d) in Hd; [|by right].
  apply year_group in HY as (y1 & y2 & y3 & y4 & -> & Hy1).
  assert (String.length text = length (String.list_ascii_of_string text)) as Hlen.
  { clear. induction text; cbn; congruence. }
  split; [done|]. split.
  - rewrite Hlen, Htext. cbn. rewrite !length_app. cbn. lia.
  - destruct text as [|c rest]; [done|]. cbn in Htext.
    injection Htext as -> _. eauto.
Qed.

Lemma pretty_N_go_length_ge (n : N) (s : string) :
  (String.length s ≤ String.length (pretty_N_go n s))%nat.
Proof.
  revert s. induction (N.lt_wf_0 n) as [n _ IH]; intros s.
  destruct (decide (n = 0)%N) as [->|Hn]; [done|].
  rewrite pretty_N_go_step by lia.
  etrans; [|apply IH; apply N.div_lt; lia]. cbn. lia.
Qed.

(** The decimal text of a number of more than [k] digits. *)
Lemma pretty_N_go_long (k : nat) (n : N) (s : string) :
  (10 ^ N.of_nat k ≤ n)%N →
  (k + 1 + String.length s ≤ String.length (pretty_N_go n s))%nat.
Proof.
  revert n s. induction k as [|k IH]; intros n s Hn.
  - cbn in Hn. rewrite pretty_N_go_step by lia.
    etrans; [|apply pretty_N_go_length_ge]. cbn. lia.
  - rewrite Nat2N.inj_succ, N.pow_succ_r' in Hn.
    rewrite pretty_N_go_step by lia.
    etrans; [|apply IH].
    + cbn. lia.
    + apply N.div_le_lower_bound; lia.
Qed.

(** A number whose decimal text has seven to ten characters and starts
    with a digit. *)
Lemma pretty_seven_to_ten (x : Z) (c : ascii) (rest : string) :
  pretty x = String c rest → digit c = true →
  (7 ≤ String.length (pretty x) ≤ 10)%nat →
  1000000 ≤ x < 10000000000.
Proof.
  intros Htext Hc Hlen. destruct x as [|p|p].
  - cbn in Hlen. lia.
  - destruct (decide (Z.pos p < 1000000)) as [Hsmall|Hbig].
    + assert (Z.pos p < 10 ∨ 10 ≤ Z.pos p < 100 ∨ 100 ≤ Z.pos p < 1000
              ∨ 1000 ≤ Z.pos p < 10000 ∨ 10000 ≤ Z.pos p < 100000
              ∨ 100000 ≤ Z.pos p < 1000000) as Hcases by lia.
      destruct Hcases as [?|[?|[?|[?|[?|?]]]]].
      * rewrite (pretty_length 1) in Hlen; [lia|cbn; lia..].
      * rewrite (pretty_length 2) in Hlen; [lia|cbn; lia..].
      * rewrite (pretty_length 3) in Hlen; [lia|cbn; lia..].
      * rewrite (pretty_length 4) in Hlen; [lia|cbn; lia..].
      * rewrite (pretty_length 5) in Hlen; [lia|cbn; lia..].
      * rewrite (pretty_length 6) in Hlen; [lia|cbn; lia..].
    + split; [lia|]. apply Z.lt_nge. intros Hhuge.
      change (pretty (Z.pos p)) with (pretty_N (N.pos p)) in Hlen.
      unfold pretty_N in Hlen. rewrite decide_False in Hlen by done.
      pose proof (pretty_N_go_long 10 (N.pos p) "") as Hlong.
      change (10 ^ N.of_nat 10)%N with 10000000000%N in Hlong.
      cbn [String.length] in Hlong. lia.
  - change (pretty (Z.neg p)) with ("-" +:+ pretty (N.pos p)) in Htext.
    injection Htext as <- _. done.
Qed.

Lemma process_data_months (file : list RawRow) (df : DataFrame) :
  process_data file = inr df → Forall (λ r, 1 ≤ Monat r ≤ 12) df.
Proof.
  intros Hdf. pose proof (process_data_days _ _ Hdf) as Hdays.
  apply process_data_derived in Hdf.
  rewrite Forall_forall in Hdf, Hdays. apply Forall_forall. intros r Hr.
  destruct (Hdf r Hr) as (_ & -> & _). by destruct (Hdays r Hr) as (_ & ? & _).
Qed.

Lemma process_data_hours (file : list RawRow) (df : DataFrame) :
  process_data file = inr df → Forall (λ r, 0 ≤ hour (Uhrzeit r) ≤ 23) df.
Proof.
  intros (ts & Hts & ->)%process_data_inr.
  revert Hts. generalize (MESS_DATUM <$> file) (TT_TU <$> file).
  intros col ws Hts. revert ws.
  induction Hts as [|x t col ts Hx _ IH]; intros [|w ws]; cbn; try constructor.
  - cbn. by apply strptime_text in Hx as [? _].
  - apply IH.
Qed.

(** X3. [process_data] returns a frame exactly when every timestamp of
    the file parses, and the frame then has one row per row of the file,
    in the order of the file: the timestamp parsed, the temperature as it
    was, and the year, month, day and time of day of the timestamp. *)
Theorem process_data_rows (file : list RawRow) (df : DataFrame) :
  process_data file = inr df
  ↔ Forall2 (λ raw r, ∃ t, strptime (pretty (MESS_DATUM raw)) = Some t
                          ∧ r = mk_row t (TT_TU raw)) file df.
Proof.
  rewrite process_data_inr. split.
  - intros (ts & Hts & ->). revert ts Hts.
    induction file as [|raw file IH]; intros ts Hts.
    + apply Forall2_nil_inv_l in Hts as ->. constructor.
    + rewrite fmap_cons in Hts.
      apply Forall2_cons_inv_l in Hts as (t & ts' & Ht & Hts & ->).
      rewrite fmap_cons. cbn [zip_with]. constructor; [by exists t|by apply IH].
  - intros Hrows. exists (Zeitstempel <$> df). split.
    + induction Hrows as [|raw r file df (t & Ht & ->) _ IH]; [constructor|].
      rewrite !fmap_cons. by constructor.
    + induction Hrows as [|raw r file df (t & Ht & ->) _ IH]; [done|].
      rewrite !fmap_cons. cbn [zip_with]. by rewrite <- IH.
Qed.

(** X4. In a frame [process_data] returns, every row has a year from 1 to
    9999, a month from 1 to 12, a day that month of that year has and an
    hour from 0 to 23. *)
Theorem parsed_fields_in_range (file : list RawRow) (df : DataFrame) :
  process_data file = inr df →
  Forall (λ r, 1 ≤ Jahr r ≤ 9999 ∧ 1 ≤ Monat r ≤ 12
               ∧ 1 ≤ day (Tag r) ≤ days_in_month (Jahr r) (Monat r)
               ∧ 0 ≤ hour (Uhrzeit r) ≤ 23) df.
Proof.
  intros Hdf. pose proof (process_data_days _ _ Hdf) as Hdays.
  pose proof (process_data_hours _ _ Hdf) as Hhours.
  apply process_data_derived in Hdf.
  rewrite Forall_forall in Hdf, Hdays, Hhours. apply Forall_forall.
  intros r Hr. destruct (Hdf r Hr) as (-> & -> & _).
  destruct (Hdays r Hr) as (? & ? & ?). pose proof (Hhours r Hr).
  split_and!; lia.
Qed.

Lemma parsed_fields_in_range_witness :
  process_data july_file = inr july_frame
  ∧ Forall (λ r, 1 ≤ Jahr r ≤ 9999 ∧ 1 ≤ Monat r ≤ 12
                 ∧ 1 ≤ day (Tag r) ≤ days_in_month (Jahr r) (Monat r)
                 ∧ 0 ≤ hour (Uhrzeit r) ≤ 23) july_frame.
Proof.
  assert (process_data july_file = inr july_frame) as Hdata by (by vm_compute).
  split; [exact Hdata|]. exact (parsed_fields_in_range _ _ Hdata).
Defined.

(** X5. [process_data] returns a frame only for a file whose timestamps
    all are numbers of seven to ten digits: a negative number, a number
    below 1000000 and a number of more than ten digits make it raise. *)
Theorem accepted_timestamps_bounded (file : list RawRow) (df : DataFrame) :
  process_data file = inr df →
  Forall (λ raw, 1000000 ≤ MESS_DATUM raw < 10000000000) file.
Proof.
  intros (ts & Hts & _)%process_data_inr. apply Forall_forall.
  intros raw [i Hi]%list_elem_of_lookup.
  assert ((MESS_DATUM <$> file) !! i = Some (MESS_DATUM raw)) as Hx
    by (by rewrite list_lookup_fmap, Hi).
  destruct (Forall2_lookup_l _ _ _ _ _ Hts Hx) as (t & _ & Ht).
  apply strptime_text in Ht as (_ & Hlen & c & rest & Htext & Hc).
  by apply (pretty_seven_to_ten _ c rest).
Qed.

Lemma accepted_timestamps_bounded_witness :
  process_data july_file = inr july_frame
  ∧ Forall (λ raw, 1000000 ≤ MESS_DATUM raw < 10000000000) july_file.
Proof.
  assert (process_data july_file = inr july_frame) as Hdata by (by vm_compute).
  split; [exact Hdata|]. exact (accepted_timestamps_bounded _ _ Hdata).
Defined.

(** ** The two tables together *)

Lemma length_remove_dups_le {A} `{EqDecision A} (l : list A) :
  (length (remove_dups l) ≤ length l)%nat.
Proof.
  induction l as [|a l IH]; cbn; [done|]. case_decide; cbn; lia.
Qed.

Lemma remove_dups_nil_inv {A} `{EqDecision A} (l : list A) :
  remove_dups l = [] → l = [].
Proof.
  destruct l as [|a l]; [done|]. intros Hnil.
  assert (a ∈ remove_dups (a :: l)) as Hin by (apply elem_of_remove_dups; left).
  rewrite Hnil in Hin. by apply elem_of_nil in Hin.
Qed.

(** X6. For a parsed frame the two tables have the same years, and under
    every month the count of days is at most the count of hours, and is 0
    exactly when the count of hours is. *)
Theorem days_at_most_hours (file : list RawRow) (df : DataFrame)
    (y m : Z) (name : string) :
  process_data file = inr df →
  (m, name) ∈ months →
  match loc (create_pivot_tables df).1 y name,
        loc (create_pivot_tables df).2 y name with
  | Some hours, Some days =>
      (days ≤ hours)%nat ∧ (days = 0%nat ↔ hours = 0%nat)
  | None, None => True
  | _, _ => False
  end.
Proof.
  intros Hdf%process_data_derived Hm.
  rewrite (pivot_hours_loc df y m name Hm), (pivot_days_loc df y m name Hm).
  rewrite (derived_filter df _ y m Hdf).
  rewrite derived_years.
  2:{ apply Forall_forall. intros r (_ & Hr)%list_elem_of_filter.
      rewrite Forall_forall in Hdf. auto. }
  case_decide; [|done].
  set (hot := filter (λ r, Jahr r = y ∧ Monat r = m ∧ ge27 (Wert r)) df).
  pose proof (length_remove_dups_le (Tag <$> hot)) as Hle.
  rewrite length_fmap in Hle. split; [done|]. split.
  - intros Hz%nil_length_inv%remove_dups_nil_inv%fmap_nil_inv. by rewrite Hz.
  - intros Hz. lia.
Qed.

Lemma july_in_months : (7, "Jul") ∈ months.
Proof. by apply (list_elem_of_lookup_2 _ 6%nat). Qed.

Lemma days_at_most_hours_witness :
  process_data july_file = inr july_frame
  ∧ (7, "Jul") ∈ months
  ∧ match loc (create_pivot_tables july_frame).1 2023 "Jul",
          loc (create_pivot_tables july_frame).2 2023 "Jul" with
    | Some hours, Some days =>
        (days ≤ hours)%nat ∧ (days = 0%nat ↔ hours = 0%nat)
    | None, None => True
    | _, _ => False
    end.
Proof.
  assert (process_data july_file = inr july_frame) as Hdata by (by vm_compute).
  pose proof july_in_months as Hm.
  split; [exact Hdata|]. split; [exact Hm|].
  exact (days_at_most_hours july_file july_frame 2023 7 "Jul" Hdata Hm).
Defined.

(** *** Counting group by group *)

Lemma sum_group_lengths_cons {A K} `{EqDecision K} (key : A → K) (ks : list K)
    (a : A) (l : list A) :
  NoDup ks →
  sum_list ((λ k, length (filter (λ a, key a = k) (a :: l))) <$> ks)
  = ((if decide (key a ∈ ks) then 1 else 0)
     + sum_list ((λ k, length (filter (λ a, key a = k) l)) <$> ks))%nat.
Proof.
  induction 1 as [|k ks Hk Hnd IH].
  - rewrite decide_False by apply not_elem_of_nil. done.
  - rewrite !fmap_cons.
    change (sum_list (?x :: ?l)) with (x + sum_list l)%nat.
    rewrite IH, (filter_cons (λ a, key a = k)).
    destruct (decide (key a = k)) as [<-|Hne].
    + rewrite (decide_False (P := key a ∈ ks)) by done.
      rewrite decide_True by left. cbn. lia.
    + destruct (decide (key a ∈ ks)) as [Hin|Hin].
      * rewrite (decide_True (P := key a ∈ k :: ks)) by (by right). lia.
      * rewrite (decide_False (P := key a ∈ k :: ks)); [lia|].
        intros [?|?]%elem_of_cons; congruence.
Qed.

(** When the keys are distinct and every row has one of them, the groups
    add up to the rows. *)
Lemma sum_group_lengths {A K} `{EqDecision K} (key : A → K) (ks : list K)
    (l : list A) :
  NoDup ks → (∀ a, a ∈ l → key a ∈ ks) →
  sum_list ((λ k, length (filter (λ a, key a = k) l)) <$> ks) = length l.
Proof.
  intros Hnd. induction l as [|a l IH]; intros Hl.
  - clear. induction ks as [|k ks IH]; [done|]. rewrite fmap_cons.
    change (sum_list (?x :: ?l)) with (x + sum_list l)%nat. by rewrite IH.
  - rewrite sum_group_lengths_cons by done.
    rewrite decide_True by (apply Hl; left).
    rewrite IH; [done|]. intros a' Ha'. apply Hl. by right.
Qed.

Lemma sum_list_concat (ls : list (list nat)) :
  sum_list (concat ls) = sum_list (sum_list <$> ls).
Proof.
  induction ls as [|l ls IH]; [done|]. cbn [concat].
  rewrite sum_list_with_app, fmap_cons.
  change (sum_list (?x :: ?l)) with (x + sum_list l)%nat.
  change (sum_list_with id ?l) with (sum_list l). by rewrite IH.
Qed.

Lemma NoDup_range_1_13 : NoDup range_1_13.
Proof. apply NoDup_seqZ. Qed.

Lemma elem_of_range_1_13 (m : Z) : m ∈ range_1_13 ↔ 1 ≤ m ≤ 12.
Proof. unfold range_1_13. rewrite elem_of_seqZ. lia. Qed.

(** The counts of a reindexed table add up to the rows that have a value,
    when every row has one of the new column labels. *)
Lemma reindexed_total {R} (index_key column_key : R → Z)
    (value_notna : R → bool) (new : list Z) (df : list R) :
  NoDup new → (∀ r, r ∈ df → column_key r ∈ new) →
  sum_list (counts (reindex_columns new 0
                      (pivot_table index_key column_key value_notna 0 df)))
  = length (filter (λ r, value_notna r) df).
Proof.
  intros Hnew Hcol. unfold counts.
  rewrite reindexed_rows, <- list_fmap_compose, sum_list_concat.
  rewrite <- list_fmap_compose.
  set (kept := filter (λ r, value_notna r) df).
  rewrite <- (sum_group_lengths index_key (sorted_unique (index_key <$> df)) kept).
  2:{ apply NoDup_sorted_unique. }
  2:{ intros r [_ Hr]%list_elem_of_filter. apply elem_of_sorted_unique.
      by apply list_elem_of_fmap_2. }
  f_equal. apply list_fmap_ext. intros _ y _. cbn.
  rewrite <- (sum_group_lengths column_key new
                (filter (λ r, index_key r = y) kept)); [|done|].
  2:{ intros r [_ [_ Hr]%list_elem_of_filter]%list_elem_of_filter. auto. }
  f_equal. apply list_fmap_ext. intros _ m _.
  unfold group_count, kept.
  rewrite (list_filter_filter (λ r, column_key r = m) (λ r, index_key r = y)).
  rewrite !list_filter_filter.
  f_equal. apply list_filter_iff. intros r. tauto.
Qed.

(** X7. For a parsed frame no observation is lost or counted twice: the
    counts of the hour table add up to the number of observations of 27
    or more, and the counts of the day table to the number of distinct
    days that have one. *)
Theorem pivot_tables_total (file : list RawRow) (df : DataFrame) :
  process_data file = inr df →
  sum_list (counts (create_pivot_tables df).1)
    = length (filter (λ r, ge27 (Wert r)) df)
  ∧ sum_list (counts (create_pivot_tables df).2)
    = length (remove_dups (Tag <$> filter (λ r, ge27 (Wert r)) df)).
Proof.
  intros Hdf. pose proof (process_data_months _ _ Hdf) as Hmonths.
  pose proof (process_data_days _ _ Hdf) as Hdays.
  rewrite Forall_forall in Hmonths, Hdays.
  unfold create_pivot_tables; cbn [fst snd].
  change (counts (set_columns month_labels ?t)) with (counts t).
  split.
  - rewrite (reindexed_total Jahr Monat); [|apply NoDup_range_1_13|].
    + f_equal. apply filter_all.
      intros r [Hge _]%list_elem_of_filter. by destruct (Wert r).
    + intros r [_ Hr]%list_elem_of_filter. apply elem_of_range_1_13. auto.
  - rewrite (reindexed_total d_Jahr d_Monat); [|apply NoDup_range_1_13|].
    + rewrite filter_all by done. unfold days_frame.
      by rewrite length_fmap, merge_sort_Permutation.
    + unfold days_frame.
      intros dr (d & -> & Hd)%list_elem_of_fmap. cbn [d_Monat].
      apply elem_of_groupby_days in Hd as (r & Hr & _ & <-).
      apply elem_of_range_1_13. by destruct (Hdays r Hr) as (_ & ? & _).
Qed.

Lemma pivot_tables_total_witness :
  process_data july_file = inr july_frame
  ∧ sum_list (counts (create_pivot_tables july_frame).1) = 2%nat
  ∧ sum_list (counts (create_pivot_tables july_frame).2) = 1%nat.
Proof.
  assert (process_data july_file = inr july_frame) as Hdata by (by vm_compute).
  split; [exact Hdata|].
  destruct (pivot_tables_total july_file july_frame Hdata) as [-> ->].
  split; by vm_compute.
Defined.

(** ** The order of the rows of the frame *)

Lemma remove_dups_Permutation {A} `{EqDecision A} (l k : list A) :
  l ≡ₚ k → remove_dups l ≡ₚ remove_dups k.
Proof.
  intros Hperm. apply NoDup_Permutation; [apply NoDup_remove_dups..|].
  intros x. by rewrite !elem_of_remove_dups, Hperm.
Qed.

Lemma sorted_unique_Permutation (l k : list Z) :
  l ≡ₚ k → sorted_unique l = sorted_unique k.
Proof.
  intros Hperm. unfold sorted_unique.
  apply (Sorted_unique Z.le); [apply (Sorted_merge_sort _)..|].
  rewrite !merge_sort_Permutation. by apply remove_dups_Permutation.
Qed.

Global Instance date_le_total : Total date_le.
Proof. intros [y m d] [y' m' d']. unfold date_le; cbn. lia. Qed.
Global Instance date_le_trans : Transitive date_le.
Proof. intros [y m d] [y' m' d'] [y'' m'' d'']. unfold date_le; cbn. lia. Qed.
Global Instance date_le_antisymm : AntiSymm (=) date_le.
Proof.
  intros [y m d] [y' m' d']. unfold date_le; cbn. intros H1 H2.
  f_equal; lia.
Qed.

Lemma pivot_table_Permutation {R} (index_key column_key : R → Z)
    (value_notna : R → bool) (fill : nat) (df df' : list R) :
  df ≡ₚ df' →
  pivot_table index_key column_key value_notna fill df
  = pivot_table index_key column_key value_notna fill df'.
Proof.
  intros Hperm. unfold pivot_table.
  rewrite (sorted_unique_Permutation (column_key <$> df) (column_key <$> df'))
    by (by rewrite Hperm).
  rewrite (sorted_unique_Permutation (index_key <$> df) (index_key <$> df'))
    by (by rewrite Hperm).
  f_equal. apply list_fmap_ext. intros _ y _. f_equal.
  apply list_fmap_ext. intros _ m _.
  assert (has_group index_key column_key df y m
          = has_group index_key column_key df' y m) as ->.
  { unfold has_group. apply bool_decide_ext. by rewrite Hperm. }
  assert (group_count index_key column_key value_notna df y m
          = group_count index_key column_key value_notna df' y m) as ->; [|done].
  unfold group_count. apply Permutation_length. by rewrite Hperm.
Qed.

Lemma days_frame_Permutation (df df' : DataFrame) :
  df ≡ₚ df' → days_frame df = days_frame df'.
Proof.
  intros Hperm. unfold days_frame.
  assert (merge_sort date_le
            (remove_dups (Tag <$> filter (λ r, ge27 (Wert r)) df))
          = merge_sort date_le
              (remove_dups (Tag <$> filter (λ r, ge27 (Wert r)) df'))) as ->.
  { apply (Sorted_unique date_le); [apply (Sorted_merge_sort _)..|].
    rewrite !merge_sort_Permutation. apply remove_dups_Permutation.
    by rewrite Hperm. }
  apply list_fmap_ext. intros _ d _. f_equal.
  apply Permutation_length. by rewrite Hperm.
Qed.

(** X8. The two tables do not depend on the order of the rows of the
    frame: frames with the same rows in another order get the same
    tables. *)
Theorem pivot_tables_row_order (df df' : DataFrame) :
  df ≡ₚ df' → create_pivot_tables df = create_pivot_tables df'.
Proof.
  intros Hperm. unfold create_pivot_tables.
  rewrite (days_frame_Permutation df df' Hperm).
  rewrite (pivot_table_Permutation Jahr Monat _ 0
             (filter (λ r, ge27 (Wert r)) df)
             (filter (λ r, ge27 (Wert r)) df')); [done|].
  by rewrite Hperm.
Qed.

Lemma pivot_tables_row_order_witness :
  july_frame ≡ₚ reverse july_frame
  ∧ create_pivot_tables july_frame = create_pivot_tables (reverse july_frame).
Proof.
  assert (july_frame ≡ₚ reverse july_frame) as Hperm
    by (symmetry; apply reverse_Permutation).
  split; [exact Hperm|]. exact (pivot_tables_row_order _ _ Hperm).
Defined.

(** ** The workbook as a whole *)

Lemma sum_list_filter_zero {A} (f : A → nat) (P : A → Prop)
    `{∀ x, Decision (P x)} (l : list A) :
  (∀ x, x ∈ l → ¬ P x → f x = 0%nat) →
  sum_list (f <$> filter P l) = sum_list (f <$> l).
Proof.
  induction l as [|a l IH]; intros Hl; [done|].
  rewrite (filter_cons P), fmap_cons.
  change (sum_list (?x :: ?l)) with (x + sum_list l)%nat.
  rewrite <- IH by (intros x Hx; apply Hl; by right).
  destruct (decide (P a)) as [?|Hna]; [done|].
  rewrite (Hl a) by (done || left). done.
Qed.

Lemma sum_list_bind {A B} (f : B → nat) (g : A → list B) (l : list A) :
  sum_list (f <$> (l ≫= g)) = sum_list ((λ a, sum_list (f <$> g a)) <$> l).
Proof.
  induction l as [|a l IH]; [done|]. cbn [mbind list_bind].
  rewrite !fmap_cons, fmap_app, sum_list_with_app.
  change (sum_list (?x :: ?l)) with (x + sum_list l)%nat.
  change (sum_list_with id ?l) with (sum_list l).
  by rewrite <- IH.
Qed.

Lemma month_numbers : months.*1 = range_1_13.
Proof. reflexivity. Qed.

Lemma str_time_length (t : time) :
  0 ≤ hour t ≤ 23 → String.length (str_time t) = 8%nat.
Proof.
  intros Hh. unfold str_time.
  rewrite string_length_app, two_digits_length by lia. done.
Qed.

Lemma max_list_same (n : nat) (l : list nat) :
  l ≠ [] → Forall (λ k, k = n) l → max_list l = n.
Proof.
  intros Hne Hall. destruct Hall as [|k l -> Hall]; [done|]. clear Hne.
  cbn. induction Hall as [|k l -> _ IH]; cbn; lia.
Qed.

(** The fills of the rows of a month the highlighting has gone through:
    one for each temperature of 27 or more. *)
Lemma filled_rows_count (header : list Cell) (month_data : list MonthRow) :
  Forall (λ c, cell_fill c = None) header →
  length (filled (header :: (filled_row <$> month_data)))
  = length (filter (λ r, ge27 (Temperatur r)) month_data).
Proof.
  intros Hheader. unfold filled. cbn [concat].
  rewrite filter_app, length_app.
  rewrite (filter_none (λ c, is_Some (cell_fill c)) header).
  2:{ rewrite Forall_forall in Hheader. intros c Hc [f Hf].
      rewrite (Hheader c Hc) in Hf. done. }
  cbn [length Nat.add].
  induction month_data as [|r month_data IH]; [done|].
  rewrite fmap_cons. cbn [concat]. rewrite filter_app, length_app, IH.
  rewrite (filter_cons (λ r, ge27 (Temperatur r))).
  unfold filled_row.
  rewrite (filter_cons (λ c, is_Some (cell_fill c))), decide_False
    by (by intros [? ?]).
  rewrite (filter_cons (λ c, is_Some (cell_fill c))), decide_False
    by (by intros [? ?]).
  rewrite (filter_cons (λ c, is_Some (cell_fill c))). cbn [cell_fill].
  destruct (ge27 (Temperatur r)).
  - rewrite decide_True by done. by rewrite decide_True by done.
  - rewrite decide_False by (by intros [? ?]).
    by rewrite decide_False by (by intros ?).
Qed.

(** An entry of a table is a cell of its grid: in the row that starts
    with the year, under the label. *)
Lemma pivot_grid_entry (t : PivotTable string) (y : Z) (name : string) (n : nat) :
  loc t y name = Some n →
  ∃ i j header row,
    pivot_grid t !! 0%nat = Some header
    ∧ header !! 0%nat = Some (plain (VStr "Jahr"))
    ∧ header !! S j = Some (plain (VStr name))
    ∧ pivot_grid t !! S i = Some row
    ∧ row !! 0%nat = Some (plain (VInt y))
    ∧ row !! S j = Some (plain (VInt (Z.of_nat n))).
Proof.
  unfold loc. intros Hloc.
  destruct (list_find _ (rows t)) as [[i row]|] eqn:Hrow; [|done].
  destruct (list_find _ (columns t)) as [[j label]|] eqn:Hcol; [|done].
  cbn in Hloc. apply list_find_Some in Hrow as (Hi & <- & _).
  apply list_find_Some in Hcol as (Hj & -> & _).
  exists i, j. eexists _, _. unfold pivot_grid.
  split_and!; [reflexivity|reflexivity| | | |].
  - rewrite fmap_cons.
    change ((?x :: ?l) !! S j) with (l !! j).
    by rewrite !list_lookup_fmap, Hj.
  - change ((?x :: ?l) !! S i) with (l !! i).
    by rewrite list_lookup_fmap, Hi.
  - done.
  - rewrite fmap_cons.
    change ((?x :: ?l) !! S j) with (l !! j).
    by rewrite !list_lookup_fmap, Hloc.
Qed.

(** In a parsed frame every row is of a month of [months], so that the
    months with rows are without a missing or infinite temperature
    exactly when the frame is. *)
Lemma parsed_months_finite (file : list RawRow) (df : DataFrame) :
  process_data file = inr df →
  Forall (month_finite df) (detail_keys df) ↔ all_finite df.
Proof.
  intros Hdf. split; [|apply all_finite_months].
  intros Hmonths. apply Forall_forall. intros r Hr.
  pose proof (process_data_months _ _ Hdf) as Hm.
  rewrite Forall_forall in Hm. rewrite Forall_forall in Hmonths.
  assert (Monat r ∈ months.*1) as ([m name] & Hmo & Hin)%list_elem_of_fmap
    by (rewrite month_numbers; by apply elem_of_range_1_13, Hm).
  cbn [fst] in Hmo. subst m.
  assert ((Jahr r, (Monat r, name)) ∈ detail_keys df) as Hk.
  { apply elem_of_detail_keys. split; [done|]. by exists r. }
  apply Hmonths in Hk. unfold month_finite, all_finite in Hk.
  rewrite Forall_forall in Hk. apply Hk. by apply list_elem_of_filter.
Qed.

Section whole_workbook.
Context (str_float : float64 → string).
Context (plot_pivot : PivotTable string → string → Exc string).

Lemma length_month_sheet (df : DataFrame) (k : Z * (Z * string)) :
  length (cells (month_sheet str_float df k))
  = S (length (filter (λ r, Jahr r = k.1 ∧ Monat r = k.2.1) df)).
Proof.
  pose proof (f_equal length (values_month_sheet str_float df k)) as Hlen.
  unfold grid_values in Hlen.
  by rewrite length_fmap, length_cons, length_fmap in Hlen.
Qed.

(** X9. Whatever the frame and the tables, no two sheets of the workbook
    have the same title, so that [workbook[sheet_name]] picks the sheet
    just written. *)
Theorem sheet_titles_distinct (df : DataFrame)
    (pivot_hours pivot_days : PivotTable string) :
  NoDup (title <$> (write_report str_float plot_pivot df pivot_hours pivot_days).2).
Proof.
  rewrite report_titles.
  assert (∀ k, k ∈ written_keys df →
            sheet_name k.1 k.2.2 ≠ sheet_hours ∧ sheet_name k.1 k.2.2 ≠ sheet_days)
    as Hsummary.
  { intros [y [m name]] [Hm _]%elem_of_written_keys%elem_of_detail_keys.
    by apply (sheet_name_not_summary y m name). }
  apply NoDup_cons. split; [|apply NoDup_cons; split].
  - rewrite not_elem_of_cons. split; [done|].
    intros (k & Hname & Hk)%list_elem_of_fmap.
    by destruct (Hsummary k Hk) as [? _].
  - intros (k & Hname & Hk)%list_elem_of_fmap.
    by destruct (Hsummary k Hk) as [_ ?].
  - apply (sublist_NoDup _ _ (NoDup_key_names df)).
    apply fmap_sublist. etrans; [apply written_keys_sublist|].
    apply sublist_filter.
Qed.

(** X10. For a parsed frame without a missing or infinite temperature the
    monthly sheets divide the rows of the frame among them: the rows
    below the headers of the sheets after the two summary sheets are as
    many as the rows of the frame. *)
Theorem monthly_sheets_partition (file : list RawRow) (df : DataFrame)
    (pivot_hours pivot_days : PivotTable string) :
  process_data file = inr df →
  all_finite df →
  sum_list ((λ ws, pred (length (cells ws)))
            <$> drop 2 (write_report str_float plot_pivot df
                          pivot_hours pivot_days).2)
  = length df.
Proof.
  intros Hdf Hfin.
  destruct (write_report_book str_float plot_pivot df pivot_hours pivot_days)
    as (wh & wd & -> & _).
  change (drop 2 (wh :: wd :: ?l)) with l.
  unfold detail_sheets. rewrite written_keys_finite by done.
  rewrite <- list_fmap_compose.
  rewrite (list_fmap_ext _
    (λ k, length (filter (λ r, Jahr r = k.1 ∧ Monat r = k.2.1) df))
    (detail_keys df)).
  2:{ intros _ k _. unfold compose. by rewrite length_month_sheet. }
  unfold detail_keys. rewrite sum_list_filter_zero.
  2:{ intros k _ Hk. apply dec_stable in Hk. unfold month_data_of in Hk.
      apply fmap_nil_inv in Hk. by rewrite Hk. }
  unfold all_keys. rewrite sum_list_bind.
  rewrite <- (sum_group_lengths Jahr (unique (Jahr <$> df)) df).
  2:{ apply NoDup_unique_from. }
  2:{ intros r Hr. apply elem_of_unique. by apply list_elem_of_fmap_2. }
  f_equal. apply list_fmap_ext. intros _ y _. cbn beta.
  rewrite sum_list_bind.
  rewrite <- (sum_group_lengths Monat months.*1 (filter (λ r, Jahr r = y) df)).
  2:{ rewrite month_numbers. apply NoDup_range_1_13. }
  2:{ intros r [_ Hr]%list_elem_of_filter. rewrite month_numbers.
      apply elem_of_range_1_13.
      apply process_data_months in Hdf. rewrite Forall_forall in Hdf. auto. }
  rewrite <- list_fmap_compose. f_equal. apply list_fmap_ext.
  intros _ [m name] _. cbn.
  rewrite (list_filter_filter (λ r, Monat r = m) (λ r, Jahr r = y)).
  rewrite Nat.add_0_r. f_equal. apply list_filter_iff. intros r. tauto.
Qed.

(** The fills of the sheet of a month without a missing or infinite
    temperature. *)
Lemma filled_month_sheet (df : DataFrame) (y m : Z) (name : string) :
  month_finite df (y, (m, name)) →
  length (filled (cells (month_sheet str_float df (y, (m, name)))))
  = length (filter (λ r, Jahr r = y ∧ Monat r = m ∧ ge27 (Wert r)) df).
Proof.
  intros Hfin%month_finite_data. unfold month_sheet.
  rewrite cells_format_sheet_finite by done.
  rewrite filled_rows_count by (by repeat constructor).
  unfold month_data_of. cbn [fst snd].
  rewrite length_filter_fmap. cbn [Temperatur].
  rewrite (list_filter_filter (λ r, ge27 (Wert r) : Prop)
             (λ r, Jahr r = y ∧ Monat r = m)).
  f_equal. apply list_filter_iff. intros r. tauto.
Qed.

(** X11. The highlighted cells of the sheet of a month without a missing
    or infinite temperature are as many as the hour table counts for that
    year and month, and none when the table has no row for the year. *)
Theorem highlighted_count (df : DataFrame)
    (pivot_hours pivot_days : PivotTable string) (ws : Worksheet)
    (y m : Z) (name : string) :
  (m, name) ∈ months →
  month_finite df (y, (m, name)) →
  ws ∈ (write_report str_float plot_pivot df pivot_hours pivot_days).2 →
  title ws = sheet_name y name →
  length (filled (cells ws))
  = default 0%nat (loc (create_pivot_tables df).1 y name).
Proof.
  intros Hm Hfin Hws Hname.
  destruct (write_report_book str_float plot_pivot df pivot_hours pivot_days)
    as (wh & wd & Hbook & (Hwh & _) & (Hwd & _)).
  rewrite Hbook in Hws.
  destruct (monthly_sheet_by_name str_float df wh wd ws y m name)
    as [-> _]; [done..|].
  rewrite filled_month_sheet by done. rewrite (pivot_hours_loc df y m name Hm).
  destruct (decide _) as [Hy|Hy]; cbn [default from_option id]; [done|].
  apply length_zero_iff_nil, filter_none.
  intros r Hr (<- & _ & Hge). apply Hy.
  apply list_elem_of_fmap_2. by apply list_elem_of_filter.
Qed.

(** X19. In a frame without a missing or infinite temperature a month
    the hour table counts has its sheet: when the entry for a year and a
    month is not 0, the workbook has the monthly sheet of that year and
    month, with as many highlighted cells as the entry. *)
Theorem counted_month_has_sheet (df : DataFrame)
    (pivot_hours pivot_days : PivotTable string)
    (y m : Z) (name : string) (n : nat) :
  (m, name) ∈ months →
  all_finite df →
  loc (create_pivot_tables df).1 y name = Some (S n) →
  ∃ ws,
    ws ∈ (write_report str_float plot_pivot df pivot_hours pivot_days).2
    ∧ title ws = sheet_name y name
    ∧ length (filled (cells ws)) = S n.
Proof.
  intros Hm Hfin. rewrite (pivot_hours_loc df y m name Hm).
  case_decide; [|done]. intros [= Hcount].
  destruct (filter (λ r, Jahr r = y ∧ Monat r = m ∧ ge27 (Wert r)) df)
    as [|r hot] eqn:Hhot; [done|].
  assert (r ∈ filter (λ r, Jahr r = y ∧ Monat r = m ∧ ge27 (Wert r)) df)
    as [(Hy & Hmo & _) Hr]%list_elem_of_filter by (rewrite Hhot; left).
  destruct (write_report_book str_float plot_pivot df pivot_hours pivot_days)
    as (wh & wd & -> & _).
  pose proof (all_finite_months df [(y, (m, name))] Hfin)
    as [Hmonth _]%Forall_cons.
  exists (month_sheet str_float df (y, (m, name))). split_and!.
  - do 2 right. apply list_elem_of_fmap_2.
    rewrite written_keys_finite by done. apply elem_of_detail_keys.
    split; [done|]. by exists r.
  - by rewrite title_month_sheet.
  - by rewrite filled_month_sheet, Hhot.
Qed.

(** X20. [save_monthly_data] only appends, also when it raises: the
    sheets a workbook has, none of them with the name of a monthly sheet,
    stay as they are and where they are, and after them come the sheets
    of the first months with rows, in the order of the loops: of all the
    months with rows when none of them has a temperature missing or
    infinite, and then the loops end normally; else the loops raise a
    [TypeError], and the last sheet is the one of the first such month. *)
Theorem existing_sheets_kept (df : DataFrame) (book : Workbook) :
  (∀ ws y m name, ws ∈ book → (m, name) ∈ months →
     title ws ≠ sheet_name y name) →
  ∃ keys sheets,
    (save_monthly_data str_float df book).2 = book ++ sheets
    ∧ title <$> sheets = (λ k, sheet_name k.1 k.2.2) <$> keys
    ∧ keys `prefix_of` detail_keys df
    ∧ if decide (Forall (month_finite df) (detail_keys df))
      then (save_monthly_data str_float df book).1 = inr ()
           ∧ keys = detail_keys df
      else (save_monthly_data str_float df book).1 = inl TypeError
           ∧ ∃ k, last keys = Some k ∧ ¬ month_finite df k
                  ∧ Forall (month_finite df) (removelast keys).
Proof.
  intros Hfresh. exists (written_keys df), (detail_sheets str_float df).
  assert (save_monthly_data str_float df book
          = (if decide (Forall (month_finite df) (detail_keys df))
             then inr () else inl TypeError,
             book ++ detail_sheets str_float df)) as ->.
  { rewrite save_monthly_data_keys.
    apply save_keys_fresh; [apply NoDup_key_names|].
    intros [y [m name]] [_ Hm]%elem_of_all_keys.
    intros (ws & Hname & Hws)%list_elem_of_fmap.
    by apply (Hfresh ws y m name). }
  cbn [fst snd]. split_and!; [done| |apply through_first_prefix|].
  - unfold detail_sheets. rewrite <- list_fmap_compose.
    apply list_fmap_ext. intros _ k _. apply title_month_sheet.
  - unfold written_keys. destruct (decide _) as [Hall|Hsome].
    + split; [done|]. apply through_first_none.
      eapply Forall_impl; [done|]. cbn beta. tauto.
    + split; [done|].
      destruct (through_first_last (λ k, ¬ month_finite df k) (detail_keys df))
        as (k & Hlast & Hk & Hbefore).
      { intros Hall. apply Hsome. eapply Forall_impl; [done|].
        intros k Hk. by apply dec_stable. }
      exists k. split_and!; [done..|]. eapply Forall_impl; [done|].
      intros k' Hk'. by apply dec_stable.
Qed.

(** X12. For a parsed frame the first two columns of every monthly sheet
    get the same widths in every run: 12 for the days, which are texts of
    ten characters, and 10 for the times of day, which are texts of
    eight.  When no temperature of the month is missing, the column of
    the temperatures is at least 12 wide and no other column gets a
    width; when one is missing, the third column gets no width
    either. *)
Theorem date_and_time_widths (file : list RawRow) (df : DataFrame)
    (pivot_hours pivot_days : PivotTable string) (ws : Worksheet)
    (y m : Z) (name : string) :
  process_data file = inr df →
  (m, name) ∈ months →
  ws ∈ (write_report str_float plot_pivot df pivot_hours pivot_days).2 →
  title ws = sheet_name y name →
  column_dimensions ws !! "A" = Some 12%nat
  ∧ column_dimensions ws !! "B" = Some 10%nat
  ∧ if decide (Forall (λ r, notna (Wert r))
                 (filter (λ r, Jahr r = y ∧ Monat r = m) df))
    then (∃ w, column_dimensions ws !! "C" = Some w ∧ (12 ≤ w)%nat)
         ∧ dom (column_dimensions ws) = {["A"; "B"; "C"]}
    else dom (column_dimensions ws) = {["A"; "B"]}.
Proof.
  intros Hdf Hm Hws Hname.
  destruct (write_report_book str_float plot_pivot df pivot_hours pivot_days)
    as (wh & wd & Hbook & (Hwh & _) & (Hwd & _)).
  rewrite Hbook in Hws.
  destruct (monthly_sheet_by_name str_float df wh wd ws y m name)
    as [-> Hk]; [done..|].
  apply elem_of_written_keys, elem_of_detail_keys in Hk
    as (_ & r0 & Hr0 & Hy0 & Hm0).
  cbn [fst snd] in Hy0, Hm0.
  rewrite widths_month_sheet. cbn zeta. cbn [fst snd].
  set (rows := filter (λ r, Jahr r = y ∧ Monat r = m) df).
  assert (r0 ∈ rows) as Hin by (by apply list_elem_of_filter).
  assert (rows ≠ []) as Hne
    by (intros Hnil; rewrite Hnil in Hin; by apply elem_of_nil in Hin).
  pose proof (process_data_days _ _ Hdf) as Hdays.
  pose proof (process_data_hours _ _ Hdf) as Hhours.
  rewrite Forall_forall in Hdays, Hhours.
  assert (padded_width ((λ r, strftime_dmY (Tag r)) <$> rows) "Datum"
          = 12%nat) as ->.
  { unfold padded_width. rewrite <- list_fmap_compose.
    rewrite (max_list_same 10); [done|by intros ?%fmap_nil_inv|].
    apply Forall_fmap, Forall_forall. intros r [_ Hr]%list_elem_of_filter. cbn.
    pose proof (days_in_month_le_31 (year (Tag r)) (month (Tag r))).
    apply strftime_dmY_length; destruct (Hdays r Hr) as (? & ? & ?); lia. }
  assert (padded_width ((λ r, str_time (Uhrzeit r)) <$> rows) "Uhrzeit"
          = 10%nat) as ->.
  { unfold padded_width. rewrite <- list_fmap_compose.
    rewrite (max_list_same 8); [done|by intros ?%fmap_nil_inv|].
    apply Forall_fmap, Forall_forall. intros r [_ Hr]%list_elem_of_filter. cbn.
    apply str_time_length, (Hhours r Hr). }
  destruct (decide (Forall (λ r, notna (Wert r)) rows)) as [Hall|Hmissing].
  - split_and!.
    + by rewrite lookup_insert_ne, lookup_insert_ne, lookup_insert.
    + by rewrite lookup_insert_ne, lookup_insert.
    + rewrite lookup_insert. eexists. split; [done|].
      unfold padded_width. cbn. lia.
    + rewrite !dom_insert_L, dom_empty_L. set_solver.
  - split_and!.
    + by rewrite lookup_insert_ne, lookup_insert.
    + by rewrite lookup_insert.
    + rewrite !dom_insert_L, dom_empty_L. set_solver.
Qed.

(** X13. For a parsed frame: when no temperature is missing or infinite
    and both plots succeed, each summary sheet has one image, its own
    plot anchored at E5, and no monthly sheet has an image; when a
    temperature is missing or infinite, so that the plots are not
    reached, or a plot raises, no sheet of the workbook has one. *)
Theorem chart_images (file : list RawRow) (df : DataFrame)
    (pivot_hours pivot_days : PivotTable string) (ws : Worksheet) :
  process_data file = inr df →
  ws ∈ (write_report str_float plot_pivot df pivot_hours pivot_days).2 →
  images ws =
    if decide (all_finite df) then
      match plot_and_save_pivot_tables plot_pivot pivot_hours pivot_days with
      | inr (image_path_hours, image_path_days) =>
          if decide (title ws = sheet_hours) then [(image_path_hours, "E5")]
          else if decide (title ws = sheet_days) then [(image_path_days, "E5")]
          else []
      | inl _ => []
      end
    else [].
Proof.
  intros Hdf. unfold write_report, pivot_to_excel.
  rewrite save_monthly_data_eq.
  2:{ intros ws'. cbn [app]. rewrite !elem_of_cons, elem_of_nil.
      intros [->|[->|[]]]; auto. }
  assert (∀ ws, ws ∈ detail_sheets str_float df →
            images ws = [] ∧ title ws ≠ sheet_hours ∧ title ws ≠ sheet_days)
    as Hdetail.
  { intros ws' ([y [m name]] & -> & Hk)%list_elem_of_fmap.
    apply elem_of_written_keys, elem_of_detail_keys in Hk as [Hm _].
    split; [unfold month_sheet; by rewrite images_format_sheet|].
    rewrite title_month_sheet.
    by apply (sheet_name_not_summary y m name). }
  destruct (decide (Forall (month_finite df) (detail_keys df))) as [Hall|Hsome].
  - rewrite decide_True by (by eapply parsed_months_finite).
    destruct (plot_and_save_pivot_tables plot_pivot pivot_hours pivot_days)
      as [e|[image_path_hours image_path_days]]; cbn [snd app].
    + rewrite !elem_of_cons. intros [->|[->|Hws]]; [done..|].
      by apply Hdetail.
    + cbn [update_sheet new_sheet title]. rewrite decide_True by done.
      cbn [update_sheet add_image title]. rewrite decide_False by done.
      rewrite decide_True by done.
      rewrite !elem_of_cons. intros [->|[->|Hws]]; cbn [title images app].
      * by rewrite decide_True.
      * rewrite decide_False by done. by rewrite decide_True.
      * destruct (Hdetail ws Hws) as (-> & ? & ?).
        by rewrite !decide_False.
  - rewrite decide_False by (by rewrite <- (parsed_months_finite file)).
    cbn [snd app]. rewrite !elem_of_cons. intros [->|[->|Hws]]; [done..|].
    by apply Hdetail.
Qed.

(** X14. An entry of a table is found again on its summary sheet: the
    sheet has a row that starts with the year and, under the header cell
    with the month label, in a column after the one headed Jahr, holds
    the entry. *)
Theorem summary_sheet_cells (df : DataFrame)
    (pivot_hours pivot_days t : PivotTable string) (ws : Worksheet)
    (y : Z) (name : string) (n : nat) :
  ws ∈ (write_report str_float plot_pivot df pivot_hours pivot_days).2 →
  (title ws = sheet_hours ∧ t = pivot_hours)
  ∨ (title ws = sheet_days ∧ t = pivot_days) →
  loc t y name = Some n →
  ∃ i j header row,
    cells ws !! 0%nat = Some header
    ∧ header !! 0%nat = Some (plain (VStr "Jahr"))
    ∧ header !! S j = Some (plain (VStr name))
    ∧ cells ws !! S i = Some row
    ∧ row !! 0%nat = Some (plain (VInt y))
    ∧ row !! S j = Some (plain (VInt (Z.of_nat n))).
Proof.
  intros Hws Hsheet Hloc.
  destruct (write_report_book str_float plot_pivot df pivot_hours pivot_days)
    as (wh & wd & Hbook & (Hwh & Hch & _) & (Hwd & Hcd & _)).
  rewrite Hbook in Hws.
  assert (cells ws = pivot_grid t) as ->; [|by apply pivot_grid_entry].
  rewrite !elem_of_cons in Hws.
  destruct Hws as [->|[->|Hws]].
  - destruct Hsheet as [[_ ->]|[Hne _]]; [done|]. by rewrite Hwh in Hne.
  - destruct Hsheet as [[Hne _]|[_ ->]]; [|done]. by rewrite Hwd in Hne.
  - apply list_elem_of_fmap in Hws as ([y' [m' name']] & -> & Hk).
    apply elem_of_written_keys, elem_of_detail_keys in Hk as [Hm _].
    destruct (sheet_name_not_summary y' m' name' Hm).
    rewrite title_month_sheet in Hsheet. by destruct Hsheet as [[? _]|[? _]].
Qed.
End whole_workbook.

(** *** On the samples *)

Lemma july_month_sheet :
  month_sheet str_tenths july_frame (2023, (7, "Jul"))
  ∈ (write_report str_tenths plot_ok july_frame
       (create_pivot_tables july_frame).1
       (create_pivot_tables july_frame).2).2.
Proof. vm_compute. do 2 right. left. Qed.

Lemma july_hours_sheet :
  ∃ ws,
    ws ∈ (write_report str_tenths plot_ok july_frame
            (create_pivot_tables july_frame).1
            (create_pivot_tables july_frame).2).2
    ∧ title ws = sheet_hours.
Proof. eexists. split; [vm_compute; left|reflexivity]. Qed.

Lemma july_all_finite : all_finite july_frame.
Proof. by repeat constructor. Qed.

Lemma monthly_sheets_partition_witness :
  process_data july_file = inr july_frame
  ∧ all_finite july_frame
  ∧ sum_list ((λ ws, pred (length (cells ws)))
              <$> drop 2 (write_report str_tenths plot_ok july_frame
                            (create_pivot_tables july_frame).1
                            (create_pivot_tables july_frame).2).2)
    = 3%nat.
Proof.
  assert (process_data july_file = inr july_frame) as Hdata by (by vm_compute).
  split; [exact Hdata|]. split; [exact july_all_finite|].
  exact (monthly_sheets_partition str_tenths plot_ok july_file july_frame
           _ _ Hdata july_all_finite).
Defined.

Lemma highlighted_count_witness :
  ∃ ws,
    (7, "Jul") ∈ months
    ∧ month_finite july_frame (2023, (7, "Jul"))
    ∧ ws ∈ (write_report str_tenths plot_ok july_frame
              (create_pivot_tables july_frame).1
              (create_pivot_tables july_frame).2).2
    ∧ title ws = "2023_Jul"
    ∧ length (filled (cells ws)) = 2%nat.
Proof.
  pose proof july_in_months as Hm.
  assert (month_finite july_frame (2023, (7, "Jul"))) as Hfin
    by (by repeat constructor).
  exists (month_sheet str_tenths july_frame (2023, (7, "Jul"))).
  split; [exact Hm|]. split; [exact Hfin|].
  split; [exact july_month_sheet|]. split; [reflexivity|].
  rewrite (highlighted_count str_tenths plot_ok july_frame _ _ _ 2023 7 "Jul"
             Hm Hfin july_month_sheet eq_refl).
  by vm_compute.
Defined.

Lemma counted_month_has_sheet_witness :
  (7, "Jul") ∈ months
  ∧ all_finite july_frame
  ∧ loc (create_pivot_tables july_frame).1 2023 "Jul" = Some 2%nat
  ∧ ∃ ws,
      ws ∈ (write_report str_tenths plot_ok july_frame
              (create_pivot_tables july_frame).1
              (create_pivot_tables july_frame).2).2
      ∧ title ws = "2023_Jul"
      ∧ length (filled (cells ws)) = 2%nat.
Proof.
  pose proof july_in_months as Hm.
  assert (loc (create_pivot_tables july_frame).1 2023 "Jul" = Some 2%nat)
    as Hloc by (by vm_compute).
  split; [exact Hm|]. split; [exact july_all_finite|]. split; [exact Hloc|].
  exact (counted_month_has_sheet str_tenths plot_ok july_frame _ _
           2023 7 "Jul" 1 Hm july_all_finite Hloc).
Defined.

Lemma existing_sheets_kept_witness :
  ∃ sheets,
    (save_monthly_data str_tenths july_frame
       [new_sheet sheet_hours []; new_sheet sheet_days []]).2
    = [new_sheet sheet_hours []; new_sheet sheet_days []] ++ sheets
    ∧ title <$> sheets = ["2023_Jul"]
    ∧ (save_monthly_data str_tenths july_frame
         [new_sheet sheet_hours []; new_sheet sheet_days []]).1 = inr ().
Proof.
  destruct (existing_sheets_kept str_tenths july_frame
              [new_sheet sheet_hours []; new_sheet sheet_days []])
    as (keys & sheets & Hbook & Htitles & _ & Hend).
  - intros ws y m name Hws Hm.
    destruct (sheet_name_not_summary y m name Hm) as [Hh Hd].
    rewrite !elem_of_cons, elem_of_nil in Hws.
    destruct Hws as [->|[->|[]]]; cbn [title new_sheet]; congruence.
  - destruct (decide (Forall (month_finite july_frame) (detail_keys july_frame)))
      as [Hall|Hsome].
    + destruct Hend as [Hout ->]. exists sheets.
      split; [exact Hbook|]. split; [|exact Hout].
      rewrite Htitles. by vm_compute.
    + destruct Hsome. apply all_finite_months, july_all_finite.
Defined.

Lemma date_and_time_widths_witness :
  ∃ ws,
    process_data july_file = inr july_frame
    ∧ (7, "Jul") ∈ months
    ∧ ws ∈ (write_report str_tenths plot_ok july_frame
              (create_pivot_tables july_frame).1
              (create_pivot_tables july_frame).2).2
    ∧ title ws = "2023_Jul"
    ∧ column_dimensions ws !! "A" = Some 12%nat
    ∧ column_dimensions ws !! "B" = Some 10%nat.
Proof.
  assert (process_data july_file = inr july_frame) as Hdata by (by vm_compute).
  pose proof july_in_months as Hm.
  exists (month_sheet str_tenths july_frame (2023, (7, "Jul"))).
  split; [exact Hdata|]. split; [exact Hm|].
  split; [exact july_month_sheet|]. split; [reflexivity|].
  destruct (date_and_time_widths str_tenths plot_ok july_file july_frame
              _ _ _ 2023 7 "Jul" Hdata Hm july_month_sheet eq_refl)
    as (HA & HB & _).
  split; [exact HA|exact HB].
Defined.

Lemma chart_images_witness :
  ∃ ws,
    process_data july_file = inr july_frame
    ∧ ws ∈ (write_report str_tenths plot_ok july_frame
            (create_pivot_tables july_frame).1
            (create_pivot_tables july_frame).2).2
    ∧ title ws = sheet_hours
    ∧ images ws
      = [("/tmp/Anzahl der Stunden mit Temperaturen ≥ 27°C pro Jahr und Monat.png",
          "E5")].
Proof.
  destruct july_hours_sheet as (ws & Hws & Htitle).
  assert (process_data july_file = inr july_frame) as Hdata by (by vm_compute).
  exists ws. split; [exact Hdata|]. split; [exact Hws|]. split; [exact Htitle|].
  rewrite (chart_images str_tenths plot_ok july_file july_frame _ _ ws
             Hdata Hws).
  rewrite decide_True by apply july_all_finite.
  cbn. by rewrite decide_True.
Defined.

Lemma summary_sheet_cells_witness :
  ∃ ws i j header row,
    ws ∈ (write_report str_tenths plot_ok july_frame
            (create_pivot_tables july_frame).1
            (create_pivot_tables july_frame).2).2
    ∧ title ws = sheet_hours
    ∧ loc (create_pivot_tables july_frame).1 2023 "Jul" = Some 2%nat
    ∧ cells ws !! 0%nat = Some header
    ∧ header !! S j = Some (plain (VStr "Jul"))
    ∧ cells ws !! S i = Some row
    ∧ row !! 0%nat = Some (plain (VInt 2023))
    ∧ row !! S j = Some (plain (VInt 2)).
Proof.
  destruct july_hours_sheet as (ws & Hws & Htitle).
  assert (loc (create_pivot_tables july_frame).1 2023 "Jul" = Some 2%nat)
    as Hloc by (by vm_compute).
  destruct (summary_sheet_cells str_tenths plot_ok july_frame _ _ _ ws
              2023 "Jul" 2 Hws (or_introl (conj Htitle eq_refl)) Hloc)
    as (i & j & header & row & H0 & _ & Hj & Hi & Hy & Hn).
  exists ws, i, j, header, row. by split_and!.
Defined.

(** ** Successful runs *)

Section successful_runs.
Context (str_float : float64 → string).
Context (plot_pivot : PivotTable string → string → Exc string).
Context (book_save : Workbook → bool).

(** For a parsed frame the [with] block ends normally exactly when no
    temperature is missing or infinite and both plots succeed. *)
Lemma write_report_returns (file : list RawRow) (df : DataFrame)
    (pivot_hours pivot_days : PivotTable string) :
  process_data file = inr df →
  (write_report str_float plot_pivot df pivot_hours pivot_days).1 = inr ()
  ↔ all_finite df
    ∧ ∃ paths,
        plot_and_save_pivot_tables plot_pivot pivot_hours pivot_days = inr paths.
Proof.
  intros Hdf. rewrite write_report_outcome.
  rewrite <- (parsed_months_finite file df Hdf).
  destruct (decide (Forall (month_finite df) (detail_keys df))) as [Hall|Hsome].
  - destruct (plot_and_save_pivot_tables plot_pivot pivot_hours pivot_days)
      as [e|paths].
    + split; [done|]. by intros (_ & paths & ?).
    + split; [|done]. intros _. split; [done|]. by exists paths.
  - split; [done|]. by intros [? _].
Qed.

(** X15. A run on a file ends without an exception exactly when every
    timestamp parses, no temperature is missing or infinite, both plots
    succeed and the workbook is saved; the screen then shows the title,
    the success message with the name of the report and the download
    button, which offers the saved workbook under that name, whatever was
    stored under the name before. *)
Theorem successful_run (file : list RawRow) (σ σ' : World) :
  main str_float plot_pivot book_save true (Some file) σ = (inr (), σ')
  ↔ match process_data file with
    | inl _ => False
    | inr df =>
        let report := write_report str_float plot_pivot df
                        (create_pivot_tables df).1 (create_pivot_tables df).2 in
        all_finite df
        ∧ (∃ paths,
             plot_and_save_pivot_tables plot_pivot
               (create_pivot_tables df).1 (create_pivot_tables df).2
             = inr paths)
        ∧ book_save report.2 = true
        ∧ σ' = {| disk := Some (Saved report.2);
                  screen := screen σ ++
                    [st_title "Wetterdaten Analyse";
                     st_success "Excel-Datei wurde erstellt: wetterdaten_analyse_jahr_monat_linie.xlsx";
                     st_download_button "Download Excel-Datei"
                       (Saved report.2)
                       "wetterdaten_analyse_jahr_monat_linie.xlsx"] |}
    end.
Proof.
  unfold main. destruct (process_data file) as [e|df] eqn:Hdf; [done|].
  pose proof (write_report_returns file df (create_pivot_tables df).1
                (create_pivot_tables df).2 Hdf) as Hreturns.
  destruct (create_pivot_tables df) as [pivot_hours pivot_days].
  unfold with_ExcelWriter. cbn [fst snd] in *. cbn zeta.
  rewrite (assoc and), <- Hreturns.
  destruct (write_report str_float plot_pivot df pivot_hours pivot_days)
    as [[e|[]] book]; cbn [fst snd];
    (destruct (book_save book); [|split; [done|by intros (_ & ? & _)]]).
  - split; [done|]. by intros [? _].
  - unfold show, store; cbn [disk screen]. rewrite <- !app_assoc. cbn [app].
    split; [by intros [= <-]|by intros (_ & _ & ->)].
Qed.
End successful_runs.

(** ** Retrieval *)

Lemma prefix_app (k s : string) :
  String.prefix k s = true ↔ ∃ b, s = k +:+ b.
Proof.
  revert s. induction k as [|c k IH]; intros s.
  - split; [by exists s|]. by destruct s.
  - destruct s as [|c' s]; cbn.
    + split; [done|]. by intros [b ?].
    + destruct (Ascii.ascii_dec c c') as [->|Hne].
      * rewrite IH. split; intros [b Hb]; exists b; [by rewrite Hb|].
        by injection Hb.
      * split; [done|]. intros [b Hb]. injection Hb as -> _. done.
Qed.

(** [keyword in text] holds exactly when the text is some text, the
    keyword and some text. *)
Lemma str_in_occurs (keyword text : string) :
  str_in keyword text = true ↔ ∃ a b, text = a +:+ keyword +:+ b.
Proof.
  induction text as [|c text IH]; cbn [str_in]; rewrite orb_true_iff, prefix_app.
  - split.
    + intros [[b Hb]|]; [|done]. by exists "", b.
    + intros (a & b & Hab). left. destruct a; [by exists b|done].
  - rewrite IH. split.
    + intros [[b Hb]|(a & b & ->)]; [by exists "", b|].
      by exists (String c a), b.
    + intros ([|c' a] & b & Hab); [left; by exists b|].
      right. injection Hab as -> ->. by exists a, b.
Qed.

Lemma str_in_nonempty (keyword name : string) :
  keyword ≠ "" → str_in keyword name = true → name ≠ "".
Proof. intros Hk Hin ->. destruct keyword; [done|]. by cbn in Hin. Qed.

(** [next((x for x in l if f(x)), None)]: the first element that passes. *)
Lemma find_first {A} (f : A → bool) (l : list A) (x : A) :
  find f l = Some x
  ↔ ∃ i, l !! i = Some x ∧ f x = true
         ∧ ∀ j y, (j < i)%nat → l !! j = Some y → f y = false.
Proof.
  induction l as [|a l IH]; cbn [find].
  - split; [done|]. by intros (i & ? & _).
  - destruct (f a) eqn:Ha.
    + split.
      * intros [= ->]. exists 0%nat. split_and!; [done..|]. lia.
      * intros ([|i] & Hi & Hx & Hfirst); [by simplify_eq/=|].
        specialize (Hfirst 0%nat a ltac:(lia) eq_refl). congruence.
    + rewrite IH. split.
      * intros (i & Hi & Hx & Hfirst). exists (S i). split_and!; [done..|].
        intros [|j] y Hj Hy; [by simplify_eq/=|].
        apply (Hfirst j); [lia|done].
      * intros ([|i] & Hi & Hx & Hfirst); [simplify_eq/=; congruence|].
        exists i. split_and!; [done..|].
        intros j y Hj Hy. apply (Hfirst (S j)); [lia|done].
Qed.

Lemma find_none_iff {A} (f : A → bool) (l : list A) :
  find f l = None ↔ Forall (λ x, f x = false) l.
Proof.
  induction l as [|a l IH]; cbn [find]; [by split; [constructor|]|].
  destruct (f a) eqn:Ha.
  - split; [done|]. intros [? _]%Forall_cons. congruence.
  - rewrite IH, Forall_cons. tauto.
Qed.

(** The first name with the keyword in it. *)
Lemma find_keyword (keyword : string) (names : list string) (name : string) :
  find (str_in keyword) names = Some name
  ↔ (∃ i, names !! i = Some name
          ∧ ∀ j other, (j < i)%nat → names !! j = Some other →
              ¬ ∃ a b, other = a +:+ keyword +:+ b)
    ∧ ∃ a b, name = a +:+ keyword +:+ b.
Proof.
  rewrite find_first. setoid_rewrite <- str_in_occurs.
  setoid_rewrite not_true_iff_false. split.
  - intros (i & ? & ? & ?). split; [by exists i|done].
  - intros [(i & ? & ?) ?]. by exists i.
Qed.

Lemma find_no_keyword (keyword : string) (names : list string) :
  find (str_in keyword) names = None
  ↔ Forall (λ other, ¬ ∃ a b, other = a +:+ keyword +:+ b) names.
Proof.
  rewrite find_none_iff. apply Forall_proper; [|done]. intros other.
  by rewrite <- str_in_occurs, not_true_iff_false.
Qed.

Lemma raise_for_status_ok {B} (response : Response B) :
  raise_for_status response = inr () ↔ ¬ 400 ≤ status_code response < 600.
Proof.
  unfold raise_for_status. cbn zeta.
  destruct ((400 <=? status_code response) && (status_code response <? 500))
    eqn:H4; [|destruct ((500 <=? status_code response)
                        && (status_code response <? 600)) eqn:H5];
    rewrite ?andb_true_iff, ?andb_false_iff, ?Z.leb_le, ?Z.ltb_lt,
      ?Z.leb_gt, ?Z.ltb_ge in *; split; (done || lia).
Qed.

Section download_facts.
Context {B Zip FS : Type}.
Context (requests_get : string → string + Response B).
Context (ZipFile : B → string + Zip).
Context (namelist : Zip → list string).
Context (extract : Zip → string → FS → option string * FS).

(** X16. [download_and_extract] returns a name exactly when the request
    is answered with a status outside 400 to 599, the answer opens as an
    archive, some member name contains the keyword, the first such name,
    in the order of the archive, is not empty, and its extraction does
    not raise; the name returned is that first name, the working
    directory is as the extraction left it, and nothing is shown. *)
Theorem download_and_extract_found (url keyword name : string)
    (cwd cwd' : FS) (shown : list Widget) :
  download_and_extract requests_get ZipFile namelist extract url keyword cwd
    = (Some name, cwd', shown)
  ↔ ∃ response zip_ref,
      requests_get url = inr response
      ∧ ¬ 400 ≤ status_code response < 600
      ∧ ZipFile (content response) = inr zip_ref
      ∧ (∃ i, namelist zip_ref !! i = Some name
              ∧ ∀ j other, (j < i)%nat → namelist zip_ref !! j = Some other →
                  ¬ ∃ a b, other = a +:+ keyword +:+ b)
      ∧ (∃ a b, name = a +:+ keyword +:+ b)
      ∧ name ≠ ""
      ∧ extract zip_ref name cwd = (None, cwd')
      ∧ shown = [].
Proof.
  unfold download_and_extract, download_body. split.
  - destruct (requests_get url) as [e|response]; [done|].
    destruct (raise_for_status response) as [e|[]] eqn:Hstatus; [done|].
    apply raise_for_status_ok in Hstatus.
    destruct (ZipFile (content response)) as [e|zip_ref] eqn:Hzip; [done|].
    destruct (find (str_in keyword) (namelist zip_ref)) as [target_file|]
      eqn:Hfind; [|done].
    apply find_keyword in Hfind as [Hi Hocc].
    case_bool_decide as Hempty; [done|].
    destruct (extract zip_ref target_file cwd) as [[e|] cwd''] eqn:Hex; [done|].
    intros [= <- <- <-]. by exists response, zip_ref.
  - intros (response & zip_ref & -> & Hstatus%raise_for_status_ok & Hzip
            & Hi & Hocc & Hne & Hex & ->).
    rewrite Hstatus, Hzip, (proj2 (find_keyword _ _ _) (conj Hi Hocc)).
    by rewrite bool_decide_eq_false_2, Hex by done.
Qed.

(** X17. With a keyword that is not empty, as the one [main] passes,
    [download_and_extract] returns [None] without showing anything
    exactly when the request is answered with a status outside 400 to
    599, the answer opens as an archive and no member name contains the
    keyword; the working directory is then as it was. *)
Theorem download_and_extract_no_member (url keyword : string) (cwd cwd' : FS) :
  keyword ≠ "" →
  download_and_extract requests_get ZipFile namelist extract url keyword cwd
    = (None, cwd', [])
  ↔ ∃ response zip_ref,
      requests_get url = inr response
      ∧ ¬ 400 ≤ status_code response < 600
      ∧ ZipFile (content response) = inr zip_ref
      ∧ Forall (λ other, ¬ ∃ a b, other = a +:+ keyword +:+ b)
               (namelist zip_ref)
      ∧ cwd' = cwd.
Proof.
  intros Hkeyword. unfold download_and_extract, download_body. split.
  - destruct (requests_get url) as [e|response]; [done|].
    destruct (raise_for_status response) as [e|[]] eqn:Hstatus; [done|].
    apply raise_for_status_ok in Hstatus.
    destruct (ZipFile (content response)) as [e|zip_ref] eqn:Hzip; [done|].
    destruct (find (str_in keyword) (namelist zip_ref)) as [target_file|]
      eqn:Hfind.
    + assert (target_file ≠ "") as Hne.
      { apply (str_in_nonempty keyword); [done|].
        by apply find_some in Hfind as [_ ?]. }
      rewrite bool_decide_eq_false_2 by done.
      by destruct (extract zip_ref target_file cwd) as [[e|] cwd''].
    + apply find_no_keyword in Hfind.
      intros [= <-]. by exists response, zip_ref.
  - intros (response & zip_ref & -> & Hstatus%raise_for_status_ok & Hzip
            & Hnone%find_no_keyword & ->).
    by rewrite Hstatus, Hzip, Hnone.
Qed.

(** X18. Whatever the calls answer, [download_and_extract] shows nothing
    or one error, the fixed text followed by the text of the exception,
    and it returns no name when it shows the error; and it leaves the
    working directory as it was or as the extraction of the first member
    with the keyword in its name left it. *)
Theorem download_and_extract_outcome (url keyword : string) (cwd cwd' : FS)
    (target : option string) (shown : list Widget) :
  download_and_extract requests_get ZipFile namelist extract url keyword cwd
    = (target, cwd', shown) →
  (shown = []
   ∨ (target = None
      ∧ ∃ e, shown = [st_error ("Ein Fehler ist aufgetreten: " +:+ e)]))
  ∧ (cwd' = cwd
     ∨ ∃ response zip_ref name,
         requests_get url = inr response
         ∧ ZipFile (content response) = inr zip_ref
         ∧ find (str_in keyword) (namelist zip_ref) = Some name
         ∧ cwd' = (extract zip_ref name cwd).2).
Proof.
  unfold download_and_extract, download_body.
  destruct (requests_get url) as [e|response] eqn:Hget;
    [intros [= <- <- <-]; eauto 6|].
  destruct (raise_for_status response) as [e|[]];
    [intros [= <- <- <-]; eauto 6|].
  destruct (ZipFile (content response)) as [e|zip_ref] eqn:Hzip;
    [intros [= <- <- <-]; eauto 6|].
  destruct (find (str_in keyword) (namelist zip_ref)) as [target_file|] eqn:Hf;
    [|intros [= <- <- <-]; eauto 6].
  case_bool_decide; [intros [= <- <- <-]; eauto 6|].
  destruct (extract zip_ref target_file cwd) as [[e|] cwd''] eqn:Hex;
    intros [= <- <- <-]; (split; [eauto 6|]); right;
    exists response, zip_ref, target_file; by rewrite Hex.
Qed.
End download_facts.

(** *** On the samples *)

(** From the sample archive the first file of hourly values is
    extracted, not the description before it nor the second file of
    hourly values after it. *)
Lemma station_archive_download :
  download_and_extract server_ok (open_archive station_archive) id extract_ok
    "https://opendata.dwd.de/" main_keyword []
  = (Some "produkt_tu_stunde_20230101_20241231_02014.txt",
     ["produkt_tu_stunde_20230101_20241231_02014.txt"], []).
Proof. by vm_compute. Qed.

Lemma not_found_download :
  download_and_extract server_not_found (open_archive station_archive) id
    extract_ok "https://opendata.dwd.de/" main_keyword []
  = (None, [],
     [st_error "Ein Fehler ist aufgetreten: 404 Client Error: Not Found for url: https://opendata.dwd.de/"]).
Proof. by vm_compute. Qed.

Lemma download_and_extract_no_member_witness :
  main_keyword ≠ ""
  ∧ download_and_extract server_ok (open_archive other_archive) id extract_ok
      "https://opendata.dwd.de/" main_keyword []
    = (None, [], []).
Proof.
  assert (main_keyword ≠ "") as Hkeyword by done.
  split; [exact Hkeyword|].
  apply (download_and_extract_no_member server_ok (open_archive other_archive)
           id extract_ok _ main_keyword [] [] Hkeyword).
  eexists _, other_archive. split; [reflexivity|].
  split; [cbn; lia|]. split; [reflexivity|]. split; [|reflexivity].
  apply find_no_keyword. reflexivity.
Defined.

Lemma download_and_extract_outcome_witness :
  ∃ e,
    download_and_extract server_not_found (open_archive station_archive) id
      extract_ok "https://opendata.dwd.de/" main_keyword []
    = (None, [], [st_error ("Ein Fehler ist aufgetreten: " +:+ e)]).
Proof.
  destruct (download_and_extract_outcome server_not_found
              (open_archive station_archive) id extract_ok _ _ _ _ _ _
              not_found_download) as [[Hnone|[_ [e He]]] _].
  - discriminate Hnone.
  - exists e. rewrite not_found_download. by rewrite <- He.
Defined.
